(** * p2ee.orm: field validation and schema composition

    A shallow embedding of [p2ee/orm/models/exceptions.py],
    [p2ee/orm/models/base/fields/__init__.py] and
    [p2ee/orm/models/base/docs/meta.py] (Python 2), followed by the
    properties of the field-validation engine and of the schema composer.

    Layout:
    - [Py]: the Python 2 values the fields see, and the builtins the source
      applies to them (truth value, [==], [<], [isinstance], [len],
      [set.add], [dict.__setitem__], [float.is_integer], [int], [float]);
    - [Exceptions]: the three exception classes of exceptions.py and the
      outcome of a call;
    - [Fields]: the field classes, their constructors and [validate];
    - [Meta]: [DocumentMetaClass.__init__] over a heap of field objects;
    - the theorems. *)

From Stdlib Require Import ZArith Lia String List Bool.
From Stdlib Require Import Floats.SpecFloat.
From stdpp Require Import base option list gmap strings.

Local Set Warnings "-register-all".
Local Open Scope string_scope.
Local Open Scope list_scope.
Local Open Scope Z_scope.

(* ===================================================================== *)
(** * Python values *)
(* ===================================================================== *)

Module Py.

(** The values of Python 2 that this development represents.  [VInt] is
    both [int] and [long] (Python 2 promotes silently, and the source always
    names the two together); [VStr] is a byte string [str]; [VFloat] is a
    binary64 float given by its IEEE-754 decomposition; [VDatetime] is a
    naive [datetime.datetime], as microseconds since the epoch; [VSet] and
    [VDict] list their elements in iteration order; [VInstance cls oid] is
    an instance of the user class [cls] (for example a document), [oid]
    being its identity. *)
Inductive PyVal : Type :=
| VNone
| VBool (b : bool)
| VInt (n : Z)
| VFloat (x : spec_float)
| VStr (s : string)
| VDatetime (t : Z)
| VList (xs : list PyVal)
| VTuple (xs : list PyVal)
| VSet (xs : list PyVal)
| VDict (kvs : list (PyVal * PyVal))
| VInstance (cls : string) (oid : nat).

(** Classes, as far as [isinstance] needs them. *)
Inductive PyType : Type :=
| TNoneType | TBool | TInt | TLong | TFloat | TStr | TDatetime
| TList | TTuple | TSet | TDict
| TClass (name : string)
| TObject.

Definition PyType_eqb (a b : PyType) : bool :=
  match a, b with
  | TNoneType, TNoneType | TBool, TBool | TInt, TInt | TLong, TLong
  | TFloat, TFloat | TStr, TStr | TDatetime, TDatetime
  | TList, TList | TTuple, TTuple | TSet, TSet | TDict, TDict
  | TObject, TObject => true
  | TClass n, TClass m => String.eqb n m
  | _, _ => false
  end.

(** [type(value)]. *)
Definition type_of (v : PyVal) : PyType :=
  match v with
  | VNone => TNoneType
  | VBool _ => TBool
  | VInt _ => TInt
  | VFloat _ => TFloat
  | VStr _ => TStr
  | VDatetime _ => TDatetime
  | VList _ => TList
  | VTuple _ => TTuple
  | VSet _ => TSet
  | VDict _ => TDict
  | VInstance cls _ => TClass cls
  end.

(** [issubclass(a, b)]: every class derives from [object], and [bool]
    derives from [int]. *)
Definition issubclass (a b : PyType) : bool :=
  PyType_eqb a b
  || PyType_eqb b TObject
  || (PyType_eqb a TBool && PyType_eqb b TInt).

(** [isinstance(value, types)] for a tuple of classes. *)
Definition isinstance (v : PyVal) (types : list PyType) : bool :=
  existsb (issubclass (type_of v)) types.

(** [bool(value)]: the truth value used by [if value:] and [a and b]. *)
Definition truthy (v : PyVal) : bool :=
  match v with
  | VNone => false
  | VBool b => b
  | VInt n => negb (n =? 0)
  | VFloat (S754_zero _) => false
  | VFloat _ => true
  | VStr s => negb (String.eqb s "")
  | VDatetime _ => true
  | VList xs | VTuple xs | VSet xs => match xs with [] => false | _ => true end
  | VDict kvs => match kvs with [] => false | _ => true end
  | VInstance _ _ => true
  end.

(** [a and b]. *)
Definition py_and (a b : PyVal) : PyVal := if truthy a then b else a.

(** ** Numbers *)

(** The exact value of a number: [NFin m e] is [m * 2^e]. *)
Inductive Num : Type :=
| NNan
| NInf (neg : bool)
| NFin (m e : Z).

Definition num_of_float (x : spec_float) : Num :=
  match x with
  | S754_zero _ => NFin 0 0
  | S754_infinity s => NInf s
  | S754_nan => NNan
  | S754_finite s m e => NFin (if s then Z.neg m else Z.pos m) e
  end.

Definition num_of (v : PyVal) : option Num :=
  match v with
  | VBool b => Some (NFin (Z.b2z b) 0)
  | VInt n => Some (NFin n 0)
  | VFloat x => Some (num_of_float x)
  | _ => None
  end.

(** The outcome of an ordering comparison; [Unordered] is what a NaN or two
    sets that do not contain one another give: neither [<], [==] nor [>]. *)
Inductive Ordering : Type := Less | Equal | Greater | Unordered.

Definition Ordering_of (c : comparison) : Ordering :=
  match c with Lt => Less | Eq => Equal | Gt => Greater end.

Definition num_cmp (a b : Num) : Ordering :=
  match a, b with
  | NNan, _ | _, NNan => Unordered
  | NInf s1, NInf s2 =>
      if s1 then (if s2 then Equal else Less) else (if s2 then Greater else Equal)
  | NInf s, NFin _ _ => if s then Less else Greater
  | NFin _ _, NInf s => if s then Greater else Less
  | NFin m1 e1, NFin m2 e2 =>
      let e := Z.min e1 e2 in
      Ordering_of (Z.compare (m1 * 2 ^ (e1 - e)) (m2 * 2 ^ (e2 - e)))
  end.

(** [value.is_integer()] on a float. *)
Definition is_integer (x : spec_float) : bool :=
  match x with
  | S754_zero _ => true
  | S754_finite _ m e => (0 <=? e) || (Z.pos m mod 2 ^ (- e) =? 0)
  | _ => false
  end.

(** [int(value)] on a float (truncation towards zero; infinities and NaN
    are not in its domain and map to 0 here: [is_integer] rules them out
    before the source converts). *)
Definition int_of_float (x : spec_float) : Z :=
  match x with
  | S754_finite s m e =>
      let a := if 0 <=? e then Z.pos m * 2 ^ e else Z.pos m / 2 ^ (- e) in
      if s then - a else a
  | _ => 0
  end.

(** [float(value)] on an integer: round to nearest even in binary64;
    [None] stands for the [OverflowError] of an integer too large. *)
Definition float_of_int (n : Z) : option spec_float :=
  match binary_normalize 53 1024 n 0 false with
  | S754_infinity _ => None
  | x => Some x
  end.

(** [isinstance(value, (long, int))], with the integer it is. *)
Definition as_integer (v : PyVal) : option Z :=
  match v with
  | VBool b => Some (Z.b2z b)
  | VInt n => Some n
  | _ => None
  end.

(** ** Equality and order *)

Definition Ordering_is_equal (o : Ordering) : bool :=
  match o with Equal => true | _ => false end.

(** [a == b].  Numbers compare by value across [bool], [int] and [float];
    sequences element by element; sets and dicts by content; instances by
    identity.  Values of different kinds are unequal. *)
Fixpoint py_eq (a b : PyVal) {struct a} : bool :=
  match a, b with
  | VNone, VNone => true
  | VBool x, _ =>
      match num_of b with
      | Some nb => Ordering_is_equal (num_cmp (NFin (Z.b2z x) 0) nb)
      | None => false
      end
  | VInt x, _ =>
      match num_of b with
      | Some nb => Ordering_is_equal (num_cmp (NFin x 0) nb)
      | None => false
      end
  | VFloat x, _ =>
      match num_of b with
      | Some nb => Ordering_is_equal (num_cmp (num_of_float x) nb)
      | None => false
      end
  | VStr s, VStr t => String.eqb s t
  | VDatetime s, VDatetime t => s =? t
  | VList xs, VList ys | VTuple xs, VTuple ys =>
      (fix go (xs ys : list PyVal) {struct xs} : bool :=
         match xs, ys with
         | [], [] => true
         | x :: xs', y :: ys' => py_eq x y && go xs' ys'
         | _, _ => false
         end) xs ys
  | VSet xs, VSet ys =>
      (length xs =? length ys)%nat
      && forallb (fun x => existsb (py_eq x) ys) xs
  | VDict kvs, VDict lws =>
      (length kvs =? length lws)%nat
      && forallb (fun kv => existsb (fun lw => py_eq (fst kv) (fst lw)
                                              && py_eq (snd kv) (snd lw)) lws) kvs
  | VInstance c i, VInstance d j => String.eqb c d && (i =? j)%nat
  | _, _ => false
  end.

(** [value in seq] for a list or tuple of values: some entry equals the
    value.  CPython also counts an entry that is the very same object.  For
    a value that equals itself the two agree, an object being equal to
    itself; a value that does not ([py_eq v v = false]: a NaN, or a
    sequence that holds one) has no identity here, and what is stated of
    [in] below is stated of values that equal themselves. *)
Definition py_in (v : PyVal) (seq : list PyVal) : bool :=
  existsb (fun c => py_eq v c) seq.

(** [type(value).__name__], by which CPython 2 orders values of unrelated
    classes; numbers count as the empty name and so come first. *)
Definition order_name (v : PyVal) : string :=
  match v with
  | VList _ => "list"
  | VTuple _ => "tuple"
  | VDict _ => "dict"
  | VStr _ => "str"
  | VInstance cls _ => cls
  | _ => ""
  end.

Definition raises_on_mixed_order (v : PyVal) : bool :=
  match v with VDatetime _ | VSet _ => true | _ => false end.

Definition subset_of (xs ys : list PyVal) : bool :=
  forallb (fun x => existsb (py_eq x) ys) xs.

(** The rich comparison of [a] with [b]; [None] is the [TypeError] that
    [datetime] and [set] raise when ordered against another class.  Within
    a class: numbers by value, strings and sequences lexicographically,
    datetimes by instant, sets by inclusion, instances of one class by
    identity.  Across classes (CPython 2's default order): [None] first,
    then numbers, then by class name.  Two dicts are ordered by size; CPython
    orders dicts of one size by their smallest differing item, which is not
    represented: unequal dicts of one size come out [Unordered]. *)
Fixpoint py_ord (a b : PyVal) {struct a} : option Ordering :=
  match a, b with
  | VNone, VNone => Some Equal
  | VBool x, (VBool _ | VInt _ | VFloat _) =>
      option_map (num_cmp (NFin (Z.b2z x) 0)) (num_of b)
  | VInt x, (VBool _ | VInt _ | VFloat _) =>
      option_map (num_cmp (NFin x 0)) (num_of b)
  | VFloat x, (VBool _ | VInt _ | VFloat _) =>
      option_map (num_cmp (num_of_float x)) (num_of b)
  | VStr s, VStr t => Some (Ordering_of (String.compare s t))
  | VDatetime s, VDatetime t => Some (Ordering_of (Z.compare s t))
  | VList xs, VList ys | VTuple xs, VTuple ys =>
      (fix go (xs ys : list PyVal) {struct xs} : option Ordering :=
         match xs, ys with
         | [], [] => Some Equal
         | [], _ :: _ => Some Less
         | _ :: _, [] => Some Greater
         | x :: xs', y :: ys' => if py_eq x y then go xs' ys' else py_ord x y
         end) xs ys
  | VSet xs, VSet ys =>
      Some (match subset_of xs ys, subset_of ys xs with
            | true, true => Equal
            | true, false => Less
            | false, true => Greater
            | false, false => Unordered
            end)
  | VDict kvs, VDict lws =>
      Some (match Nat.compare (length kvs) (length lws) with
            | Lt => Less
            | Gt => Greater
            | Eq => if py_eq a b then Equal else Unordered
            end)
  | VInstance c i, VInstance d j =>
      Some (match String.compare c d with
            | Eq => Ordering_of (Nat.compare i j)
            | o => Ordering_of o
            end)
  | _, _ =>
      if raises_on_mixed_order a || raises_on_mixed_order b then None
      else match a, b with
           | VNone, _ => Some Less
           | _, VNone => Some Greater
           | _, _ => Some (Ordering_of (String.compare (order_name a) (order_name b)))
           end
  end.

(** [a < b] and [a > b]; [None] when the comparison raises [TypeError]. *)
Definition py_lt (a b : PyVal) : option bool :=
  option_map (fun o => match o with Less => true | _ => false end) (py_ord a b).

Definition py_gt (a b : PyVal) : option bool :=
  option_map (fun o => match o with Greater => true | _ => false end) (py_ord a b).

(** ** Containers *)

(** [hash(value)] succeeds: lists, sets and dicts are unhashable. *)
Fixpoint hashable (v : PyVal) : bool :=
  match v with
  | VList _ | VSet _ | VDict _ => false
  | VTuple xs => forallb hashable xs
  | _ => true
  end.

(** [s.add(value)] on the elements of a set; [None] is the [TypeError] of
    an unhashable value. *)
Definition set_add (xs : list PyVal) (v : PyVal) : option (list PyVal) :=
  if hashable v then Some (if py_in v xs then xs else xs ++ [v]) else None.

(** [set(iterable)]. *)
Fixpoint set_of_list (acc xs : list PyVal) : option (list PyVal) :=
  match xs with
  | [] => Some acc
  | x :: xs' =>
      match set_add acc x with
      | Some acc' => set_of_list acc' xs'
      | None => None
      end
  end.

(** [d[key] = value] on the items of a dict: an equal key keeps its place
    and takes the new value. *)
Fixpoint dict_replace (kvs : list (PyVal * PyVal)) (k v : PyVal)
  : option (list (PyVal * PyVal)) :=
  match kvs with
  | [] => None
  | (k', v') :: rest =>
      if py_eq k k' then Some ((k', v) :: rest)
      else option_map (cons (k', v')) (dict_replace rest k v)
  end.

Definition dict_setitem (kvs : list (PyVal * PyVal)) (k v : PyVal)
  : option (list (PyVal * PyVal)) :=
  if hashable k
  then Some (match dict_replace kvs k v with
             | Some kvs' => kvs'
             | None => kvs ++ [(k, v)]
             end)
  else None.

(** [d[k] = v] for each pair in turn, as a loop of assignments does. *)
Fixpoint dict_setitems (kvs items : list (PyVal * PyVal))
  : option (list (PyVal * PyVal)) :=
  match items with
  | [] => Some kvs
  | (k, v) :: rest =>
      match dict_setitem kvs k v with
      | Some kvs' => dict_setitems kvs' rest
      | None => None
      end
  end.


Definition chars (s : string) : list PyVal :=
  map (fun c => VStr (String c EmptyString)) (list_ascii_of_string s).

(** The elements a [for] loop sees; [None] is the [TypeError] of a value
    that is not iterable. *)
Definition elements (v : PyVal) : option (list PyVal) :=
  match v with
  | VList xs | VTuple xs | VSet xs => Some xs
  | VDict kvs => Some (map fst kvs)
  | VStr s => Some (chars s)
  | _ => None
  end.

(** [len(value)]; [None] is the [TypeError] of a value without a length. *)
Definition py_len (v : PyVal) : option Z :=
  match v with
  | VList xs | VTuple xs | VSet xs => Some (Z.of_nat (length xs))
  | VDict kvs => Some (Z.of_nat (length kvs))
  | VStr s => Some (Z.of_nat (String.length s))
  | _ => None
  end.

(** [\s] of the [re] module on byte strings: space, tab, newline, carriage
    return, form feed and vertical tab. *)
Definition is_space (c : Ascii.ascii) : bool :=
  let n := Ascii.nat_of_ascii c in
  ((n =? 32) || ((9 <=? n) && (n <=? 13)))%nat.

(** [re.compile("^(?!\s*$).+").match(s) is not None]: [s] is not made of
    white space only, and its first character is no newline (which [.]
    does not match). *)
Definition nonblank_match (s : string) : bool :=
  negb (forallb is_space (list_ascii_of_string s))
  && match s with
     | EmptyString => false
     | String c _ => negb (Ascii.nat_of_ascii c =? 10)%nat
     end.

End Py.

(* ===================================================================== *)
(** * exceptions.py *)
(* ===================================================================== *)

Module Exceptions.
Import Py.

(** The message an exception is built with.  The source formats its
    messages with the [repr] of the values involved; here a message is the
    text's identity together with those values.  [MsgPermittedTypes names]
    is ['Value must be one of the permitted types :%s' % names], [names]
    being the already joined string. *)
Inductive Message : Type :=
| MsgFieldRequiredButNone
| MsgValueMustBeOfType (expected : list PyType) (passed : PyType)
| MsgValueCannotBeNone
| MsgNotPermittedValue (choices : list PyVal)
| MsgElementValidatorNotBaseField
| MsgElementValidatorsNotList
| MsgLessThanMin (min_value : PyVal)
| MsgGreaterThanMax (max_value : PyVal)
| MsgStringTooLong (max_length : Z)
| MsgStringTooShort (min_length : Z)
| MsgRegexMismatch
| MsgStringEmpty
| MsgInvalidRegex
| MsgPermittedTypes (names : string)
| MsgTooManyItems (max_items : Z)
| MsgText (text : string).

(** The exceptions of exceptions.py, with the arguments their constructors
    take, and the builtin exceptions the fields can let escape. *)
Inductive PyExn : Type :=
| InvalidFieldValueException (message : Message) (field : option string) (value : PyVal)
| InvalidFieldException (message : Message) (field : option string) (missing : bool)
| InvalidFieldDefinition (message : Message) (field : option string)
| TypeError
| AttributeError
| OverflowError
| ValueError.

(** What a call yields: a value, or a raised exception. *)
Inductive Result (A : Type) : Type :=
| Ok (a : A)
| Raise (e : PyExn).
Arguments Ok {A} a.
Arguments Raise {A} e.

(** The kind of an exception: value-invalid, definition-invalid, and any
    of the three classes of exceptions.py. *)
Definition is_value_invalid (e : PyExn) : bool :=
  match e with InvalidFieldValueException _ _ _ => true | _ => false end.

Definition is_definition_invalid (e : PyExn) : bool :=
  match e with InvalidFieldDefinition _ _ => true | _ => false end.

Definition is_structured (e : PyExn) : bool :=
  match e with
  | InvalidFieldValueException _ _ _ | InvalidFieldException _ _ _
  | InvalidFieldDefinition _ _ => true
  | _ => false
  end.

(** ** The text of a message *)

(** [s.strip(chars)]: the leading and the trailing characters that occur
    in [chars] are removed. *)
Definition strips (chars : string) (a : Ascii.ascii) : bool :=
  existsb (Ascii.eqb a) (list_ascii_of_string chars).

Fixpoint lstrip (chars s : string) : string :=
  match s with
  | String a rest => if strips chars a then lstrip chars rest else s
  | EmptyString => EmptyString
  end.

Fixpoint rstrip (chars s : string) : string :=
  match s with
  | String a rest =>
      match rstrip chars rest with
      | EmptyString => if strips chars a then EmptyString else String a EmptyString
      | kept => String a kept
      end
  | EmptyString => EmptyString
  end.

Definition strip (chars s : string) : string := rstrip chars (lstrip chars s).

(** [InvalidFieldException.get_message]. *)
Definition InvalidFieldException_get_message (field : option string) (missing : bool)
  : string :=
  let message :=
    match field with
    | Some name => name +:+ ": "
    | None => ""
    end in
  if missing
  then strip " " (strip ":" (message +:+ "Missing field(s)"))
  else strip " " (strip ":" (message +:+ "Field(s) is/are not allowed")).

(** The text [get_message] ends with. *)
Definition get_message_text (missing : bool) : string :=
  if missing then "Missing field(s)" else "Field(s) is/are not allowed".

End Exceptions.

(* ===================================================================== *)
(** * fields/__init__.py *)
(* ===================================================================== *)

Module Fields.
Import Py Exceptions.

(** The class of a field object, [type(self)], grouped by the [validate]
    the class inherits.  [ObjectIdField], [EnumField] and [EmailField] rest
    on [bson], on an enum's [fromStr] and on a regular-expression engine and
    are left out. *)
Inductive PlainClass : Type := BaseField | BooleanField | ObjectField.
Inductive BoundedClass : Type :=
| BoundedField | IntField | FloatField | DateTimeField (ignoretz : bool).
Inductive StringClass : Type := StringField | DBNameField.
Inductive ListClass : Type := MultiEmbeddedListField | ListField.

(** [container_type]: the class the list fields build their result with. *)
Inductive ContainerType : Type := ContainerList | ContainerSet | ContainerTuple.

(** A document class as [EmbeddedField] uses it: its [__name__] and its
    constructor applied to the items of a dict, [document( **value )].
    [SimpleDocument] is not part of these sources, so the constructor is
    whatever function the document class brings. *)
Record Document : Type := {
  doc_name : string;
  doc_call : list (PyVal * PyVal) -> Result PyVal
}.

Section WithWorld.

(** The state outside the fields that a zero-argument callable may read or
    change (the clock behind [datetime.utcnow], a counter, ...). *)
Context {W : Type}.

(** A zero-argument callable. *)
Definition Producer : Type := W -> PyVal * W.

(** An attribute that holds either a value or a callable producing one
    ([_default], [_min_value], [_max_value]). *)
Inductive Lazy : Type :=
| Literal (v : PyVal)
| Callable (p : Producer).

(** The attributes [BaseField.__init__] sets. *)
Record BaseAttrs : Type := {
  _default : Lazy;
  _choices : option (list PyVal);
  _required : bool;
  _field_name : option string;
  _allowed_types : list PyType
}.

(** A field object.  A list field keeps the list it was given as
    [element_validators], a dict field its [key_validator] and
    [value_validator]: each entry is a field ([inl]) or one of the values
    that the constructors' check lets through although it is no field
    ([inr]).  A compiled [regex] is its [match] as a predicate. *)
Inductive Field : Type :=
| Plain (c : PlainClass) (b : BaseAttrs)
| Bounded (c : BoundedClass) (b : BaseAttrs) (_min_value _max_value : Lazy)
| Str (c : StringClass) (b : BaseAttrs)
      (regex : option (string -> bool)) (min_length max_length : option Z)
      (allow_empty : bool)
| Multi (c : ListClass) (b : BaseAttrs)
        (element_validators : list (Field + PyVal)) (max_items : option Z)
        (container_type : ContainerType)
| Dict (b : BaseAttrs) (key_validator value_validator : option (Field + PyVal))
| Embedded (b : BaseAttrs) (document : Document).

Definition base (f : Field) : BaseAttrs :=
  match f with
  | Plain _ b | Bounded _ b _ _ | Str _ b _ _ _ _ | Multi _ b _ _ _
  | Dict b _ _ | Embedded b _ => b
  end.

Definition with_base (f : Field) (b : BaseAttrs) : Field :=
  match f with
  | Plain c _ => Plain c b
  | Bounded c _ lo hi => Bounded c b lo hi
  | Str c _ r lo hi e => Str c b r lo hi e
  | Multi c _ evs m ct => Multi c b evs m ct
  | Dict _ k v => Dict b k v
  | Embedded _ d => Embedded b d
  end.

(** [self.__class__.__name__]. *)
Definition class_name (f : Field) : string :=
  match f with
  | Plain BaseField _ => "BaseField"
  | Plain BooleanField _ => "BooleanField"
  | Plain ObjectField _ => "ObjectField"
  | Bounded BoundedField _ _ _ => "BoundedField"
  | Bounded IntField _ _ _ => "IntField"
  | Bounded FloatField _ _ _ => "FloatField"
  | Bounded (DateTimeField _) _ _ _ => "DateTimeField"
  | Str StringField _ _ _ _ _ => "StringField"
  | Str DBNameField _ _ _ _ _ => "DBNameField"
  | Multi MultiEmbeddedListField _ _ _ _ => "MultiEmbeddedListField"
  | Multi ListField _ _ _ _ => "ListField"
  | Dict _ _ _ => "DictField"
  | Embedded _ _ => "EmbeddedField"
  end.

(** ** Calls that raise and change the world *)

Definition M (A : Type) : Type := W -> Result A * W.

Definition ret {A} (a : A) : M A := fun w => (Ok a, w).
Definition raise {A} (e : PyExn) : M A := fun w => (Raise e, w).
Definition bind {A B} (m : M A) (k : A -> M B) : M B :=
  fun w => match m w with
           | (Ok a, w') => k a w'
           | (Raise e, w') => (Raise e, w')
           end.
Definition lift {A} (r : Result A) : M A := fun w => (r, w).

(** Sequencing of calls that only raise. *)
Definition rbind {A B} (r : Result A) (k : A -> Result B) : Result B :=
  match r with Ok a => k a | Raise e => Raise e end.

Notation "'let?' x ':=' r 'in' k" := (rbind r (fun x => k))
  (at level 10, x name, r at level 100, k at level 200).
Notation "'let?' '_' ':=' r 'in' k" := (rbind r (fun _ => k))
  (at level 10, r at level 100, k at level 200).

Notation "'let!' x ':=' m 'in' k" := (bind m (fun x => k))
  (at level 10, x name, m at level 100, k at level 200).
Notation "'run!' m 'in' k" := (bind m (fun _ => k))
  (at level 10, m at level 100, k at level 200).

(** [value() if callable(value) else value]. *)
Definition resolve (l : Lazy) : M PyVal :=
  match l with
  | Literal v => ret v
  | Callable p => fun w => let (v, w') := p w in (Ok v, w')
  end.

(** The value a value-or-callable attribute has in the world [w]. *)
Definition resolved (l : Lazy) (w : W) : PyVal :=
  match l with
  | Literal v => v
  | Callable p => fst (p w)
  end.

(** A value-or-callable attribute that only reads the world: calling it
    leaves the world as it was, so within one call of [validate] every
    evaluation gives the same value. *)
Definition steady (l : Lazy) : Prop :=
  match l with
  | Literal _ => True
  | Callable p => forall w, snd (p w) = w
  end.

(** ** BaseField *)

Definition choices (f : Field) : option (list PyVal) := _choices (base f).
Definition required (f : Field) : bool := _required (base f).
Definition field_name (f : Field) : option string := _field_name (base f).

(** The [field_name] setter: [if self._field_name is None: self._field_name = name]. *)
Definition set_field_name (name : option string) (f : Field) : Field :=
  match _field_name (base f) with
  | None =>
      with_base f {| _default := _default (base f);
                     _choices := _choices (base f);
                     _required := _required (base f);
                     _field_name := name;
                     _allowed_types := _allowed_types (base f) |}
  | Some _ => f
  end.

(** The [default] property. *)
Definition default (f : Field) : M PyVal :=
  let! value := resolve (_default (base f)) in
  match value with
  | VNone =>
      if required f
      then raise (InvalidFieldValueException MsgFieldRequiredButNone (field_name f) VNone)
      else ret value
  | _ => ret value
  end.

(** [_raise_check_failure(value, message=None)]. *)
Definition _raise_check_failure {A} (f : Field) (value : PyVal)
    (message : option Message) : Result A :=
  let failure_message :=
    match message with
    | None => MsgValueMustBeOfType (_allowed_types (base f)) (type_of value)
    | Some m => m
    end in
  Raise (InvalidFieldValueException failure_message (field_name f) value).

(** [BaseField._instance_check]. *)
Definition BaseField_instance_check (f : Field) (value : PyVal) : Result PyVal :=
  if isinstance value (_allowed_types (base f))
  then Ok value
  else _raise_check_failure f value None.

(** [dateutil.parser.parse(value, ignoretz=...)]: an outside library, taken
    as given.  It returns a datetime or raises. *)
Variable parse : PyVal -> bool -> Result PyVal.

(** [IntField._instance_check]: a float with an integral value is
    narrowed. *)
Definition IntField_instance_check (f : Field) (value : PyVal) : Result PyVal :=
  let value :=
    match value with
    | VFloat x => if is_integer x then VInt (int_of_float x) else value
    | _ => value
    end in
  BaseField_instance_check f value.

(** [FloatField._instance_check]: [int] and [long] (and so [bool]) are
    widened. *)
Definition FloatField_instance_check (f : Field) (value : PyVal) : Result PyVal :=
  match as_integer value with
  | Some n =>
      match float_of_int n with
      | Some x => BaseField_instance_check f (VFloat x)
      | None => Raise OverflowError
      end
  | None => BaseField_instance_check f value
  end.

(** [DateTimeField._instance_check]: only [ValueError] is caught. *)
Definition DateTimeField_instance_check (ignoretz : bool) (f : Field) (value : PyVal)
  : Result PyVal :=
  match value with
  | VNone | VDatetime _ => BaseField_instance_check f value
  | _ =>
      match parse value ignoretz with
      | Ok parsed => BaseField_instance_check f parsed
      | Raise ValueError => _raise_check_failure f value None
      | Raise e => Raise e
      end
  end.

(** [self._instance_check(value)], by the class of [self]. *)
Definition _instance_check (f : Field) (value : PyVal) : Result PyVal :=
  match f with
  | Bounded IntField _ _ _ => IntField_instance_check f value
  | Bounded FloatField _ _ _ => FloatField_instance_check f value
  | Bounded (DateTimeField ignoretz) _ _ _ => DateTimeField_instance_check ignoretz f value
  | _ => BaseField_instance_check f value
  end.

(** [BaseField.validate]. *)
Definition BaseField_validate (f : Field) (value : PyVal) : Result PyVal :=
  match _instance_check f value with
  | Raise e => Raise e
  | Ok value =>
      if required f && (match value with VNone => true | _ => false end)
      then Raise (InvalidFieldValueException MsgValueCannotBeNone (field_name f) value)
      else
        match choices f with
        | Some permitted =>
            if negb (py_in value permitted)
            then Raise (InvalidFieldValueException (MsgNotPermittedValue permitted)
                          (field_name f) value)
            else Ok value
        | None => Ok value
        end
  end.

(** ** BoundedField *)

Definition lower (f : Field) : Lazy :=
  match f with Bounded _ _ lo _ => lo | _ => Literal VNone end.
Definition upper (f : Field) : Lazy :=
  match f with Bounded _ _ _ hi => hi | _ => Literal VNone end.

(** The [min_value] and [max_value] properties. *)
Definition min_value (f : Field) : M PyVal := resolve (lower f).
Definition max_value (f : Field) : M PyVal := resolve (upper f).

(** [_min_check]: [self.min_value] is read once for [is not None], once
    for the comparison and once more for the message. *)
Definition _min_check (f : Field) (value : PyVal) : M unit :=
  let! bound := min_value f in
  match bound with
  | VNone => ret tt
  | _ =>
      let! bound := min_value f in
      match py_lt value bound with
      | None => raise TypeError
      | Some false => ret tt
      | Some true =>
          let! bound := min_value f in
          lift (_raise_check_failure f value (Some (MsgLessThanMin bound)))
      end
  end.

Definition _max_check (f : Field) (value : PyVal) : M unit :=
  let! bound := max_value f in
  match bound with
  | VNone => ret tt
  | _ =>
      let! bound := max_value f in
      match py_gt value bound with
      | None => raise TypeError
      | Some false => ret tt
      | Some true =>
          let! bound := max_value f in
          lift (_raise_check_failure f value (Some (MsgGreaterThanMax bound)))
      end
  end.

(** [BoundedField.validate]. *)
Definition BoundedField_validate (f : Field) (value : PyVal) : M PyVal :=
  let! value := lift (BaseField_validate f value) in
  run! _min_check f value in
  run! _max_check f value in
  ret value.

(** ** StringField *)

(** [len(value)] and [regex.match(value)] as calls that may raise. *)
Definition len (value : PyVal) : Result Z :=
  match py_len value with Some n => Ok n | None => Raise TypeError end.

Definition re_match (matches : string -> bool) (value : PyVal) : Result bool :=
  match value with VStr s => Ok (matches s) | _ => Raise TypeError end.

(** [StringField.validate]. *)
Definition StringField_validate (f : Field) (value : PyVal) : Result PyVal :=
  match f with
  | Str _ _ regex min_length max_length allow_empty =>
      let? value := BaseField_validate f value in
      let? _ :=
        match max_length with
        | Some n =>
            let? size := len value in
            if n <? size
            then _raise_check_failure f value (Some (MsgStringTooLong n))
            else Ok tt
        | None => Ok tt
        end in
      let? _ :=
        match min_length with
        | Some n =>
            let? size := len value in
            if size <? n
            then _raise_check_failure f value (Some (MsgStringTooShort n))
            else Ok tt
        | None => Ok tt
        end in
      let? _ :=
        match regex with
        | Some matches =>
            let? found := re_match matches value in
            if found then Ok tt
            else _raise_check_failure f value (Some MsgRegexMismatch)
        | None => Ok tt
        end in
      let? _ :=
        if allow_empty then Ok tt
        else
          let? found := re_match nonblank_match value in
          if found then Ok tt
          else _raise_check_failure f value (Some MsgStringEmpty) in
      Ok value
  | _ => BaseField_validate f value
  end.

(** ** EmbeddedField *)

(** [EmbeddedField.validate]: a dict is turned into a document first. *)
Definition EmbeddedField_validate (f : Field) (value : PyVal) : Result PyVal :=
  match f with
  | Embedded _ document =>
      let? doc :=
        match value with
        | VDict items => doc_call document items
        | _ => Ok value
        end in
      BaseField_validate f doc
  | _ => BaseField_validate f value
  end.

(** ** MultiEmbeddedListField and ListField *)

(** [self.container_type()]. *)
Definition container_new (container_type : ContainerType) : PyVal :=
  match container_type with
  | ContainerList => VList []
  | ContainerSet => VSet []
  | ContainerTuple => VTuple []
  end.

(** [self.container_type(value)]. *)
Definition container_of (container_type : ContainerType) (value : PyVal) : Result PyVal :=
  match elements value with
  | None => Raise TypeError
  | Some xs =>
      match container_type with
      | ContainerList => Ok (VList xs)
      | ContainerTuple => Ok (VTuple xs)
      | ContainerSet =>
          match set_of_list [] xs with
          | Some ys => Ok (VSet ys)
          | None => Raise TypeError
          end
      end
  end.

(** [isinstance(value, self.container_type)]. *)
Definition is_container (container_type : ContainerType) (value : PyVal) : bool :=
  match container_type, value with
  | ContainerList, VList _ | ContainerSet, VSet _ | ContainerTuple, VTuple _ => true
  | _, _ => false
  end.

(** [add_value]: [append] for a list, [add] for a set, nothing for another
    container type. *)
Definition add_value (container_type : ContainerType) (container value : PyVal)
  : Result PyVal :=
  match container_type, container with
  | ContainerList, VList xs => Ok (VList (xs ++ [value]))
  | ContainerSet, VSet xs =>
      match set_add xs value with
      | Some ys => Ok (VSet ys)
      | None => Raise TypeError
      end
  | _, _ => Ok container
  end.

(** The name a rejecting candidate is recorded under: the document's name
    for an [EmbeddedField], the class name otherwise. *)
Definition display_name (element_validator : Field) : string :=
  match element_validator with
  | Embedded _ document => doc_name document
  | _ => class_name element_validator
  end.

(** [validator.validate(val)] on a stored validator: an entry that is no
    field has no [validate] attribute. *)
Definition call_validate (validate : Field -> PyVal -> M PyVal)
    (validator : Field + PyVal) (val : PyVal) : M PyVal :=
  match validator with
  | inl g => validate g val
  | inr _ => raise AttributeError
  end.

(** The inner loop of [MultiEmbeddedListField.validate]: the candidates in
    order, until one returns.  The result is [validated_value] (still [None]
    when every candidate raised [InvalidFieldValueException]) and the grown
    [validators_name].  An entry that is no field has no [validate]
    attribute. *)
Fixpoint try_validators (validate : Field -> PyVal -> M PyVal)
    (candidates : list (Field + PyVal)) (val : PyVal)
    (validators_name : list string) {struct candidates}
  : M (PyVal * list string) :=
  match candidates with
  | [] => ret (VNone, validators_name)
  | inr _ :: _ => raise AttributeError
  | inl element_validator :: rest =>
      fun w =>
        match validate element_validator val w with
        | (Ok validated_value, w') => (Ok (validated_value, validators_name), w')
        | (Raise (InvalidFieldValueException _ _ _), w') =>
            try_validators validate rest val
              (validators_name ++ [display_name element_validator]) w'
        | (Raise e, w') => (Raise e, w')
        end
  end.

(** The outer loop: [validators_name] is created once, before the loop, and
    is carried from one element to the next. *)
Fixpoint validate_elements (validate : Field -> PyVal -> M PyVal) (f : Field)
    (candidates : list (Field + PyVal)) (container_type : ContainerType)
    (vals : list PyVal) (container : PyVal) (validators_name : list string)
    {struct vals} : M PyVal :=
  match vals with
  | [] => ret container
  | val :: rest =>
      let! tried := try_validators validate candidates val validators_name in
      let validated_value := fst tried in
      let validators_name := snd tried in
      if truthy validated_value
      then
        let! container := lift (add_value container_type container validated_value) in
        validate_elements validate f candidates container_type rest container validators_name
      else
        let message := String.concat ", " validators_name in
        raise (InvalidFieldDefinition (MsgPermittedTypes message) (field_name f))
  end.

(** [MultiEmbeddedListField.validate], the candidates' [validate] given. *)
Definition MultiEmbeddedListField_validate (validate : Field -> PyVal -> M PyVal)
    (f : Field) (element_validators : list (Field + PyVal)) (max_items : option Z)
    (container_type : ContainerType) (value : PyVal) : M PyVal :=
  let! value := lift (_instance_check f value) in
  let! container :=
    match element_validators with
    | _ :: _ =>
        let! vals := lift (match elements value with
                           | Some xs => Ok xs
                           | None => Raise TypeError
                           end) in
        validate_elements validate f element_validators container_type vals
          (container_new container_type) []
    | [] =>
        if negb (is_container container_type value)
        then lift (container_of container_type value)
        else ret value
    end in
  let! _ :=
    lift (match max_items with
          | Some n =>
              if negb (n =? 0)
              then let? size := len container in
                   if n <? size
                   then _raise_check_failure f (VInt size) (Some (MsgTooManyItems n))
                   else Ok tt
              else Ok tt
          | None => Ok tt
          end) in
  lift (BaseField_validate f container).

(** ** DictField *)

(** The loop of [DictField.validate] over [value.iteritems()]. *)
Fixpoint validate_items (validate : Field -> PyVal -> M PyVal)
    (key_validator value_validator : option (Field + PyVal))
    (items value_dict : list (PyVal * PyVal)) {struct items}
  : M (list (PyVal * PyVal)) :=
  match items with
  | [] => ret value_dict
  | (key, val) :: rest =>
      let! validated_key :=
        match key_validator with
        | Some v => call_validate validate v key
        | None => ret key
        end in
      let! validated_value :=
        match value_validator with
        | Some v => call_validate validate v val
        | None => ret val
        end in
      let! value_dict :=
        lift (match dict_setitem value_dict validated_key validated_value with
              | Some d => Ok d
              | None => Raise TypeError
              end) in
      validate_items validate key_validator value_validator rest value_dict
  end.

(** [DictField.validate], the validators' [validate] given. *)
Definition DictField_validate (validate : Field -> PyVal -> M PyVal)
    (f : Field) (key_validator value_validator : option (Field + PyVal))
    (value : PyVal) : M PyVal :=
  let! value := lift (_instance_check f value) in
  let! value_dict :=
    match key_validator, value_validator with
    | None, None => ret value
    | _, _ =>
        match value with
        | VDict items =>
            let! d := validate_items validate key_validator value_validator items [] in
            ret (VDict d)
        | _ => raise AttributeError
        end
    end in
  lift (BaseField_validate f value_dict).

(** ** [field.validate(value)] *)

(** The [validate] a field object answers with, by its class. *)
Fixpoint validate (f : Field) (value : PyVal) {struct f} : M PyVal :=
  match f with
  | Plain _ _ => lift (BaseField_validate f value)
  | Bounded _ _ _ _ => BoundedField_validate f value
  | Str _ _ _ _ _ _ => lift (StringField_validate f value)
  | Embedded _ _ => lift (EmbeddedField_validate f value)
  | Multi _ _ element_validators max_items container_type =>
      MultiEmbeddedListField_validate validate f element_validators max_items
        container_type value
  | Dict _ key_validator value_validator =>
      DictField_validate validate f key_validator value_validator value
  end.

(** ** Constructors *)

(** [datetime.datetime.utcnow], the default of a [DateTimeField]. *)
Variable utcnow : Producer.

(** The keyword arguments a constructor hands on as [**kwargs]; [None] is a
    keyword that was not given.  ([choices] is listed apart with every
    constructor: some name it as a parameter of their own.) *)
Record Kwargs : Type := {
  kw_default : option Lazy;
  kw_required : option bool;
  kw_field_name : option string;
  kw_container_type : option ContainerType;
  kw_ignoretz : option bool
}.

(** [kwargs.get(key, value)] and the parameter defaults: the keyword's
    value when it was given. *)
Definition kw_get {A} (given : option A) (value : A) : A :=
  match given with Some a => a | None => value end.

Definition setdefault_default (l : Lazy) (kwargs : Kwargs) : Kwargs :=
  {| kw_default := Some (kw_get (kw_default kwargs) l);
     kw_required := kw_required kwargs;
     kw_field_name := kw_field_name kwargs;
     kw_container_type := kw_container_type kwargs;
     kw_ignoretz := kw_ignoretz kwargs |}.

Definition pop_container_type (kwargs : Kwargs) : Kwargs :=
  {| kw_default := kw_default kwargs;
     kw_required := kw_required kwargs;
     kw_field_name := kw_field_name kwargs;
     kw_container_type := None;
     kw_ignoretz := kw_ignoretz kwargs |}.

Definition pop_ignoretz (kwargs : Kwargs) : Kwargs :=
  {| kw_default := kw_default kwargs;
     kw_required := kw_required kwargs;
     kw_field_name := kw_field_name kwargs;
     kw_container_type := kw_container_type kwargs;
     kw_ignoretz := None |}.

(** [BaseField.__init__(default=None, choices=None, required=False,
    field_name=None, allowed_types=None)]; a keyword it does not name is a
    [TypeError]. *)
Definition BaseField_init (choices : option (list PyVal))
    (allowed_types : list PyType) (kwargs : Kwargs) : Result BaseAttrs :=
  match kw_container_type kwargs, kw_ignoretz kwargs with
  | None, None =>
      Ok {| _default := kw_get (kw_default kwargs) (Literal VNone);
            _choices := choices;
            _required := kw_get (kw_required kwargs) false;
            _field_name := kw_field_name kwargs;
            _allowed_types := allowed_types |}
  | _, _ => Raise TypeError
  end.

Definition ObjectField_init (choices : option (list PyVal)) (kwargs : Kwargs)
  : Result Field :=
  let? b := BaseField_init choices [TObject] kwargs in
  Ok (Plain ObjectField b).

Definition BooleanField_init (choices : option (list PyVal)) (kwargs : Kwargs)
  : Result Field :=
  let kwargs := setdefault_default (Literal (VBool false)) kwargs in
  let? b := BaseField_init choices [TBool] kwargs in
  Ok (Plain BooleanField b).

(** [BoundedField.__init__(min_value=None, max_value=None, **kwargs)]. *)
Definition BoundedField_init (c : BoundedClass) (min_value max_value : Lazy)
    (choices : option (list PyVal)) (allowed_types : list PyType) (kwargs : Kwargs)
  : Result Field :=
  let? b := BaseField_init choices allowed_types kwargs in
  Ok (Bounded c b min_value max_value).

Definition IntField_init (min_value max_value : Lazy)
    (choices : option (list PyVal)) (kwargs : Kwargs) : Result Field :=
  BoundedField_init IntField min_value max_value choices [TInt; TLong] kwargs.

Definition FloatField_init (min_value max_value : Lazy)
    (choices : option (list PyVal)) (kwargs : Kwargs) : Result Field :=
  BoundedField_init FloatField min_value max_value choices [TFloat] kwargs.

Definition DateTimeField_init (min_value max_value : Lazy)
    (choices : option (list PyVal)) (kwargs : Kwargs) : Result Field :=
  let kwargs := setdefault_default (Callable utcnow) kwargs in
  let ignoretz := kw_get (kw_ignoretz kwargs) true in
  BoundedField_init (DateTimeField ignoretz) min_value max_value choices
    [TDatetime] (pop_ignoretz kwargs).

(** A [regex] argument: [re.compile] either gives a pattern, here its
    [match] as a predicate, or fails. *)
Inductive Pattern : Type :=
| Compiles (matches : string -> bool)
| DoesNotCompile.

Definition StringField_init_as (c : StringClass) (regex : option Pattern)
    (min_length max_length : option Z) (allow_empty : bool)
    (choices : option (list PyVal)) (kwargs : Kwargs) : Result Field :=
  let? compiled :=
    match regex with
    | None => Ok None
    | Some (Compiles matches) => Ok (Some matches)
    | Some DoesNotCompile =>
        Raise (InvalidFieldValueException MsgInvalidRegex None VNone)
    end in
  let? b := BaseField_init choices [TStr] kwargs in
  Ok (Str c b compiled min_length max_length allow_empty).

Definition StringField_init := StringField_init_as StringField.

(** [DBNameField.__init__( **kwargs )]: a [StringField] of 1 to 100
    characters. *)
Definition DBNameField_init (regex : option Pattern) (allow_empty : bool)
    (choices : option (list PyVal)) (kwargs : Kwargs) : Result Field :=
  StringField_init_as DBNameField regex (Some 1) (Some 100) allow_empty choices kwargs.

(** [EmbeddedField.__init__(document, **kwargs)], for a [document] that is
    a subclass of [SimpleDocument]. *)
Definition EmbeddedField_init (document : Document)
    (choices : option (list PyVal)) (kwargs : Kwargs) : Result Field :=
  let? b := BaseField_init choices [TClass (doc_name document)] kwargs in
  Ok (Embedded b document).

(** An argument that may be, or hold, a field object: a plain value, a
    field, or a list with such entries.  ([OVal (VList xs)] is a list of
    plain values, and a list as well.) *)
Inductive PyObj : Type :=
| OVal (v : PyVal)
| OField (f : Field)
| OList (items : list PyObj).

Definition obj_truthy (o : PyObj) : bool :=
  match o with
  | OVal v => truthy v
  | OField _ => true
  | OList items => match items with [] => false | _ => true end
  end.

(** [BaseField._validate_validator]: [if validator and not
    isinstance(validator, BaseField): raise]; what is returned is stored as
    it is. *)
Definition BaseField_validate_validator (validator : PyObj) : Result (Field + PyVal) :=
  match validator with
  | OField f => Ok (inl f)
  | OVal v =>
      if truthy v
      then Raise (InvalidFieldDefinition MsgElementValidatorNotBaseField None)
      else Ok (inr v)
  | OList [] => Ok (inr (VList []))
  | OList (_ :: _) => Raise (InvalidFieldDefinition MsgElementValidatorNotBaseField None)
  end.

(** The [for v in validator] loop of the list fields' check. *)
Fixpoint validate_each (items : list PyObj) : Result (list (Field + PyVal)) :=
  match items with
  | [] => Ok []
  | v :: rest =>
      let? checked := BaseField_validate_validator v in
      let? others := validate_each rest in
      Ok (checked :: others)
  end.

(** [MultiEmbeddedListField._validate_validator]: anything but [None] and a
    list is refused; then the loop runs, and iterating [None] is a
    [TypeError]. *)
Definition MultiEmbeddedListField_validate_validator (validator : PyObj)
  : Result (list (Field + PyVal)) :=
  match validator with
  | OVal VNone => Raise TypeError
  | OList items => validate_each items
  | OVal (VList xs) => validate_each (map OVal xs)
  | _ => Raise (InvalidFieldDefinition MsgElementValidatorsNotList None)
  end.

(** [MultiEmbeddedListField.__init__(element_validators=None, choices=None,
    max_items=None, **kwargs)]: [choices] is bound and not used. *)
Definition MultiEmbeddedListField_init_as (c : ListClass) (element_validators : PyObj)
    (choices : option (list PyVal)) (max_items : option Z) (kwargs : Kwargs)
  : Result Field :=
  let? validators := MultiEmbeddedListField_validate_validator element_validators in
  let container_type := kw_get (kw_container_type kwargs) ContainerList in
  let? b := BaseField_init None [TList; TTuple; TSet] (pop_container_type kwargs) in
  Ok (Multi c b validators max_items container_type).

Definition MultiEmbeddedListField_init :=
  MultiEmbeddedListField_init_as MultiEmbeddedListField.

(** [ListField.__init__(element_validator=None, choices=None,
    max_items=None, **kwargs)]. *)
Definition ListField_init (element_validator : PyObj)
    (choices : option (list PyVal)) (max_items : option Z) (kwargs : Kwargs)
  : Result Field :=
  let element_validators :=
    if obj_truthy element_validator then OList [element_validator] else OList [] in
  MultiEmbeddedListField_init_as ListField element_validators choices max_items kwargs.

(** [DictField.__init__(key_validator=None, value_validator=None,
    choices=None, **kwargs)]: [choices] is bound and not used. *)
Definition DictField_init (key_validator value_validator : PyObj)
    (choices : option (list PyVal)) (kwargs : Kwargs) : Result Field :=
  let check (validator : PyObj) : Result (option (Field + PyVal)) :=
    match validator with
    | OVal VNone => Ok None
    | _ => let? v := BaseField_validate_validator validator in Ok (Some v)
    end in
  let? key_validator := check key_validator in
  let? value_validator := check value_validator in
  let? b := BaseField_init None [TDict] kwargs in
  Ok (Dict b key_validator value_validator).

(** ** Candidates of a list field, as the properties below speak of them *)

(** The candidate [g] rejects [val]: in whatever world it is called, its
    [validate] raises [InvalidFieldValueException]. *)
Definition rejects (g : Field) (val : PyVal) : Prop :=
  forall w, exists message field value,
    fst (validate g val w) = Raise (InvalidFieldValueException message field value).

(** The candidate [g] accepts [val] with the normalized value [r]. *)
Definition accepts (g : Field) (val r : PyVal) : Prop :=
  forall w, fst (validate g val w) = Ok r.

(** Among [candidates], the first one that does not reject [val] accepts it
    with [r]; [rejected] are the candidates before it. *)
Definition resolves (candidates : list Field) (val r : PyVal)
    (rejected : list Field) : Prop :=
  exists g later,
    candidates = rejected ++ g :: later
    /\ Forall (fun h => rejects h val) rejected
    /\ accepts g val r.

(** The entries of an argument that is a list. *)
Definition list_items (validator : PyObj) : option (list PyObj) :=
  match validator with
  | OList items => Some items
  | OVal (VList xs) => Some (map OVal xs)
  | _ => None
  end.

(** What the constructors' check lets through: a field, kept as it is, or an
    object that is no field and is false. *)
Definition stored_as (validator : PyObj) (entry : Field + PyVal) : Prop :=
  match entry with
  | inl g => validator = OField g
  | inr _ => obj_truthy validator = false /\ forall g, validator <> OField g
  end.

(** ** Validators of a dict field, as the properties below speak of them *)

(** What [validator] makes of [val]: a validator left [None] leaves it as it
    is, a field accepts it with [r]; an object that is no field returns
    nothing. *)
Definition normalizes (validator : option (Field + PyVal)) (val r : PyVal) : Prop :=
  match validator with
  | None => r = val
  | Some (inl g) => accepts g val r
  | Some (inr _) => False
  end.

(** Calling [validator.validate(val)] raises [e], in whatever world. *)
Definition fails_with (validator : option (Field + PyVal)) (val : PyVal) (e : PyExn)
  : Prop :=
  match validator with
  | Some (inl g) => forall w, fst (validate g val w) = Raise e
  | Some (inr _) => e = AttributeError
  | None => False
  end.

Definition item_normalizes (key_validator value_validator : option (Field + PyVal))
    (item item' : PyVal * PyVal) : Prop :=
  normalizes key_validator (fst item) (fst item')
  /\ normalizes value_validator (snd item) (snd item').

(** The classes that use [BaseField._instance_check] as it is and whose
    [validate] begins with it. *)
Definition keeps_instance_check (f : Field) : bool :=
  match f with
  | Bounded (IntField | FloatField | DateTimeField _) _ _ _ => false
  | Embedded _ _ => false
  | _ => true
  end.

End WithWorld.

End Fields.

(* ===================================================================== *)
(** * docs/meta.py *)
(* ===================================================================== *)

Module Meta.
Import Py Exceptions Fields.

Section WithWorld.
Context {W : Type}.

(** Field objects are shared and changed in place (their [field_name]), so
    they live in a heap and are referred to by address. *)
Definition loc : Type := nat.

(** An object bound to a name of a class body: a field object, or a plain
    value. *)
Inductive Obj : Type :=
| OFieldRef (l : loc)
| OPlain (v : PyVal).

Definition obj_truth (o : Obj) : bool :=
  match o with
  | OFieldRef _ => true
  | OPlain v => truthy v
  end.

(** [a and b] on objects. *)
Definition obj_and (a b : Obj) : Obj := if obj_truth a then b else a.

(** A [threading.Lock]. *)
Inductive Lock : Type := Unlocked | Locked.

(** What composition reads of [cls.__mro__[1]]: its [_schema] and its
    [_schema_flexible], [None] where looking the attribute up raises
    [AttributeError]. *)
Record Parent : Type := {
  parent_schema : option (gmap string loc);
  parent_schema_flexible : option Obj
}.

(** The heap of field objects and the attributes of the class being
    initialised; an attribute is [None] until it is first assigned. *)
Record State : Type := {
  heap : gmap loc (@Field W);
  _schema : option (gmap string loc);
  _schema_flexible : option Obj;
  _schema_lock : option Lock
}.

(** The statements [DocumentMetaClass.__init__] executes, with the values
    they were reached with. *)
Inductive Stmt : Type :=
| AssignSchema                                   (* cls._schema = {} *)
| SetFieldName (v : loc) (k : string)             (* v.field_name = k *)
| SchemaSetItem (k : string) (v : loc)            (* cls._schema[k] = v *)
| AssignSchemaFlexible (schema_flexible : Obj)    (* cls._schema_flexible = schema_flexible *)
| AssignSchemaLock                                (* cls._schema_lock = Lock() *)
| UpdateSchema (p : Parent)                       (* try: cls._schema.update(...) *)
| UpdateSchemaFlexible (p : Parent).              (* try: cls._schema_flexible = ... and ... *)

(** [{k: v for k, v in parent._schema.items() if k not in cls._schema}]. *)
Definition inherited (parent own : gmap string loc) : gmap string loc :=
  filter (fun kv => own !! kv.1 = None) parent.

(** [d.update(other)]: the entries of [other] are written over [d]. *)
Definition update (d other : gmap string loc) : gmap string loc := other ∪ d.

Definition exec (s : Stmt) (st : State) : State :=
  match s with
  | AssignSchema =>
      {| heap := heap st; _schema := Some ∅;
         _schema_flexible := _schema_flexible st; _schema_lock := _schema_lock st |}
  | SetFieldName v k =>
      {| heap := alter (set_field_name (Some k)) v (heap st); _schema := _schema st;
         _schema_flexible := _schema_flexible st; _schema_lock := _schema_lock st |}
  | SchemaSetItem k v =>
      {| heap := heap st; _schema := insert k v <$> _schema st;
         _schema_flexible := _schema_flexible st; _schema_lock := _schema_lock st |}
  | AssignSchemaFlexible schema_flexible =>
      {| heap := heap st; _schema := _schema st;
         _schema_flexible := Some schema_flexible; _schema_lock := _schema_lock st |}
  | AssignSchemaLock =>
      {| heap := heap st; _schema := _schema st;
         _schema_flexible := _schema_flexible st; _schema_lock := Some Unlocked |}
  | UpdateSchema p =>
      match parent_schema p, _schema st with
      | Some inherited_from, Some own =>
          {| heap := heap st;
             _schema := Some (update own (inherited inherited_from own));
             _schema_flexible := _schema_flexible st; _schema_lock := _schema_lock st |}
      | _, _ => st
      end
  | UpdateSchemaFlexible p =>
      match parent_schema_flexible p, _schema_flexible st with
      | Some theirs, Some own =>
          {| heap := heap st; _schema := _schema st;
             _schema_flexible := Some (obj_and theirs own);
             _schema_lock := _schema_lock st |}
      | _, _ => st
      end
  end.

(** [d.get(key, value)]. *)
Definition get (d : gmap string Obj) (key : string) (value : Obj) : Obj :=
  match d !! key with Some o => o | None => value end.

(** The body of the loop [for k, v in dictionary.items()]. *)
Definition scan_item (item : string * Obj) : list Stmt :=
  match item with
  | (k, OFieldRef v) => [SetFieldName v k; SchemaSetItem k v]
  | (_, OPlain _) => []
  end.

(** [items] is [dictionary.items()]: the items of the dict, each key once,
    in whatever order the dict yields them. *)
Definition items_of (dictionary : gmap string Obj) (items : list (string * Obj))
  : Prop :=
  NoDup items.*1 /\ list_to_map items = dictionary.

(** [DocumentMetaClass.__init__(cls, name, bases, dictionary)] as the
    statements it runs, in order.  [dictionary] is the class body's
    namespace, [items] its [dictionary.items()] in the order the loop meets
    them, [parent] is [cls.__mro__[1]] when [len(cls.__mro__) > 1]. *)
Definition statements_in (items : list (string * Obj)) (dictionary : gmap string Obj)
    (parent : option Parent) : list Stmt :=
  let schema_flexible := get dictionary "_schema_flexible" (OPlain (VBool true)) in
  [AssignSchema]
  ++ flat_map scan_item items
  ++ [AssignSchemaFlexible schema_flexible; AssignSchemaLock]
  ++ match parent with
     | Some p => [UpdateSchema p; UpdateSchemaFlexible p]
     | None => []
     end.

(** The statements with the items in the order [map_to_list] lists them,
    one of the orders [dictionary.items()] can have.  The schema, the flag
    and the lock a class ends with are the same in every order; the name a
    field object bound to several attributes takes is not, and is stated
    with the order given ([DocumentMetaClass_init_in]). *)
Definition statements (dictionary : gmap string Obj) (parent : option Parent)
  : list Stmt :=
  statements_in (map_to_list dictionary) dictionary parent.

Definition run (stmts : list Stmt) (st : State) : State :=
  foldl (fun st s => exec s st) st stmts.

(** The states a run goes through: the one it starts in, then the one after
    each statement. *)
Fixpoint trace (stmts : list Stmt) (st : State) : list State :=
  st :: match stmts with
        | [] => []
        | s :: rest => trace rest (exec s st)
        end.

Definition DocumentMetaClass_init (dictionary : gmap string Obj)
    (parent : option Parent) (st : State) : State :=
  run (statements dictionary parent) st.

(** The same with the order of [dictionary.items()] given. *)
Definition DocumentMetaClass_init_in (items : list (string * Obj))
    (dictionary : gmap string Obj) (parent : option Parent) (st : State) : State :=
  run (statements_in items dictionary parent) st.

(** A class object that does not exist yet: no attribute is set. *)
Definition new_class (h : gmap loc (@Field W)) : State :=
  {| heap := h; _schema := None; _schema_flexible := None; _schema_lock := None |}.

(** The lock of the class is held. *)
Definition lock_held (st : State) : bool :=
  match _schema_lock st with Some Locked => true | _ => false end.

(** Every field of a schema is an object of the heap that has a name. *)
Definition all_named (h : gmap loc (@Field W)) (schema : gmap string loc) : Prop :=
  forall k l, schema !! k = Some l ->
    exists f name, h !! l = Some f /\ field_name f = Some name.

(** Every field object a class body mentions exists. *)
Definition allocated (h : gmap loc (@Field W)) (dictionary : gmap string Obj) : Prop :=
  forall k l, dictionary !! k = Some (OFieldRef l) -> is_Some (h !! l).

(** The fields a class body declares. *)
Definition own_fields (dictionary : gmap string Obj) : gmap string loc :=
  omap (fun o => match o with OFieldRef l => Some l | OPlain _ => None end) dictionary.

(** The names a heap has given are kept by a later heap. *)
Definition keeps_names (h h' : gmap loc (@Field W)) : Prop :=
  forall v f, h !! v = Some f ->
    exists f', h' !! v = Some f' /\
      forall n, field_name f = Some n -> field_name f' = Some n.

(** The schema the scanning loop builds from a list of items. *)
Definition scanned (items : list (string * Obj)) (m : gmap string loc)
  : gmap string loc :=
  foldl (fun m item => match item with
                       | (k, OFieldRef v) => <[k:=v]> m
                       | (_, OPlain _) => m
                       end) m items.

(** The schema the parent contributes; a parent that is missing or has no
    [_schema] contributes nothing. *)
Definition schema_of_parent (parent : option Parent) : gmap string loc :=
  match parent with
  | Some p => from_option id ∅ (parent_schema p)
  | None => ∅
  end.

Definition flexible_of_parent (parent : option Parent) : option Obj :=
  match parent with
  | Some p => parent_schema_flexible p
  | None => None
  end.

(** ** Class hierarchies *)

(** A composed class, as a class derived from it reads it. *)
Definition as_parent (st : State) : Parent :=
  {| parent_schema := _schema st; parent_schema_flexible := _schema_flexible st |}.

(** [class Derived(Base): <dictionary>]: a new class object, composed with
    [Base] as [__mro__[1]], over the heap as [Base] left it. *)
Definition derive (dictionary : gmap string Obj) (st : State) : State :=
  DocumentMetaClass_init dictionary (Some (as_parent st)) (new_class (heap st)).

(** A line of classes, each derived from the one before; the last state is
    the class at the end of the line. *)
Definition derive_all (bodies : list (gmap string Obj)) (st : State) : State :=
  foldl (fun st dictionary => derive dictionary st) st bodies.

(** The flag a class body sets: its [_schema_flexible], or [True]. *)
Definition own_flag (dictionary : gmap string Obj) : Obj :=
  get dictionary "_schema_flexible" (OPlain (VBool true)).

(** The field declared under [k] nearest to the end of a line of class
    bodies, [root] when none of them declares one. *)
Definition nearest (k : string) (bodies : list (gmap string Obj))
    (root : option loc) : option loc :=
  foldl (fun found dictionary =>
           match own_fields dictionary !! k with
           | Some v => Some v
           | None => found
           end) root bodies.

(** Every field object of [items] that the heap holds has a name. *)
Definition settled (h : gmap loc (@Field W)) (items : list (string * Obj)) : Prop :=
  forall k v, (k, OFieldRef v) ∈ items ->
    forall f, h !! v = Some f -> exists name, field_name f = Some name.

(** ** The name a field object takes *)

(** The item binds its attribute to the field object at [v]. *)
Definition binds (v : loc) (item : string * Obj) : bool :=
  match item.2 with
  | OFieldRef u => bool_decide (u = v)
  | OPlain _ => false
  end.

(** The first attribute, in the order of [items], that is bound to the
    field object at [v]. *)
Definition first_binding (items : list (string * Obj)) (v : loc) : option string :=
  option_map fst (List.find (binds v) items).

(** The field object at [v] once the loop over [items] has run: assigned
    the first attribute name it is bound to, if there is one. *)
Definition named_by (items : list (string * Obj)) (v : loc) (f : @Field W)
  : @Field W :=
  match first_binding items v with
  | Some k => set_field_name (Some k) f
  | None => f
  end.

End WithWorld.

End Meta.

(* ===================================================================== *)
(** * threading/singleton.py *)
(* ===================================================================== *)

Module Singleton.
Import Py Exceptions.


(** What [inspect.getargspec(func)] tells of a function: the names of its
    positional parameters and the defaults of the last of them ([None] when
    no parameter has a default). *)
Record ArgSpec : Type := {
  spec_args : list string;
  spec_defaults : option (list PyVal)
}.

(** [dict(pairs)]: a later pair overwrites an earlier one of the same key. *)
Definition dict_of (pairs : list (string * PyVal)) : gmap string PyVal :=
  foldl (fun d kv => <[kv.1 := kv.2]> d) ∅ pairs.

(** [xs[-n:]] for a positive [n]. *)
Definition last_items {A} (n : nat) (xs : list A) : list A :=
  drop (length xs - n) xs.

(** [get_default_args(func)]; [func] is [None] when the class body has no
    [__init__]. *)
Definition get_default_args (func : option ArgSpec) : gmap string PyVal :=
  match func with
  | Some spec =>
      match spec_defaults spec with
      | Some ((_ :: _) as defaults) =>
          dict_of (zip (last_items (length defaults) (spec_args spec)) defaults)
      | _ => ∅
      end
  | None => ∅
  end.









Section WithWorld.
Context {W : Type}.

(** [super(NamedInstanceMetaClass, cls).__call__( *args, **kwargs )]: the
    construction of an instance by the class itself. *)
Variable construct : list PyVal -> gmap string PyVal -> W -> Result PyVal * W.



End WithWorld.
End Singleton.

(* ===================================================================== *)
(** * Sample declarations *)
(* ===================================================================== *)

(** Concrete field objects, class bodies and inputs, used to run the
    definitions above. *)
Module Samples.
Import Py Exceptions Fields Meta.

(** The world of the samples: a clock. *)
Definition World : Type := Z.

Definition no_kwargs : @Kwargs World :=
  {| kw_default := None; kw_required := None; kw_field_name := None;
     kw_container_type := None; kw_ignoretz := None |}.

Definition unbounded : @Lazy World := Literal VNone.

(** The field a constructor returned ([otherwise] stands in if it raised). *)
Definition built (r : Result (@Field World)) (otherwise : @Field World) : @Field World :=
  match r with Ok f => f | Raise _ => otherwise end.

(** [ObjectField()]. *)
Definition object_field : @Field World :=
  Plain ObjectField {| _default := Literal VNone; _choices := None; _required := false;
                       _field_name := None; _allowed_types := [TObject] |}.

(** The attributes [BaseField.__init__] gives an [IntField()]. *)
Definition int_attrs : @BaseAttrs World :=
  {| _default := Literal VNone; _choices := None; _required := false;
     _field_name := None; _allowed_types := [TInt; TLong] |}.

(** [IntField()]. *)
Definition int_field : @Field World :=
  built (IntField_init unbounded unbounded None no_kwargs) object_field.

(** [StringField()]. *)
Definition string_field : @Field World :=
  built (StringField_init None None None true None no_kwargs) object_field.

(** [ObjectField(field_name='title')]. *)
Definition title_field : @Field World :=
  set_field_name (Some "title") object_field.

(** A heap with an unnamed [IntField] at 1 and the named field at 2. *)
Definition sample_heap : gmap loc (@Field World) :=
  <[1%nat := int_field]> (<[2%nat := title_field]> ∅).

(** The body of
    [class Child(Base): age = f; years = f; heading = g;
                        _schema_flexible = False; limit = 3]
    where [f] is the field object at 1 and [g] the one at 2, which is
    already named. *)
Definition child_body : gmap string Obj :=
  <["age" := OFieldRef 1%nat]> (<["years" := OFieldRef 1%nat]>
  (<["heading" := OFieldRef 2%nat]>
  (<["_schema_flexible" := OPlain (VBool false)]> (<["limit" := OPlain (VInt 3)]> ∅)))).

(** [Base], composed before, with the field at 2 under [title]. *)
Definition base_class : Parent :=
  {| parent_schema := Some (<["title" := 2%nat]> ∅);
     parent_schema_flexible := Some (OPlain (VBool true)) |}.

(** A stand-in for [dateutil.parser.parse]: one date it knows, [ValueError]
    for any other string, [TypeError] for what is no string. *)
Definition sample_parse (value : PyVal) (ignoretz : bool) : Result PyVal :=
  match value with
  | VStr s => if String.eqb s "1970-01-01" then Ok (VDatetime 0) else Raise ValueError
  | _ => Raise TypeError
  end.

(** A callable bound that reads the clock: [lambda: clock]. *)
Definition clock_bound : @Lazy World := Callable (fun w => (VInt w, w)).

(** [IntField(min_value=lambda: clock, max_value=10)]. *)
Definition clocked_int_field : @Field World :=
  built (IntField_init clock_bound (Literal (VInt 10)) None no_kwargs) object_field.

(** The attributes of a list field built without keywords. *)
Definition list_attrs : @BaseAttrs World :=
  {| _default := Literal VNone; _choices := None; _required := false;
     _field_name := None; _allowed_types := [TList; TTuple; TSet] |}.

(** [ListField(IntField())]. *)
Definition int_list_field : @Field World :=
  built (ListField_init (OField int_field) None None no_kwargs) object_field.

(** [MultiEmbeddedListField([IntField(), StringField()])]. *)
Definition int_or_string_list_field : @Field World :=
  built (MultiEmbeddedListField_init (OList [OField int_field; OField string_field])
           None None no_kwargs) object_field.

(** [ObjectField(required=True)]. *)
Definition required_object_field : @Field World :=
  Plain ObjectField {| _default := Literal VNone; _choices := None; _required := true;
                       _field_name := None; _allowed_types := [TObject] |}.

(** [datetime.datetime.utcnow] on the clock: reading it makes time pass. *)
Definition sample_utcnow : @Producer World := fun w => (VDatetime w, w + 1).

(** The attributes of a [DateTimeField()]. *)
Definition datetime_attrs : @BaseAttrs World :=
  {| _default := Callable sample_utcnow; _choices := None; _required := false;
     _field_name := None; _allowed_types := [TDatetime] |}.

(** [DateTimeField()]. *)
Definition datetime_field : @Field World :=
  built (DateTimeField_init sample_utcnow unbounded unbounded None no_kwargs)
    object_field.

(** The float 2.5. *)
Definition two_and_a_half : PyVal := VFloat (S754_finite false 5 (-1)).

(** The floats 4.0 and 2.5, as binary64 has them. *)
Definition four_float : spec_float := S754_finite false 4503599627370496 (-50).
Definition four : PyVal := VFloat four_float.
Definition two_and_a_half_float : spec_float := S754_finite false 5 (-1).

(** The attributes of a string field built without keywords. *)
Definition string_attrs : @BaseAttrs World :=
  {| _default := Literal VNone; _choices := None; _required := false;
     _field_name := None; _allowed_types := [TStr] |}.

(** [StringField(max_length=5)]. *)
Definition short_string_field : @Field World :=
  built (StringField_init None None (Some 5) true None no_kwargs) object_field.

(** [DBNameField()]. *)
Definition db_name_field : @Field World :=
  built (DBNameField_init None true None no_kwargs) object_field.

(** [ListField(max_items=2)]. *)
Definition pair_list_field : @Field World :=
  built (ListField_init (OVal VNone) None (Some 2) no_kwargs) object_field.

(** The attributes of a dict field built without keywords. *)
Definition dict_attrs : @BaseAttrs World :=
  {| _default := Literal VNone; _choices := None; _required := false;
     _field_name := None; _allowed_types := [TDict] |}.

(** [DictField()]. *)
Definition dict_field : @Field World :=
  built (DictField_init (OVal VNone) (OVal VNone) None no_kwargs) object_field.

(** [DictField(key_validator=IntField(), value_validator=StringField())]. *)
Definition int_to_string_dict_field : @Field World :=
  built (DictField_init (OField int_field) (OField string_field) None no_kwargs)
    object_field.

(** [BooleanField()]. *)
Definition boolean_field : @Field World :=
  built (BooleanField_init None no_kwargs) object_field.

(** The keywords [required=True, field_name='age']. *)
Definition required_kwargs : @Kwargs World :=
  {| kw_default := None; kw_required := Some true; kw_field_name := Some "age";
     kw_container_type := None; kw_ignoretz := None |}.

(** [IntField(required=True, field_name='age')]. *)
Definition required_int_field : @Field World :=
  built (IntField_init unbounded unbounded None required_kwargs) object_field.

(** [Base], composed before, as a class object. *)
Definition base_state : @State World :=
  {| heap := sample_heap;
     _schema := Some (<["title" := 2%nat]> ∅);
     _schema_flexible := Some (OPlain (VBool true));
     _schema_lock := Some Unlocked |}.

(** The body of [class Grandchild(Child): title = f], [f] the field object
    at 1. *)
Definition grandchild_body : gmap string Obj := <["title" := OFieldRef 1%nat]> ∅.

(** [DictField(key_validator=0)]. *)
Definition zero_key_dict_field : @Field World :=
  built (DictField_init (OVal (VInt 0)) (OVal VNone) None no_kwargs) object_field.

(** The class body of
    [class Connection(object): __metaclass__ = NamedInstanceMetaClass;
       INSTANCE_NAME_INIT_ARG = 'name';
       def __init__(self, name='main', size=3): ...]. *)
Definition connection_init : Singleton.ArgSpec :=
  {| Singleton.spec_args := ["self"; "name"; "size"];
     Singleton.spec_defaults := Some [VStr "main"; VInt 3] |}.




(** [dictionary.items()] of the body of [Child], in an order that meets
    [age] before [years]. *)
Definition child_items : list (string * Obj) :=
  [("age", OFieldRef 1%nat); ("limit", OPlain (VInt 3));
   ("heading", OFieldRef 2%nat); ("years", OFieldRef 1%nat);
   ("_schema_flexible", OPlain (VBool false))].

(** [IntField(choices=[1, 2])]. *)
Definition one_or_two_field : @Field World :=
  built (IntField_init unbounded unbounded (Some [VInt 1; VInt 2]) no_kwargs)
    object_field.

End Samples.

(* ===================================================================== *)
(** * Properties *)
(* ===================================================================== *)

Import Py Exceptions Fields Meta.

(** A lookup in a map given by its entries: one case per entry. *)
Ltac in_entries H :=
  apply elem_of_map_to_list in H; vm_compute in H;
  repeat (apply elem_of_cons in H as [H|H]; [inversion H; subst; clear H|]);
  try (by apply elem_of_nil in H).

(** ** The field_name setter *)

Section FieldName.
Context {W : Type}.
Implicit Types (f : @Field W) (name : option string).

Lemma base_with_base f b : base (with_base f b) = b.
Proof. by destruct f. Qed.

Lemma field_name_set_field_name f name :
  field_name (set_field_name name f)
  = match field_name f with Some n => Some n | None => name end.
Proof.
  unfold set_field_name, field_name.
  destruct (_field_name (base f)) eqn:E; [by rewrite E|].
  by rewrite base_with_base.
Qed.

Lemma set_field_name_named f name n :
  field_name f = Some n -> set_field_name name f = f.
Proof. unfold set_field_name, field_name. by intros ->. Qed.

Lemma set_field_name_twice f (k k' : string) :
  set_field_name (Some k') (set_field_name (Some k) f) = set_field_name (Some k) f.
Proof.
  apply set_field_name_named with (n := from_option id k (field_name f)).
  rewrite field_name_set_field_name. by destruct (field_name f).
Qed.

End FieldName.

(** ** Schema composition *)

Section Composition.
Context {W : Type}.
Implicit Types (st : @State W) (h : gmap loc (@Field W)) (d : gmap string Obj)
  (m own : gmap string loc) (items : list (string * Obj)) (stmts : list Stmt).

Lemma keeps_names_refl h : keeps_names h h.
Proof. intros v f Hv. eauto. Qed.

Lemma keeps_names_trans h1 h2 h3 :
  keeps_names h1 h2 -> keeps_names h2 h3 -> keeps_names h1 h3.
Proof.
  intros H12 H23 v f Hv.
  destruct (H12 v f Hv) as (f2 & Hv2 & Hn2).
  destruct (H23 v f2 Hv2) as (f3 & Hv3 & Hn3).
  exists f3. split; [done|]. auto.
Qed.

Lemma run_app stmts stmts' st :
  run (stmts ++ stmts') st = run stmts' (run stmts st).
Proof. unfold run. apply foldl_app. Qed.

Lemma run_cons s stmts st : run (s :: stmts) st = run stmts (exec s st).
Proof. reflexivity. Qed.

(** One statement keeps the names. *)
Lemma exec_keeps_names s st : keeps_names (heap st) (heap (exec s st)).
Proof.
  destruct s; simpl; try apply keeps_names_refl.
  - intros l f Hl. destruct (decide (v = l)) as [->|Hne].
    + exists (set_field_name (Some k) f). split.
      * by rewrite lookup_alter_eq, Hl.
      * intros n Hn. by rewrite (set_field_name_named _ _ n).
    + exists f. split; [|done]. by rewrite lookup_alter_ne.
  - destruct (parent_schema p), (_schema st); apply keeps_names_refl.
  - destruct (parent_schema_flexible p), (_schema_flexible st); apply keeps_names_refl.
Qed.

Lemma run_keeps_names stmts st : keeps_names (heap st) (heap (run stmts st)).
Proof.
  revert st. induction stmts as [|s stmts IH]; intros st.
  - apply keeps_names_refl.
  - rewrite run_cons. eapply keeps_names_trans; [apply exec_keeps_names|apply IH].
Qed.

Lemma run_scan_attrs items st :
  let st' := run (flat_map scan_item items) st in
  _schema st' = scanned items <$> _schema st
  /\ _schema_flexible st' = _schema_flexible st
  /\ _schema_lock st' = _schema_lock st.
Proof.
  revert st. induction items as [|[k [v|pv]] items IH]; intros st; simpl.
  - by destruct (_schema st).
  - destruct (IH (exec (SchemaSetItem k v) (exec (SetFieldName v k) st)))
      as (Hs & Hf & Hl).
    simpl in *. rewrite Hs, Hf, Hl. by destruct (_schema st).
  - apply IH.
Qed.

Lemma scanned_absent items m k :
  (forall v, (k, OFieldRef v) ∉ items) -> scanned items m !! k = m !! k.
Proof.
  revert m. induction items as [|[k' [v|pv]] items IH]; intros m Hk; simpl.
  - done.
  - rewrite IH.
    + apply lookup_insert_ne. intros ->. apply (Hk v). left.
    + intros v' Hin. apply (Hk v'). by right.
  - apply IH. intros v' Hin. apply (Hk v'). by right.
Qed.

Lemma scanned_present items m k v :
  NoDup items.*1 -> (k, OFieldRef v) ∈ items -> scanned items m !! k = Some v.
Proof.
  revert m. induction items as [|[k' o] items IH]; intros m Hnd Hin.
  - by apply elem_of_nil in Hin.
  - apply NoDup_cons in Hnd as [Hk' Hnd].
    apply elem_of_cons in Hin as [Heq|Hin].
    + inversion Heq; subst k' o. simpl.
      rewrite scanned_absent; [apply lookup_insert_eq|].
      intros v' Hin. apply Hk'. apply list_elem_of_fmap.
      by exists (k, OFieldRef v').
    + destruct o as [v'|pv]; simpl; by apply IH.
Qed.

Lemma own_fields_lookup d k v :
  own_fields d !! k = Some v <-> d !! k = Some (OFieldRef v).
Proof.
  unfold own_fields. rewrite lookup_omap.
  destruct (d !! k) as [[l|pv]|]; simpl; split; intros H; by simplify_eq.
Qed.

(** The scanning loop over a class body yields exactly the fields the
    body declares, in whatever order the items come. *)
Lemma scanned_own_fields d : scanned (map_to_list d) ∅ = own_fields d.
Proof.
  apply map_eq. intros k.
  destruct (own_fields d !! k) as [v|] eqn:E.
  - apply own_fields_lookup in E.
    apply scanned_present; [apply NoDup_fst_map_to_list|].
    by apply elem_of_map_to_list.
  - rewrite scanned_absent; [apply lookup_empty|].
    intros v Hin. apply elem_of_map_to_list in Hin.
    apply own_fields_lookup in Hin. congruence.
Qed.

Lemma inherited_empty own : inherited ∅ own = ∅.
Proof. unfold inherited. apply map_filter_empty. Qed.

Lemma update_lookup own m k :
  update own (inherited m own) !! k
  = match own !! k with Some v => Some v | None => m !! k end.
Proof.
  unfold update, inherited.
  destruct (own !! k) as [v|] eqn:Eo.
  - rewrite lookup_union_r; [done|].
    apply map_lookup_filter_None. right. intros x _. simpl. congruence.
  - rewrite lookup_union_l; [|done].
    destruct (m !! k) as [x|] eqn:Em.
    + by apply map_lookup_filter_Some.
    + apply map_lookup_filter_None. by left.
Qed.

Lemma update_inherited_empty own : update own (inherited ∅ own) = own.
Proof. rewrite inherited_empty. unfold update. apply (left_id_L ∅ (∪)). Qed.

(** The statements after the scanning loop. *)
Lemma run_tail parent schema_flexible st :
  let st' := run ([AssignSchemaFlexible schema_flexible; AssignSchemaLock]
                  ++ match parent with
                     | Some p => [UpdateSchema p; UpdateSchemaFlexible p]
                     | None => []
                     end) st in
  _schema st'
  = (fun own => update own (inherited (schema_of_parent parent) own)) <$> _schema st
  /\ _schema_flexible st'
     = Some (match flexible_of_parent parent with
             | Some theirs => obj_and theirs schema_flexible
             | None => schema_flexible
             end)
  /\ _schema_lock st' = Some Unlocked.
Proof.
  destruct parent as [[[ps|] [pf|]]|]; simpl;
    destruct (_schema st) as [own|]; simpl;
    rewrite ?update_inherited_empty; done.
Qed.

(** The attributes of the class once [__init__] has returned. *)
Lemma init_attrs d parent st :
  let st' := DocumentMetaClass_init d parent st in
  let own := get d "_schema_flexible" (OPlain (VBool true)) in
  _schema st'
  = Some (update (own_fields d) (inherited (schema_of_parent parent) (own_fields d)))
  /\ _schema_flexible st'
     = Some (match flexible_of_parent parent with
             | Some theirs => obj_and theirs own
             | None => own
             end)
  /\ _schema_lock st' = Some Unlocked.
Proof.
  unfold DocumentMetaClass_init, statements, statements_in. cbv zeta.
  rewrite run_app, run_app.
  change (run [AssignSchema] st) with (exec AssignSchema st).
  destruct (run_scan_attrs (map_to_list d) (exec AssignSchema st)) as (Hs & _ & _).
  change (_schema (exec AssignSchema st)) with (@Some (gmap string loc) ∅) in Hs.
  destruct (run_tail parent (get d "_schema_flexible" (OPlain (VBool true)))
              (run (flat_map scan_item (map_to_list d)) (exec AssignSchema st)))
    as (Hs' & Hf' & Hl').
  rewrite Hs in Hs'. simpl in Hs'. rewrite scanned_own_fields in Hs'. auto.
Qed.

End Composition.

Section CompositionTheorems.
Context {W : Type}.
Implicit Types (st : @State W) (h : gmap loc (@Field W)) (d : gmap string Obj).

Lemma named_kept h h' v :
  keeps_names h h' ->
  (exists f name, h !! v = Some f /\ field_name f = Some name) ->
  exists f name, h' !! v = Some f /\ field_name f = Some name.
Proof.
  intros Hk (f & name & Hv & Hn).
  destruct (Hk v f Hv) as (f' & Hv' & Hn'). exists f', name. auto.
Qed.

(** After the scanning loop every scanned field object has a name. *)
Lemma run_scan_named items st k v :
  (k, OFieldRef v) ∈ items -> is_Some (heap st !! v) ->
  exists f name,
    heap (run (flat_map scan_item items) st) !! v = Some f
    /\ field_name f = Some name.
Proof.
  revert st. induction items as [|[k' o] items IH]; intros st Hin [f Hv].
  - by apply elem_of_nil in Hin.
  - apply elem_of_cons in Hin as [Heq|Hin].
    + inversion Heq; subst k' o.
      change (flat_map scan_item ((k, OFieldRef v) :: items))
        with (scan_item (k, OFieldRef v) ++ flat_map scan_item items).
      rewrite run_app.
      apply (named_kept _ _ v (run_keeps_names _ _)). simpl.
      exists (set_field_name (Some k) f), (from_option id k (field_name f)).
      split; [by rewrite lookup_alter_eq, Hv|].
      rewrite field_name_set_field_name. by destruct (field_name f).
    + change (flat_map scan_item ((k', o) :: items))
        with (scan_item (k', o) ++ flat_map scan_item items).
      rewrite run_app. apply IH; [done|].
      destruct (run_keeps_names (scan_item (k', o)) st v f Hv) as (f' & Hv' & _).
      by exists f'.
Qed.

Lemma init_own_named d parent st k v :
  allocated (heap st) d -> d !! k = Some (OFieldRef v) ->
  exists f name,
    heap (DocumentMetaClass_init d parent st) !! v = Some f
    /\ field_name f = Some name.
Proof.
  intros Halloc Hk. unfold DocumentMetaClass_init, statements, statements_in. cbv zeta.
  rewrite run_app, run_app.
  apply (named_kept _ _ v (run_keeps_names _ _)).
  apply (run_scan_named _ _ k).
  - by apply elem_of_map_to_list.
  - destruct (Halloc k v Hk) as [f Hf].
    destruct (run_keeps_names [AssignSchema] st v f Hf) as (f' & Hf' & _).
    by exists f'.
Qed.

Lemma obj_truth_and (a b : Obj) : obj_truth (obj_and a b) = obj_truth a && obj_truth b.
Proof. unfold obj_and. destruct (obj_truth a) eqn:E; simpl; [done|exact E]. Qed.

(** C3.  Schema merge precedence: after composition the schema of a type
    holds, under every name the type's body binds to a field, that very
    field object, whatever the parent declares under the name; under every
    other name it holds what the parent's schema holds; so a type that
    declares no field has exactly the parent's schema, and a type whose
    parent has no [_schema] (or that has no parent) has exactly its own
    fields. *)
Theorem schema_merge_precedence d (parent : option Parent) st :
  exists schema,
    _schema (DocumentMetaClass_init d parent st) = Some schema
    /\ (forall k v, d !! k = Some (OFieldRef v) -> schema !! k = Some v)
    /\ (forall k, own_fields d !! k = None ->
          schema !! k = schema_of_parent parent !! k)
    /\ (own_fields d = ∅ -> schema = schema_of_parent parent)
    /\ (parent = None -> schema = own_fields d)
    /\ (forall p, parent = Some p -> parent_schema p = None ->
          schema = own_fields d).
Proof.
  destruct (init_attrs d parent st) as (Hs & _ & _).
  eexists. split; [exact Hs|].
  assert (Hno : schema_of_parent parent = ∅ ->
                update (own_fields d) (inherited (schema_of_parent parent) (own_fields d))
                = own_fields d).
  { intros ->. apply update_inherited_empty. }
  repeat split.
  - intros k v Hk. rewrite update_lookup.
    apply own_fields_lookup in Hk. by rewrite Hk.
  - intros k Hk. rewrite update_lookup. by rewrite Hk.
  - intros Hown. apply map_eq. intros k.
    rewrite update_lookup, Hown. by rewrite lookup_empty.
  - intros ->. by apply Hno.
  - intros p -> Hp. apply Hno. simpl. by rewrite Hp.
Qed.

(** C4.  Flexibility flag: after composition [_schema_flexible] is
    [parent's flag and own flag], the own flag being the body's
    [_schema_flexible] or [True] when the body has none; its truth value is
    the conjunction of the two; without a parent flag it is the own flag
    unchanged; on booleans it is the boolean conjunction, so a child of an
    inflexible parent is inflexible without any override, and an explicit
    [False] makes the child inflexible under a flexible parent. *)
Theorem flexibility_flag_composition d (parent : option Parent) st :
  let own := get d "_schema_flexible" (OPlain (VBool true)) in
  exists flag,
    _schema_flexible (DocumentMetaClass_init d parent st) = Some flag
    /\ (d !! "_schema_flexible" = None -> own = OPlain (VBool true))
    /\ obj_truth flag
       = obj_truth own && from_option obj_truth true (flexible_of_parent parent)
    /\ (flexible_of_parent parent = None -> flag = own)
    /\ (forall a b, own = OPlain (VBool a) ->
          flexible_of_parent parent = Some (OPlain (VBool b)) ->
          flag = OPlain (VBool (a && b)))
    /\ (d !! "_schema_flexible" = None ->
          flexible_of_parent parent = Some (OPlain (VBool false)) ->
          flag = OPlain (VBool false))
    /\ (d !! "_schema_flexible" = Some (OPlain (VBool false)) ->
          flexible_of_parent parent = Some (OPlain (VBool true)) ->
          flag = OPlain (VBool false)).
Proof.
  intros own. destruct (init_attrs d parent st) as (_ & Hf & _).
  fold own in Hf. eexists. split; [exact Hf|].
  assert (Hown : d !! "_schema_flexible" = None -> own = OPlain (VBool true)).
  { intros Hd. unfold own, get. by rewrite Hd. }
  repeat split.
  - exact Hown.
  - destruct (flexible_of_parent parent) as [theirs|]; simpl.
    + rewrite obj_truth_and. apply andb_comm.
    + by rewrite andb_true_r.
  - by intros ->.
  - intros a b -> ->. by destruct a, b.
  - intros Hd ->. by rewrite (Hown Hd).
  - intros Hd ->. unfold own, get. by rewrite Hd.
Qed.

(** No statement of the pass acquires a lock. *)
Lemma exec_never_locks s st : lock_held st = false -> lock_held (exec s st) = false.
Proof.
  intros Hst. unfold lock_held in *. destruct s; simpl; try done.
  - by destruct (parent_schema p), (_schema st).
  - by destruct (parent_schema_flexible p), (_schema_flexible st).
Qed.

Lemma trace_never_locked stmts st :
  lock_held st = false -> Forall (fun st => lock_held st = false) (trace stmts st).
Proof.
  revert st. induction stmts as [|s stmts IH]; intros st Hst; simpl.
  - by constructor.
  - constructor; [done|]. apply IH. by apply exec_never_locks.
Qed.

(** Until [cls._schema_lock = Lock()] runs, the class has no lock. *)
Lemma trace_without_lock stmts st :
  _schema_lock st = None ->
  Forall (fun s => s <> AssignSchemaLock) stmts ->
  Forall (fun st => _schema_lock st = None) (trace stmts st).
Proof.
  revert st. induction stmts as [|s stmts IH]; intros st Hst Hstmts; simpl.
  - by constructor.
  - apply Forall_cons in Hstmts as [Hs Hstmts].
    constructor; [done|]. apply IH; [|done].
    destruct s; simpl; try done.
    + by destruct (parent_schema p), (_schema st).
    + by destruct (parent_schema_flexible p), (_schema_flexible st).
Qed.

Lemma scan_creates_no_lock items :
  Forall (fun s => s <> AssignSchemaLock) (flat_map scan_item items).
Proof.
  induction items as [|[k [v|pv]] items IH]; simpl; [constructor| |done].
  by repeat constructor.
Qed.

(** What composition does instead of C2: it is one pass of statements; the
    lock of the type is created in the course of it, once the own fields
    are scanned and the flag is assigned and before the parent is merged,
    and no statement acquires it: in no state of the pass is the lock held,
    and the pass ends with the schema and the flag set and the lock
    unlocked. *)
Theorem composition_takes_no_lock d (parent : option Parent) h :
  let pass := statements d parent in
  let st' := DocumentMetaClass_init d parent (new_class h) in
  Forall (fun st => lock_held st = false) (trace pass (new_class h))
  /\ (exists before after,
        pass = before ++ AssignSchemaLock :: after
        /\ Forall (fun st => _schema_lock st = None) (trace before (new_class h))
        /\ _schema (run before (new_class h)) = Some (own_fields d)
        /\ is_Some (_schema_flexible (run before (new_class h)))
        /\ after = match parent with
                   | Some p => [UpdateSchema p; UpdateSchemaFlexible p]
                   | None => []
                   end)
  /\ _schema_lock st' = Some Unlocked
  /\ is_Some (_schema st')
  /\ is_Some (_schema_flexible st').
Proof.
  intros pass st'. split; [by apply trace_never_locked|]. split.
  - exists ([AssignSchema] ++ flat_map scan_item (map_to_list d)
            ++ [AssignSchemaFlexible (get d "_schema_flexible" (OPlain (VBool true)))]),
           (match parent with
            | Some p => [UpdateSchema p; UpdateSchemaFlexible p]
            | None => []
            end).
    split; [|split; [|split; [|split]]].
    + unfold pass, statements, statements_in. cbv zeta. by rewrite <- !app_assoc.
    + apply trace_without_lock; [done|].
      apply Forall_app; split; [by repeat constructor|].
      apply Forall_app; split; [apply scan_creates_no_lock|by repeat constructor].
    + rewrite !run_app.
      destruct (run_scan_attrs (map_to_list d) (run [AssignSchema] (new_class h)))
        as (Hs & _ & _).
      change (_schema (run [_] (run _ (run [AssignSchema] (new_class h)))))
        with (_schema (run (flat_map scan_item (map_to_list d))
                         (run [AssignSchema] (new_class h)))).
      rewrite Hs. simpl. by rewrite scanned_own_fields.
    + rewrite !run_app. simpl. eauto.
    + done.
  - destruct (init_attrs d parent (new_class h)) as (Hs & Hf & Hl).
    unfold st'. rewrite Hs, Hf, Hl. eauto.
Qed.

End CompositionTheorems.

(** ** Composition on the sample class *)

Section SampleComposition.
Import Samples.

Lemma sample_allocated : allocated sample_heap child_body.
Proof.
  intros k l H. in_entries H; by eexists.
Qed.

Lemma sample_parent_named : all_named sample_heap (schema_of_parent (Some base_class)).
Proof.
  intros k l H. simpl in H. in_entries H.
  exists title_field, "title". split; reflexivity.
Qed.

End SampleComposition.

(** ** Comparisons *)

Lemma num_cmp_refl (n : Num) : num_cmp n n = Equal \/ num_cmp n n = Unordered.
Proof.
  destruct n as [|[]|m e]; simpl; auto.
  left. by rewrite Z.compare_refl.
Qed.

Lemma string_compare_refl (s : string) : String.compare s s = Eq.
Proof.
  pose proof (String.compare_antisym s s) as H.
  destruct (String.compare s s); simpl in H; congruence.
Qed.

(** No value is below or above itself, and comparing a value with itself
    raises nothing. *)
Lemma py_ord_refl (v : PyVal) :
  py_ord v v = Some Equal \/ py_ord v v = Some Unordered.
Proof.
  revert v. fix IH 1. intros v.
  assert (Hseq : forall xs : list PyVal,
    let go := fix go (xs ys : list PyVal) {struct xs} : option Ordering :=
      match xs, ys with
      | [], [] => Some Equal
      | [], _ :: _ => Some Less
      | _ :: _, [] => Some Greater
      | x :: xs', y :: ys' => if py_eq x y then go xs' ys' else py_ord x y
      end in
    go xs xs = Some Equal \/ go xs xs = Some Unordered).
  { induction xs as [|x xs IHxs]; simpl; [by left|].
    destruct (py_eq x x); [exact IHxs|apply IH]. }
  assert (Hnum : forall n : Num,
    Some (num_cmp n n) = Some Equal \/ Some (num_cmp n n) = Some Unordered).
  { intros n. destruct (num_cmp_refl n) as [-> | ->]; auto. }
  destruct v as [|b|n|x|s|t|xs|xs|xs|kvs|c i].
  - by left.
  - apply (Hnum (NFin (Z.b2z b) 0)).
  - apply (Hnum (NFin n 0)).
  - apply (Hnum (num_of_float x)).
  - simpl. left. by rewrite string_compare_refl.
  - simpl. left. by rewrite Z.compare_refl.
  - apply Hseq.
  - apply Hseq.
  - simpl. destruct (subset_of xs xs); auto.
  - simpl. rewrite Nat.compare_refl.
    match goal with |- context [if ?c then _ else _] => destruct c end; auto.
  - simpl. rewrite string_compare_refl, Nat.compare_refl. by left.
Qed.

Lemma py_lt_irrefl (v : PyVal) : py_lt v v = Some false.
Proof. unfold py_lt. by destruct (py_ord_refl v) as [-> | ->]. Qed.

Lemma py_gt_irrefl (v : PyVal) : py_gt v v = Some false.
Proof. unfold py_gt. by destruct (py_ord_refl v) as [-> | ->]. Qed.

(** On integers the order is the order of [Z]. *)
Lemma py_lt_int (a b : Z) : py_lt (VInt a) (VInt b) = Some (a <? b).
Proof.
  unfold py_lt. simpl. rewrite Z.min_id, Z.sub_diag, !Z.mul_1_r.
  unfold Z.ltb. by destruct (a ?= b).
Qed.

Lemma py_gt_int (a b : Z) : py_gt (VInt a) (VInt b) = Some (b <? a).
Proof.
  unfold py_gt. simpl. rewrite Z.min_id, Z.sub_diag, !Z.mul_1_r.
  unfold Z.ltb. rewrite (Z.compare_antisym a b). by destruct (a ?= b).
Qed.

(** ** Validation *)

Section Validation.
Context {W : Type}.
Variable parse : PyVal -> bool -> Result PyVal.
Implicit Types (f : @Field W) (l lo hi : @Lazy W) (w : W) (value v : PyVal).

Lemma resolve_steady l w : steady l -> resolve l w = (Ok (resolved l w), w).
Proof.
  destruct l as [x|p]; simpl; [done|].
  intros Hp. specialize (Hp w). destruct (p w) as [x w']. simpl in *. by subst.
Qed.

(** [_min_check] and [_max_check] when the bound only reads the world. *)
Lemma min_check_steady c b lo hi v w :
  steady lo ->
  _min_check (Bounded c b lo hi) v w
  = (match resolved lo w with
     | VNone => Ok tt
     | m => match py_lt v m with
            | None => Raise TypeError
            | Some false => Ok tt
            | Some true =>
                Raise (InvalidFieldValueException (MsgLessThanMin m)
                         (_field_name b) v)
            end
     end, w).
Proof.
  intros Hlo. unfold _min_check, min_value, bind. simpl.
  rewrite (resolve_steady lo w Hlo).
  destruct (resolved lo w) eqn:E; try reflexivity;
    rewrite (resolve_steady lo w Hlo), E;
    (destruct (py_lt v _) as [[]|]; [|reflexivity|reflexivity]);
    rewrite (resolve_steady lo w Hlo), E; reflexivity.
Qed.

Lemma max_check_steady c b lo hi v w :
  steady hi ->
  _max_check (Bounded c b lo hi) v w
  = (match resolved hi w with
     | VNone => Ok tt
     | m => match py_gt v m with
            | None => Raise TypeError
            | Some false => Ok tt
            | Some true =>
                Raise (InvalidFieldValueException (MsgGreaterThanMax m)
                         (_field_name b) v)
            end
     end, w).
Proof.
  intros Hhi. unfold _max_check, max_value, bind. simpl.
  rewrite (resolve_steady hi w Hhi).
  destruct (resolved hi w) eqn:E; try reflexivity;
    rewrite (resolve_steady hi w Hhi), E;
    (destruct (py_gt v _) as [[]|]; [|reflexivity|reflexivity]);
    rewrite (resolve_steady hi w Hhi), E; reflexivity.
Qed.

Lemma bounded_validate_steady c b lo hi value v w :
  steady lo -> steady hi ->
  BaseField_validate parse (Bounded c b lo hi) value = Ok v ->
  validate parse (Bounded c b lo hi) value w
  = (match (match resolved lo w with
            | VNone => Some false
            | m => py_lt v m
            end) with
     | None => Raise TypeError
     | Some true =>
         Raise (InvalidFieldValueException (MsgLessThanMin (resolved lo w))
                  (_field_name b) v)
     | Some false =>
         match (match resolved hi w with
                | VNone => Some false
                | M => py_gt v M
                end) with
         | None => Raise TypeError
         | Some true =>
             Raise (InvalidFieldValueException (MsgGreaterThanMax (resolved hi w))
                      (_field_name b) v)
         | Some false => Ok v
         end
     end, w).
Proof.
  intros Hlo Hhi Hbase. simpl. unfold BoundedField_validate, bind, lift.
  rewrite Hbase, (min_check_steady c b lo hi v w Hlo).
  destruct (resolved lo w) eqn:Em; cbv zeta;
    try (destruct (py_lt v _) as [[]|]; try reflexivity);
    rewrite (max_check_steady c b lo hi v w Hhi);
    destruct (resolved hi w) eqn:EM; cbv zeta; try reflexivity;
    destruct (py_gt v _) as [[]|]; reflexivity.
Qed.

(** C6.  Range check of a bounded field whose bounds only read the world,
    on a value [v] that came out of the base pipeline; [m] and [M] are the
    bounds as they resolve when [validate] is called (in the world [w] of
    the call, so a callable bound is evaluated anew by every call).  The
    call fails value-invalid on [v] when [v < m], and when [v > M] (unless
    comparing [v] with [m] raises); it returns [v] when neither holds, in
    particular when [v] is one of the bounds and is within the other; a
    bound that is [None] is not compared. *)
Theorem bounded_range_check c b lo hi value v w :
  steady lo -> steady hi ->
  BaseField_validate parse (Bounded c b lo hi) value = Ok v ->
  let f := Bounded c b lo hi in
  let m := resolved lo w in
  let M := resolved hi w in
  let outcome := fst (validate parse f value w) in
  let min_passes := m = VNone \/ py_lt v m = Some false in
  let max_passes := M = VNone \/ py_gt v M = Some false in
  (m <> VNone -> py_lt v m = Some true ->
     outcome = Raise (InvalidFieldValueException (MsgLessThanMin m) (field_name f) v))
  /\ (M <> VNone -> py_gt v M = Some true -> min_passes ->
     outcome = Raise (InvalidFieldValueException (MsgGreaterThanMax M) (field_name f) v))
  /\ (M <> VNone -> py_gt v M = Some true -> m = VNone \/ is_Some (py_lt v m) ->
     exists message,
       outcome = Raise (InvalidFieldValueException message (field_name f) v))
  /\ (min_passes -> max_passes -> outcome = Ok v)
  /\ (v = m -> max_passes -> outcome = Ok v)
  /\ (v = M -> min_passes -> outcome = Ok v)
  /\ (m = VNone -> M = VNone -> outcome = Ok v).
Proof.
  intros Hlo Hhi Hbase f m M outcome min_passes max_passes.
  assert (Hout : outcome
    = match (match m with VNone => Some false | m' => py_lt v m' end) with
      | None => Raise TypeError
      | Some true =>
          Raise (InvalidFieldValueException (MsgLessThanMin m) (field_name f) v)
      | Some false =>
          match (match M with VNone => Some false | M' => py_gt v M' end) with
          | None => Raise TypeError
          | Some true =>
              Raise (InvalidFieldValueException (MsgGreaterThanMax M) (field_name f) v)
          | Some false => Ok v
          end
      end).
  { unfold outcome, f.
    rewrite (bounded_validate_steady c b lo hi value v w Hlo Hhi Hbase).
    unfold m, M. by destruct (resolved lo w), (resolved hi w). }
  assert (Hmin : min_passes ->
    match m with VNone => Some false | m' => py_lt v m' end = Some false).
  { intros [-> | Hlt]; [done|]. by destruct m. }
  assert (Hmax : max_passes ->
    match M with VNone => Some false | M' => py_gt v M' end = Some false).
  { intros [-> | Hgt]; [done|]. by destruct M. }
  assert (Hok : min_passes -> max_passes -> outcome = Ok v).
  { intros H1 H2. by rewrite Hout, (Hmin H1), (Hmax H2). }
  assert (Hfail_max : M <> VNone -> py_gt v M = Some true -> min_passes ->
    outcome = Raise (InvalidFieldValueException (MsgGreaterThanMax M) (field_name f) v)).
  { intros HM Hgt H1. rewrite Hout, (Hmin H1).
    destruct M; try done; by rewrite Hgt. }
  assert (Hfail_min : m <> VNone -> py_lt v m = Some true ->
    outcome = Raise (InvalidFieldValueException (MsgLessThanMin m) (field_name f) v)).
  { intros Hm Hlt. rewrite Hout. destruct m; try done; by rewrite Hlt. }
  repeat split.
  - exact Hfail_min.
  - exact Hfail_max.
  - intros HM Hgt [Hm | [[] Hlt]].
    + eexists. apply Hfail_max; [done|done|by left].
    + eexists. apply Hfail_min; [|done]. intros Hm. rewrite Hm in Hlt.
      by destruct v.
    + eexists. apply Hfail_max; [done|done|by right].
  - exact Hok.
  - intros -> H2. apply Hok; [|done]. right. apply py_lt_irrefl.
  - intros -> H1. apply Hok; [done|]. right. apply py_gt_irrefl.
  - intros Hm HM. apply Hok; by left.
Qed.

(** X3.  An [IntField] with literal integer bounds (or none) accepts an integer
    exactly when it lies within the bounds, the bounds included; below the
    lower bound it fails "less than min", above the upper one "greater than
    max". *)
Theorem int_field_range b (lo hi : option Z) (z : Z) (w : W) :
  _allowed_types b = [TInt; TLong] ->
  _choices b = None ->
  let f := Bounded IntField b (Literal (from_option VInt VNone lo))
             (Literal (from_option VInt VNone hi)) in
  (fst (validate parse f (VInt z) w) = Ok (VInt z)
   <-> from_option (fun m => m <= z) True lo /\ from_option (fun M => z <= M) True hi)
  /\ (forall m, lo = Some m -> z < m ->
        fst (validate parse f (VInt z) w)
        = Raise (InvalidFieldValueException (MsgLessThanMin (VInt m)) (_field_name b) (VInt z)))
  /\ (forall M, hi = Some M -> M < z -> from_option (fun m => m <= z) True lo ->
        fst (validate parse f (VInt z) w)
        = Raise (InvalidFieldValueException (MsgGreaterThanMax (VInt M)) (_field_name b) (VInt z))).
Proof.
  intros Htypes Hchoices f.
  assert (Hbase : BaseField_validate parse f (VInt z) = Ok (VInt z)).
  { unfold BaseField_validate. simpl. unfold IntField_instance_check, BaseField_instance_check.
    simpl. rewrite Htypes. simpl. unfold required, choices. simpl. rewrite Hchoices.
    by rewrite andb_false_r. }
  assert (Hout : fst (validate parse f (VInt z) w)
    = let above :=
        match hi with
        | Some M =>
            if M <? z
            then Raise (InvalidFieldValueException (MsgGreaterThanMax (VInt M))
                          (_field_name b) (VInt z))
            else Ok (VInt z)
        | None => Ok (VInt z)
        end in
      match lo with
      | Some m =>
          if z <? m
          then Raise (InvalidFieldValueException (MsgLessThanMin (VInt m))
                        (_field_name b) (VInt z))
          else above
      | None => above
      end).
  { unfold f.
    rewrite (bounded_validate_steady IntField b
               (Literal (from_option VInt VNone lo))
               (Literal (from_option VInt VNone hi))
               (VInt z) (VInt z) w I I Hbase).
    destruct lo as [m|], hi as [M|]; unfold resolved;
      cbn [from_option fst]; rewrite ?py_lt_int, ?py_gt_int;
      repeat match goal with
             | |- context [?a <? ?b] => destruct (a <? b)
             end; reflexivity. }
  rewrite Hout. clear Hout Hbase. cbv zeta.
  split; [split|split].
  - destruct lo as [m|], hi as [M|]; simpl;
      repeat match goal with
             | |- context [?a <? ?b] => destruct (Z.ltb_spec a b)
             end; intros Hok; try discriminate; split; (lia || done).
  - intros [Hlo Hhi]. destruct lo as [m|], hi as [M|]; simpl in *;
      repeat match goal with
             | |- context [?a <? ?b] => destruct (Z.ltb_spec a b)
             end; (reflexivity || lia).
  - intros m -> Hlt. by destruct (Z.ltb_spec z m); [|lia].
  - intros M -> Hlt Hlo. destruct lo as [m|]; simpl in *.
    + destruct (Z.ltb_spec z m); [lia|]. by destruct (Z.ltb_spec M z); [|lia].
    + by destruct (Z.ltb_spec M z); [|lia].
Qed.

(** *** The required check *)

Lemma rbind_ok {A B} (r : Result A) (k : A -> Result B) (y : B) :
  rbind r k = Ok y -> exists a, r = Ok a /\ k a = Ok y.
Proof. destruct r as [a|e]; simpl; [eauto|discriminate]. Qed.

Lemma bind_ok {A B} (m : M A) (k : A -> M B) w (y : B) :
  fst (bind m k w) = Ok y ->
  exists a w', m w = (Ok a, w') /\ fst (k a w') = Ok y.
Proof.
  unfold bind. destruct (m w) as [[a|e] w']; simpl; [eauto|discriminate].
Qed.

Lemma lift_ok {A} (r : Result A) w (y : A) :
  fst (lift (W:=W) r w) = Ok y -> r = Ok y.
Proof. done. Qed.

(** [_instance_check] does nothing to [None] but check its class. *)
Lemma instance_check_None f :
  _instance_check parse f VNone = BaseField_instance_check f VNone.
Proof. by destruct f as [| [] | | | |]. Qed.

Lemma BaseField_validate_required f value r :
  required f = true -> BaseField_validate parse f value = Ok r -> r <> VNone.
Proof.
  intros Hreq. unfold BaseField_validate. rewrite Hreq.
  destruct (_instance_check parse f value) as [x|e]; [|discriminate].
  destruct x; simpl; try discriminate;
    destruct (choices f); try destruct (negb _); intros [= <-]; discriminate.
Qed.

(** Whatever the class of the field, what [validate] returns came out of
    [BaseField.validate]. *)
Lemma validate_ok_from_base f value w r :
  fst (validate parse f value w) = Ok r ->
  exists x, BaseField_validate parse f x = Ok r.
Proof.
  destruct f as [c b|c b lo hi|c b re lo hi e|c b evs mx ct|b kv vv|b doc];
    cbn [validate].
  - intros H. exists value. exact H.
  - unfold BoundedField_validate. intros H.
    apply bind_ok in H as (x & w1 & H1 & H).
    apply bind_ok in H as (? & w2 & _ & H).
    apply bind_ok in H as (? & w3 & _ & H).
    exists value. unfold lift in H1. unfold ret in H. simpl in H.
    injection H1 as H1 _. congruence.
  - intros H. apply lift_ok in H. unfold StringField_validate in H.
    apply rbind_ok in H as (x & H1 & H).
    apply rbind_ok in H as (? & _ & H).
    apply rbind_ok in H as (? & _ & H).
    apply rbind_ok in H as (? & _ & H).
    apply rbind_ok in H as (? & _ & H).
    exists value. congruence.
  - unfold MultiEmbeddedListField_validate. intros H.
    apply bind_ok in H as (x & w1 & _ & H).
    apply bind_ok in H as (container & w2 & _ & H).
    apply bind_ok in H as (? & w3 & _ & H).
    exists container. exact H.
  - unfold DictField_validate. intros H.
    apply bind_ok in H as (x & w1 & _ & H).
    apply bind_ok in H as (value_dict & w2 & _ & H).
    exists value_dict. exact H.
  - intros H. apply lift_ok in H. unfold EmbeddedField_validate in H.
    apply rbind_ok in H as (doc' & _ & H). by exists doc'.
Qed.

(** C7.  A required field: when the value is [None] after the instance
    check, [BaseField.validate] raises value-invalid ("Value cannot be
    None"), and no [validate] of any class returns [None].  A field that is
    not required: when [None] is an instance of the accepted types and is
    not excluded by [choices], [BaseField.validate] returns [None]. *)
Theorem required_none_handling f :
  (required f = true ->
     (forall value, _instance_check parse f value = Ok VNone ->
        BaseField_validate parse f value
        = Raise (InvalidFieldValueException MsgValueCannotBeNone (field_name f) VNone))
     /\ (forall value w, fst (validate parse f value w) <> Ok VNone))
  /\ (required f = false ->
      isinstance VNone (_allowed_types (base f)) = true ->
      from_option (py_in VNone) true (choices f) = true ->
      BaseField_validate parse f VNone = Ok VNone
      /\ (forall c b w, f = Plain c b -> validate parse f VNone w = (Ok VNone, w))).
Proof.
  split.
  - intros Hreq. split.
    + intros value Hcheck. unfold BaseField_validate. by rewrite Hcheck, Hreq.
    + intros value w H.
      destruct (validate_ok_from_base f value w VNone H) as (x & Hx).
      by apply (BaseField_validate_required f x VNone Hreq Hx).
  - intros Hreq Hinst Hchoices.
    assert (Hbase : BaseField_validate parse f VNone = Ok VNone).
    { unfold BaseField_validate.
      rewrite instance_check_None. unfold BaseField_instance_check.
      rewrite Hinst, Hreq. simpl.
      destruct (choices f) as [permitted|]; [|done].
      simpl in Hchoices. by rewrite Hchoices. }
    split; [exact Hbase|].
    intros c b w ->. simpl. unfold lift. by rewrite Hbase.
Qed.

(** *** DateTimeField *)

(** C9.  [DateTimeField._instance_check] on a value that is neither [None]
    nor a datetime and that the parser rejects: a [ValueError] becomes the
    value-invalid error carrying the field name and the value; any other
    exception of the parser, a [TypeError] for example, leaves [validate] as
    it is, and is none of the structured errors. *)
Theorem datetime_coercion_catches_only_ValueError ignoretz b lo hi value w e :
  value <> VNone -> (forall t, value <> VDatetime t) ->
  parse value ignoretz = Raise e ->
  let f := Bounded (DateTimeField ignoretz) b lo hi in
  (e = ValueError ->
     validate parse f value w
     = (Raise (InvalidFieldValueException
                 (MsgValueMustBeOfType (_allowed_types b) (type_of value))
                 (field_name f) value), w))
  /\ (e <> ValueError -> validate parse f value w = (Raise e, w))
  /\ (e = TypeError ->
        validate parse f value w = (Raise TypeError, w)
        /\ is_structured e = false /\ is_value_invalid e = false).
Proof.
  intros Hnone Hdt Hparse f.
  assert (Hcheck : _instance_check parse f value
                   = match e with
                     | ValueError => _raise_check_failure f value None
                     | _ => Raise e
                     end).
  { simpl. unfold DateTimeField_instance_check.
    destruct value; try done; try (by rewrite Hparse; destruct e).
    by destruct (Hdt t). }
  assert (Hval : validate parse f value w
                 = (match e with
                    | ValueError => _raise_check_failure f value None
                    | _ => Raise e
                    end, w)).
  { simpl. unfold BoundedField_validate, bind, lift, BaseField_validate.
    fold f. rewrite Hcheck. by destruct e. }
  split; [|split].
  - intros ->. by rewrite Hval.
  - intros He. rewrite Hval. by destruct e.
  - intros ->. by rewrite Hval.
Qed.

End Validation.

(** ** Constructors *)

Section Construction.
Context {W : Type}.
Variable parse : PyVal -> bool -> Result PyVal.
Implicit Types (f : @Field W) (kwargs : @Kwargs W) (validator : @PyObj W).

Lemma BaseField_validate_validator_ok validator (entry : @Field W + PyVal) :
  BaseField_validate_validator validator = Ok entry -> stored_as validator entry.
Proof.
  destruct validator as [v|g|[|x items]]; simpl.
  - destruct (truthy v) eqn:E; [discriminate|]. intros [= <-]. by split.
  - by intros [= <-].
  - intros [= <-]. by split.
  - discriminate.
Qed.

Lemma validate_each_ok (items : list (@PyObj W)) entries :
  validate_each items = Ok entries -> Forall2 stored_as items entries.
Proof.
  revert entries. induction items as [|x items IH]; intros entries; simpl.
  - intros [= <-]. constructor.
  - destruct (BaseField_validate_validator x) as [entry|e] eqn:Ex;
      simpl; [|discriminate].
    destruct (validate_each items) as [others|e] eqn:Eo; simpl; [|discriminate].
    intros [= <-]. constructor; [by apply BaseField_validate_validator_ok|by apply IH].
Qed.

Lemma BaseField_init_ok choices allowed_types kwargs b :
  BaseField_init choices allowed_types kwargs = Ok b -> _choices b = choices.
Proof.
  unfold BaseField_init.
  destruct (kw_container_type kwargs), (kw_ignoretz kwargs); try discriminate.
  by intros [= <-].
Qed.

(** C8.  [MultiEmbeddedListField] constructed with [element_validators]
    left [None] raises [TypeError], which is none of the structured errors;
    and whenever the constructor returns, the argument was a list and the
    field holds, entry by entry, what the list held: fields, or objects that
    are false. *)
Theorem multi_list_needs_validator_list choices max_items kwargs :
  MultiEmbeddedListField_init (W:=W) (OVal VNone) choices max_items kwargs
  = Raise TypeError
  /\ is_structured TypeError = false
  /\ is_definition_invalid TypeError = false
  /\ forall element_validators f,
       MultiEmbeddedListField_init element_validators choices max_items kwargs = Ok f ->
       exists items b entries container_type,
         list_items element_validators = Some items
         /\ f = Multi MultiEmbeddedListField b entries max_items container_type
         /\ Forall2 stored_as items entries.
Proof.
  split; [done|]. split; [done|]. split; [done|].
  intros ev f. unfold MultiEmbeddedListField_init, MultiEmbeddedListField_init_as.
  destruct (MultiEmbeddedListField_validate_validator ev) as [entries|e] eqn:Ev;
    simpl; [|discriminate].
  destruct (BaseField_init _ _ _) as [b|e]; simpl; [|discriminate].
  intros [= <-].
  assert (exists items, list_items ev = Some items /\ validate_each items = Ok entries)
    as (items & Hitems & Heach).
  { destruct ev as [v|g|items]; simpl in *; try discriminate; [|eauto].
    destruct v; try discriminate. eauto. }
  exists items, b, entries, (kw_get (kw_container_type kwargs) ContainerList).
  split; [done|]. split; [done|]. by apply validate_each_ok.
Qed.

(** C10.  [choices] given to [DictField], [MultiEmbeddedListField] or
    [ListField] is dropped: the constructor returns what it returns without
    it; the field it returns has [choices] [None]; the base pipeline never
    rejects a value as "not one of the permitted values" for a field whose
    [choices] is [None]; and [validate] gives the same with and without
    the argument. *)
Theorem container_choices_discarded (choices : option (list PyVal))
    (key_validator value_validator element_validators : @PyObj W)
    (max_items : option Z) kwargs :
  let dict_with := DictField_init key_validator value_validator choices kwargs in
  let dict_without := DictField_init key_validator value_validator None kwargs in
  let multi_with :=
    MultiEmbeddedListField_init element_validators choices max_items kwargs in
  let multi_without :=
    MultiEmbeddedListField_init element_validators None max_items kwargs in
  let list_with := ListField_init element_validators choices max_items kwargs in
  let list_without := ListField_init element_validators None max_items kwargs in
  dict_with = dict_without /\ multi_with = multi_without /\ list_with = list_without
  /\ (forall f, dict_with = Ok f \/ multi_with = Ok f \/ list_with = Ok f ->
        Fields.choices f = None)
  /\ (forall f value,
        Fields.choices f = None ->
        BaseField_validate parse f value
        = match _instance_check parse f value with
          | Raise e => Raise e
          | Ok x =>
              if required f && (match x with VNone => true | _ => false end)
              then Raise (InvalidFieldValueException MsgValueCannotBeNone
                            (field_name f) x)
              else Ok x
          end)
  /\ (forall f f' value w,
        (dict_with = Ok f /\ dict_without = Ok f')
        \/ (multi_with = Ok f /\ multi_without = Ok f')
        \/ (list_with = Ok f /\ list_without = Ok f') ->
        validate parse f value w = validate parse f' value w).
Proof.
  intros dict_with dict_without multi_with multi_without list_with list_without.
  split; [done|]. split; [done|]. split; [done|]. split; [|split].
  - assert (Hmulti : forall c ev f,
      MultiEmbeddedListField_init_as c ev choices max_items kwargs = Ok f ->
      Fields.choices f = None).
    { intros c ev f. unfold MultiEmbeddedListField_init_as.
      destruct (MultiEmbeddedListField_validate_validator ev); simpl; [|discriminate].
      destruct (BaseField_init _ _ _) as [b|e] eqn:Eb; simpl; [|discriminate].
      intros [= <-]. by apply BaseField_init_ok in Eb. }
    intros f [H|[H|H]].
    + unfold dict_with, DictField_init in H.
      destruct (match key_validator with OVal VNone => _ | _ => _ end);
        simpl in H; [|discriminate].
      destruct (match value_validator with OVal VNone => _ | _ => _ end);
        simpl in H; [|discriminate].
      destruct (BaseField_init _ _ _) as [b|e] eqn:Eb; simpl in H; [|discriminate].
      injection H as <-. by apply BaseField_init_ok in Eb.
    + by apply (Hmulti _ _ _ H).
    + by apply (Hmulti _ _ _ H).
  - intros f value Hc. unfold BaseField_validate. by rewrite Hc.
  - intros f f' value w Hcase.
    assert (Heq : Ok f = Ok f').
    { destruct Hcase as [[H H']|[[H H']|[H H']]]; rewrite <- H, <- H'; reflexivity. }
    by injection Heq as ->.
Qed.

End Construction.

(** ** The sample declarations, run *)

Section SampleRuns.
Import Samples.

(** The constructors give the sample fields the attributes listed. *)
Example sample_fields_built :
  int_field = Bounded IntField int_attrs unbounded unbounded
  /\ clocked_int_field = Bounded IntField int_attrs clock_bound (Literal (VInt 10))
  /\ datetime_field = Bounded (DateTimeField true) datetime_attrs unbounded unbounded
  /\ int_list_field = Multi ListField list_attrs [inl int_field] None ContainerList
  /\ int_or_string_list_field
     = Multi MultiEmbeddedListField list_attrs (map inl [int_field; string_field])
         None ContainerList.
Proof. repeat split. Qed.

Lemma clock_bound_steady : steady clock_bound.
Proof. intros w. reflexivity. Qed.

Lemma bounded_range_check_witness :
  steady clock_bound
  /\ fst (validate sample_parse clocked_int_field (VInt 3) 2) = Ok (VInt 3)
  /\ fst (validate sample_parse clocked_int_field (VInt 3) 3) = Ok (VInt 3)
  /\ fst (validate sample_parse clocked_int_field (VInt 10) 3) = Ok (VInt 10)
  /\ fst (validate sample_parse clocked_int_field (VInt 3) 5)
     = Raise (InvalidFieldValueException (MsgLessThanMin (VInt 5)) None (VInt 3))
  /\ fst (validate sample_parse clocked_int_field (VInt 11) 5)
     = Raise (InvalidFieldValueException (MsgGreaterThanMax (VInt 10)) None (VInt 11)).
Proof.
  pose proof (fun value w =>
    bounded_range_check sample_parse IntField int_attrs clock_bound
      (Literal (VInt 10)) value value w clock_bound_steady I) as H.
  split; [exact clock_bound_steady|].
  split. { destruct (H (VInt 3) 2 eq_refl) as (_ & _ & _ & Hok & _).
           apply Hok; right; reflexivity. }
  split. { destruct (H (VInt 3) 3 eq_refl) as (_ & _ & _ & _ & Hmin & _).
           apply Hmin; [reflexivity|right; reflexivity]. }
  split. { destruct (H (VInt 10) 3 eq_refl) as (_ & _ & _ & _ & _ & Hmax & _).
           apply Hmax; [reflexivity|right; reflexivity]. }
  split. { destruct (H (VInt 3) 5 eq_refl) as (Hlow & _).
           apply Hlow; [discriminate|reflexivity]. }
  destruct (H (VInt 11) 5 eq_refl) as (_ & Hhigh & _).
  apply Hhigh; [discriminate|reflexivity|right; reflexivity].
Defined.

Lemma required_none_handling_witness :
  BaseField_validate sample_parse required_object_field VNone
  = Raise (InvalidFieldValueException MsgValueCannotBeNone None VNone)
  /\ fst (validate sample_parse required_object_field VNone 0) <> Ok VNone
  /\ validate sample_parse object_field VNone 0 = (Ok VNone, 0).
Proof.
  destruct (required_none_handling sample_parse required_object_field)
    as (Hrequired & _).
  destruct (Hrequired eq_refl) as (Hraise & Hnever).
  destruct (required_none_handling sample_parse object_field) as (_ & Hoptional).
  destruct (Hoptional eq_refl eq_refl eq_refl) as (_ & Hplain).
  split; [by apply Hraise|]. split; [apply Hnever|].
  eapply Hplain. reflexivity.
Defined.

Lemma datetime_coercion_witness :
  VInt 5 <> VNone
  /\ sample_parse (VInt 5) true = Raise TypeError
  /\ validate sample_parse datetime_field (VInt 5) 0 = (Raise TypeError, 0)
  /\ validate sample_parse datetime_field (VStr "soon") 0
     = (Raise (InvalidFieldValueException (MsgValueMustBeOfType [TDatetime] TStr)
                 None (VStr "soon")), 0).
Proof.
  split; [discriminate|]. split; [reflexivity|]. split.
  - apply (datetime_coercion_catches_only_ValueError sample_parse true
             datetime_attrs unbounded unbounded (VInt 5) 0 TypeError);
      [discriminate|intros t; discriminate|reflexivity|reflexivity].
  - apply (datetime_coercion_catches_only_ValueError sample_parse true
             datetime_attrs unbounded unbounded (VStr "soon") 0 ValueError);
      [discriminate|intros t; discriminate|reflexivity|reflexivity].
Defined.

(** C2 fails as stated: in the pass that composes the sample class there is
    no state at all in which the lock of the class is held, so no statement
    of the pass runs under it. *)
Lemma composition_never_holds_lock :
  ~ Exists (fun st => lock_held st = true)
      (trace (statements child_body (Some base_class)) (new_class sample_heap)).
Proof.
  intros Hheld. apply Exists_exists in Hheld as (st & Hin & Hst).
  pose proof (trace_never_locked (statements child_body (Some base_class))
                (new_class sample_heap) eq_refl) as Hfree.
  rewrite Forall_forall in Hfree. specialize (Hfree st Hin). congruence.
Qed.

(** The composed sample class: the field at 1 sits under both names it was
    bound to and has taken one of them; the field at 2, bound once more as
    [heading], is still named [title]; [title] comes from the parent; the
    explicit [False] wins over the parent's [True]. *)
Example sample_class_composed :
  let st := DocumentMetaClass_init child_body (Some base_class) (new_class sample_heap) in
  _schema st
  = Some (<["age" := 1%nat]> (<["years" := 1%nat]> (<["heading" := 2%nat]>
          (<["title" := 2%nat]> ∅))))
  /\ _schema_flexible st = Some (OPlain (VBool false))
  /\ _schema_lock st = Some Unlocked
  /\ (exists f, heap st !! 1%nat = Some f
        /\ (field_name f = Some "age" \/ field_name f = Some "years"))
  /\ (field_name <$> heap st !! 2%nat) = Some (Some "title").
Proof.
  vm_compute. repeat split; try reflexivity.
  eexists. split; [reflexivity|]. simpl. auto.
Qed.

(** C1 fails on an element whose normalized value is false: [IntField]
    accepts [0] and returns it, yet [ListField(IntField())] rejects [[0]]
    as matching no candidate, with no candidate named; the same happens to
    the empty string under a [StringField] candidate.  And the names are
    collected over the whole list: for [[1, "a", 2.5]] the message names
    [IntField] twice, once for ["a"], which [StringField] then accepted. *)
Theorem falsy_element_matches_no_candidate :
  fst (validate sample_parse int_field (VInt 0) 0) = Ok (VInt 0)
  /\ fst (validate sample_parse int_list_field (VList [VInt 0]) 0)
     = Raise (InvalidFieldDefinition (MsgPermittedTypes "") None)
  /\ fst (validate sample_parse int_list_field (VList [VInt 1; VInt 2]) 0)
     = Ok (VList [VInt 1; VInt 2])
  /\ fst (validate sample_parse string_field (VStr "") 0) = Ok (VStr "")
  /\ fst (validate sample_parse int_or_string_list_field (VList [VStr "a"; VStr ""]) 0)
     = Raise (InvalidFieldDefinition (MsgPermittedTypes "IntField, IntField") None)
  /\ fst (validate sample_parse int_or_string_list_field
            (VList [VInt 1; VStr "a"; two_and_a_half]) 0)
     = Raise (InvalidFieldDefinition
                (MsgPermittedTypes "IntField, IntField, StringField") None).
Proof. repeat split. Qed.

End SampleRuns.

(** ** Resolution among the candidates of a list field *)

Section Resolution.
Context {W : Type}.
Variable parse : PyVal -> bool -> Result PyVal.
Implicit Types (f g : @Field W) (w : W) (val r : PyVal) (names : list string).

(** The candidates before the first accepting one are recorded, in order,
    and the accepting candidate's value is what the inner loop leaves. *)
Lemma try_validators_resolves rejected g later val r names w :
  Forall (fun h => rejects parse h val) rejected ->
  accepts parse g val r ->
  exists w',
    try_validators (validate parse) (map inl (rejected ++ g :: later)) val names w
    = (Ok (r, names ++ map display_name rejected), w').
Proof.
  intros Hrej Hacc. revert names w.
  induction Hrej as [|h rejected Hh _ IH]; intros names w; simpl.
  - specialize (Hacc w). destruct (validate parse g val w) as [[x|e] w'];
      simpl in Hacc; [|discriminate].
    injection Hacc as ->. exists w'. by rewrite app_nil_r.
  - destruct (Hh w) as (message & field & value & Hw).
    destruct (validate parse h val w) as [[x|e] w']; simpl in Hw; [discriminate|].
    injection Hw as ->.
    destruct (IH (names ++ [display_name h]) w') as (w'' & Hw'').
    exists w''. by rewrite Hw'', <- app_assoc.
Qed.

(** When every candidate rejects, the inner loop leaves [None] and has
    recorded every candidate. *)
Lemma try_validators_all_reject (candidates : list (@Field W)) val names w :
  Forall (fun h => rejects parse h val) candidates ->
  exists w',
    try_validators (validate parse) (map inl candidates) val names w
    = (Ok (VNone, names ++ map display_name candidates), w').
Proof.
  intros Hrej. revert names w.
  induction Hrej as [|h candidates Hh _ IH]; intros names w; simpl.
  - exists w. by rewrite app_nil_r.
  - destruct (Hh w) as (message & field & value & Hw).
    destruct (validate parse h val w) as [[x|e] w']; simpl in Hw; [discriminate|].
    injection Hw as ->.
    destruct (IH (names ++ [display_name h]) w') as (w'' & Hw'').
    exists w''. by rewrite Hw'', <- app_assoc.
Qed.

(** The outer loop over elements that all resolve to values that are
    true: the values are appended in order. *)
Lemma validate_elements_resolves f (candidates : list (@Field W)) vals rs acc names w :
  Forall2 (fun val r => exists rejected, resolves parse candidates val r rejected)
    vals rs ->
  Forall (fun r => truthy r = true) rs ->
  fst (validate_elements (validate parse) f (map inl candidates) ContainerList
         vals (VList acc) names w)
  = Ok (VList (acc ++ rs)).
Proof.
  intros Hres. revert acc names w.
  induction Hres as [|val r vals rs (rejected & g & later & -> & Hrej & Hacc) _ IH];
    intros acc names w Htrue.
  - simpl. by rewrite app_nil_r.
  - apply Forall_cons in Htrue as [Hr Htrue].
    simpl. unfold bind at 1.
    destruct (try_validators_resolves rejected g later val r names w Hrej Hacc)
      as (w1 & ->).
    simpl. rewrite Hr. unfold bind, lift. simpl.
    by rewrite (IH (acc ++ [r]) (names ++ map display_name rejected) w1 Htrue),
      <- app_assoc.
Qed.

(** Sequencing after a call whose outcome is known. *)
Lemma bind_lift_Ok {A B} (a : A) (k : A -> M B) : bind (W:=W) (lift (Ok a)) k = k a.
Proof. reflexivity. Qed.

Lemma bind_fst_Ok {A B} (m : M A) (k : A -> M B) w (a : A) :
  fst (m w) = Ok a -> exists w1, bind (W:=W) m k w = k a w1.
Proof.
  unfold bind. destruct (m w) as [[x|e] w1]; simpl; [|discriminate].
  intros [= ->]. by exists w1.
Qed.

Lemma bind_fst_Raise {A B} (m : M A) (k : A -> M B) w e :
  fst (m w) = Raise e -> fst (bind (W:=W) m k w) = Raise e.
Proof.
  unfold bind. destruct (m w) as [[x|e'] w1]; simpl; [discriminate|]. by intros [= ->].
Qed.

(** X1.  First match wins.  A list field built on field candidates, given a list
    each of whose elements is accepted by some candidate after the ones
    before it rejected it, the accepted values all being true: [validate]
    returns the list of the first accepting candidates' values, in order. *)
Theorem list_first_match_wins c b (candidates : list (@Field W)) max_items vals rs w :
  _allowed_types b = [TList; TTuple; TSet] ->
  _choices b = None ->
  candidates <> [] ->
  from_option (fun n => Z.of_nat (length rs) <= n) True max_items ->
  Forall2 (fun val r => exists rejected, resolves parse candidates val r rejected)
    vals rs ->
  Forall (fun r => truthy r = true) rs ->
  fst (validate parse (Multi c b (map inl candidates) max_items ContainerList)
         (VList vals) w)
  = Ok (VList rs).
Proof.
  intros Htypes Hchoices Hne Hmax Hres Htrue.
  assert (Hlist : forall xs,
    _instance_check parse (Multi c b (map inl candidates) max_items ContainerList)
      (VList xs) = Ok (VList xs)).
  { intros xs. simpl. unfold BaseField_instance_check. simpl. by rewrite Htypes. }
  cbn [validate]. 
  set (f := Multi c b (map inl candidates) max_items ContainerList) in *.
  unfold MultiEmbeddedListField_validate.
  rewrite Hlist, bind_lift_Ok.
  pose proof (validate_elements_resolves f candidates vals rs [] [] w Hres Htrue)
    as Hloop.
  destruct candidates as [|g candidates]; [done|].
  change (map inl (g :: candidates)) with (@inl _ PyVal g :: map inl candidates) in *.
  cbv beta iota. unfold elements. rewrite bind_lift_Ok.
  match goal with
  | |- fst (bind ?m ?k ?w0) = _ =>
      destruct (bind_fst_Ok m k w0 (VList ([] ++ rs)) Hloop) as (w1 & ->)
  end.
  assert (Hsize : match max_items with
          | Some n =>
              if negb (n =? 0)
              then rbind (len (VList ([] ++ rs)))
                     (fun size : Z =>
                        if n <? size
                        then _raise_check_failure f (VInt size) (Some (MsgTooManyItems n))
                        else Ok tt)
              else Ok tt
          | None => Ok tt
          end = Ok tt).
  { destruct max_items as [n|]; [|done]. simpl in Hmax.
    destruct (negb (n =? 0)); [|done]. simpl.
    by destruct (Z.ltb_spec n (Z.of_nat (length rs))); [lia|]. }
  rewrite Hsize, bind_lift_Ok. unfold lift. simpl fst.
  unfold BaseField_validate. rewrite Hlist. unfold required, choices. simpl.
  rewrite Hchoices. by rewrite andb_false_r.
Qed.

(** X2.  No match.  When every candidate rejects the first element, [validate]
    fails with the definition-invalid error whose message is the candidates'
    display names in declared order, joined by [", "]. *)
Theorem list_no_match_names_candidates c b (candidates : list (@Field W)) max_items
    container_type val rest w :
  _allowed_types b = [TList; TTuple; TSet] ->
  candidates <> [] ->
  Forall (fun h => rejects parse h val) candidates ->
  fst (validate parse (Multi c b (map inl candidates) max_items container_type)
         (VList (val :: rest)) w)
  = Raise (InvalidFieldDefinition
             (MsgPermittedTypes (String.concat ", " (map display_name candidates)))
             (_field_name b)).
Proof.
  intros Htypes Hne Hrej.
  assert (Hlist :
    _instance_check parse (Multi c b (map inl candidates) max_items container_type)
      (VList (val :: rest)) = Ok (VList (val :: rest))).
  { simpl. unfold BaseField_instance_check. simpl. by rewrite Htypes. }
  cbn [validate].
  set (f := Multi c b (map inl candidates) max_items container_type) in *.
  unfold MultiEmbeddedListField_validate.
  rewrite Hlist, bind_lift_Ok.
  destruct (try_validators_all_reject candidates val [] w Hrej) as (w1 & Htry).
  destruct candidates as [|g candidates]; [done|].
  change (map inl (g :: candidates)) with (@inl _ PyVal g :: map inl candidates) in *.
  cbv beta iota. unfold elements. rewrite bind_lift_Ok.
  apply bind_fst_Raise.
  cbn [validate_elements]. unfold bind at 1. rewrite Htry. reflexivity.
Qed.
End Resolution.

(** ** Resolution on the sample list field *)

Section SampleResolution.
Import Samples.

Lemma int_field_accepts_int (n : Z) : accepts sample_parse int_field (VInt n) (VInt n).
Proof. intros w. reflexivity. Qed.

Lemma int_field_rejects_str (s : string) : rejects sample_parse int_field (VStr s).
Proof. intros w. by eexists _, _, _. Qed.

Lemma string_field_accepts_str (s : string) :
  accepts sample_parse string_field (VStr s) (VStr s).
Proof. intros w. reflexivity. Qed.

Lemma int_field_rejects_fraction : rejects sample_parse int_field two_and_a_half.
Proof. intros w. by eexists _, _, _. Qed.

Lemma string_field_rejects_float : rejects sample_parse string_field two_and_a_half.
Proof. intros w. by eexists _, _, _. Qed.

Lemma list_first_match_wins_witness :
  fst (validate sample_parse int_or_string_list_field
         (VList [VInt 1; VStr "a"; VInt 2]) 0)
  = Ok (VList [VInt 1; VStr "a"; VInt 2]).
Proof.
  apply (list_first_match_wins sample_parse MultiEmbeddedListField list_attrs
           [int_field; string_field] None).
  - reflexivity.
  - reflexivity.
  - discriminate.
  - exact I.
  - repeat constructor.
    + exists [], int_field, [string_field].
      split; [reflexivity|]. split; [constructor|apply int_field_accepts_int].
    + exists [int_field], string_field, [].
      split; [reflexivity|]. split; [|apply string_field_accepts_str].
      repeat constructor. apply int_field_rejects_str.
    + exists [], int_field, [string_field].
      split; [reflexivity|]. split; [constructor|apply int_field_accepts_int].
  - repeat constructor.
Defined.

Lemma list_no_match_names_candidates_witness :
  fst (validate sample_parse int_or_string_list_field (VList [two_and_a_half; VInt 1]) 0)
  = Raise (InvalidFieldDefinition (MsgPermittedTypes "IntField, StringField") None).
Proof.
  apply (list_no_match_names_candidates sample_parse MultiEmbeddedListField list_attrs
           [int_field; string_field] None ContainerList two_and_a_half [VInt 1] 0).
  - reflexivity.
  - discriminate.
  - repeat constructor;
      [apply int_field_rejects_fraction|apply string_field_rejects_float].
Defined.

Lemma int_field_range_witness :
  fst (validate sample_parse
         (Bounded IntField int_attrs (Literal (VInt 0)) (Literal (VInt 10)))
         (VInt 10) 0)
  = Ok (VInt 10).
Proof.
  apply (int_field_range sample_parse int_attrs (Some 0) (Some 10) 10 0
           eq_refl eq_refl).
  simpl. lia.
Defined.

End SampleResolution.

(* ===================================================================== *)
(** * Further properties of the fields *)
(* ===================================================================== *)

(** ** What [validate] returns, and what it refuses by type *)

Section Postconditions.
Context {W : Type}.
Variable parse : PyVal -> bool -> Result PyVal.
Implicit Types (f : @Field W) (w : W) (value r : PyVal).

Lemma BaseField_instance_check_ok f value r :
  BaseField_instance_check f value = Ok r ->
  r = value /\ isinstance r (_allowed_types (base f)) = true.
Proof.
  unfold BaseField_instance_check.
  destruct (isinstance value _) eqn:E; [|discriminate]. by intros [= <-].
Qed.

Lemma instance_check_ok f value r :
  _instance_check parse f value = Ok r ->
  isinstance r (_allowed_types (base f)) = true.
Proof.
  assert (Hb : forall x, BaseField_instance_check f x = Ok r ->
                 isinstance r (_allowed_types (base f)) = true).
  { intros x Hx. by apply BaseField_instance_check_ok in Hx as [_ ?]. }
  destruct f as [c b|[| | |tz] b lo hi|c b re lo hi e|c b evs mx ct|b kv vv|b doc];
    simpl; try apply Hb.
  - unfold FloatField_instance_check.
    destruct (as_integer value); [|apply Hb].
    destruct (float_of_int z); [apply Hb|discriminate].
  - unfold DateTimeField_instance_check.
    destruct value; try apply Hb;
      (destruct (parse _ tz) as [parsed|[]]; try discriminate; apply Hb).
Qed.

Lemma BaseField_validate_ok f value r :
  BaseField_validate parse f value = Ok r ->
  _instance_check parse f value = Ok r
  /\ (required f = true -> r <> VNone)
  /\ (forall permitted, choices f = Some permitted -> py_in r permitted = true).
Proof.
  unfold BaseField_validate.
  destruct (_instance_check parse f value) as [x|e]; [|discriminate].
  destruct (required f && _) eqn:Hreq; [discriminate|].
  destruct (choices f) as [permitted|] eqn:Hc.
  - destruct (negb (py_in x permitted)) eqn:Hin; [discriminate|].
    intros [= <-]. split; [done|]. split.
    + intros Hr ->. by rewrite Hr in Hreq.
    + intros ? [= <-]. by apply negb_false_iff in Hin.
  - intros [= <-]. split; [done|]. split; [|done].
    intros Hr ->. by rewrite Hr in Hreq.
Qed.

(** Where the class keeps [BaseField._instance_check], what
    [BaseField.validate] returns is the value it was given. *)
Lemma BaseField_validate_same f value r :
  _instance_check parse f value = BaseField_instance_check f value ->
  BaseField_validate parse f value = Ok r -> r = value.
Proof.
  unfold BaseField_validate. intros ->. unfold BaseField_instance_check.
  destruct (isinstance _ _); [|discriminate].
  destruct (required f && _); [discriminate|].
  destruct (choices f) as [permitted|]; [destruct (negb _); [discriminate|]|];
    by intros [= <-].
Qed.

(** X4.  Whatever a field's [validate] returns, for a field of any class, in
    any world and for any input, is an instance of the field's allowed
    types; it is not [None] when the field is required; and, when the field
    has choices and the value returned equals itself (as every value does
    but a NaN or a sequence that holds one, whose membership by identity is
    not represented), it equals one of the field's choices. *)
Theorem validate_returns_accepted_value f value w r :
  fst (validate parse f value w) = Ok r ->
  isinstance r (_allowed_types (base f)) = true
  /\ (required f = true -> r <> VNone)
  /\ (forall permitted, choices f = Some permitted -> py_eq r r = true ->
        py_in r permitted = true).
Proof.
  intros H. destruct (validate_ok_from_base parse f value w r H) as (x & Hx).
  apply BaseField_validate_ok in Hx as (Hcheck & Hreq & Hch).
  split; [by apply (instance_check_ok f x)|]. split; [done|].
  intros permitted Hpermitted _. by apply Hch.
Qed.

(** X5.  Type enforcement.  A field of a class that keeps
    [BaseField._instance_check] (every class modelled but [IntField],
    [FloatField], [DateTimeField] and [EmbeddedField]) refuses a value that
    is no instance of its allowed types before anything else is looked at:
    [validate] raises the value-invalid error that names the allowed types
    and the type passed, with the field's name and the value, and the world
    is left as it was. *)
Theorem type_mismatch_is_rejected f value w :
  keeps_instance_check f = true ->
  isinstance value (_allowed_types (base f)) = false ->
  validate parse f value w
  = (Raise (InvalidFieldValueException
              (MsgValueMustBeOfType (_allowed_types (base f)) (type_of value))
              (field_name f) value), w).
Proof.
  intros Hkeep Hinst.
  assert (Hcheck : _instance_check parse f value
                   = Raise (InvalidFieldValueException
                              (MsgValueMustBeOfType (_allowed_types (base f))
                                 (type_of value)) (field_name f) value)).
  { destruct f as [c b|[| | |tz] b lo hi|c b re lo hi e|c b evs mx ct|b kv vv|b doc];
      try discriminate; cbn [_instance_check];
      unfold BaseField_instance_check; by rewrite Hinst. }
  assert (Hbase : BaseField_validate parse f value
                  = Raise (InvalidFieldValueException
                             (MsgValueMustBeOfType (_allowed_types (base f))
                                (type_of value)) (field_name f) value)).
  { unfold BaseField_validate. by rewrite Hcheck. }
  destruct f as [c b|[| | |tz] b lo hi|c b re lo hi e|c b evs mx ct|b kv vv|b doc];
    try discriminate; cbn [validate].
  - unfold lift. by rewrite Hbase.
  - unfold BoundedField_validate, bind, lift. by rewrite Hbase.
  - unfold lift, StringField_validate. by rewrite Hbase.
  - unfold MultiEmbeddedListField_validate, bind, lift. by rewrite Hcheck.
  - unfold DictField_validate, bind, lift. by rewrite Hcheck.
Qed.

End Postconditions.

(** ** String fields *)

Section Strings.
Context {W : Type}.
Variable parse : PyVal -> bool -> Result PyVal.

Lemma BaseField_init_attrs choices allowed_types (kwargs : @Kwargs W) b :
  BaseField_init choices allowed_types kwargs = Ok b ->
  _default b = kw_get (kw_default kwargs) (Literal VNone)
  /\ _choices b = choices
  /\ _required b = kw_get (kw_required kwargs) false
  /\ _field_name b = kw_field_name kwargs
  /\ _allowed_types b = allowed_types.
Proof.
  unfold BaseField_init.
  destruct (kw_container_type kwargs), (kw_ignoretz kwargs); try discriminate.
  by intros [= <-].
Qed.

(** X6.  A [StringField] without choices accepts a string, and returns it
    as it is, exactly when its length is at most [max_length] and at least
    [min_length] (each where given), the pattern matches (where given), and,
    unless [allow_empty] is set, the string is not blank; otherwise
    [validate] raises a value-invalid error with the field's name and the
    string. *)
Theorem string_field_length_and_pattern c (b : @BaseAttrs W) regex min_length max_length
    allow_empty (s : string) (w : W) :
  _allowed_types b = [TStr] -> _choices b = None ->
  let f := Str c b regex min_length max_length allow_empty in
  let size := Z.of_nat (String.length s) in
  let fits :=
    from_option (fun n => size <= n) True max_length
    /\ from_option (fun n => n <= size) True min_length
    /\ from_option (fun matches => matches s = true) True regex
    /\ (allow_empty = true \/ nonblank_match s = true) in
  (fits -> validate parse f (VStr s) w = (Ok (VStr s), w))
  /\ (~ fits -> exists message,
        validate parse f (VStr s) w
        = (Raise (InvalidFieldValueException message (_field_name b) (VStr s)), w)).
Proof.
  intros Hty Hch f size fits.
  assert (Hbase : BaseField_validate parse f (VStr s) = Ok (VStr s)).
  { unfold BaseField_validate, f. cbn [_instance_check].
    unfold BaseField_instance_check. cbn [base]. rewrite Hty. cbn.
    unfold choices. cbn [base]. rewrite Hch. by rewrite andb_false_r. }
  assert (Hrun : validate parse f (VStr s) w
                 = (StringField_validate parse f (VStr s), w)) by reflexivity.
  rewrite Hrun. clear Hrun.
  unfold StringField_validate. cbv delta [f]. cbv beta iota zeta. fold f.
  rewrite Hbase.
  cbn [rbind]. unfold len, re_match, _raise_check_failure, field_name.
  cbn [py_len base f]. fold size. unfold fits.
  destruct max_length as [mx|]; cbn [rbind from_option];
    [destruct (Z.ltb_spec mx size) as [Hmx|Hmx]; cbn [rbind];
       [split; [intros (Hm & _); lia|eauto]|]|];
    (destruct min_length as [mn|]; cbn [rbind from_option];
      [destruct (Z.ltb_spec size mn) as [Hmn|Hmn]; cbn [rbind];
         [split; [intros (_ & Hm & _); lia|eauto]|]|]);
    (destruct regex as [matches|]; cbn [rbind from_option];
      [destruct (matches s) eqn:Hre; cbn [rbind];
         [|split; [intros (_ & _ & Hm & _); discriminate|eauto]]|]);
    (destruct allow_empty; cbn [rbind];
      [split; [done|intros Hn; exfalso; apply Hn; repeat split; auto; lia]|]);
    (destruct (nonblank_match s); cbn [rbind];
      [split; [done|intros Hn; exfalso; apply Hn; repeat split; auto; lia]|]);
    (split; [intros (_ & _ & _ & [|]); discriminate|eauto]).
Qed.

(** X7.  A [DBNameField], however it was constructed, returns a string only
    as it is and only if the string has 1 to 100 characters; and a
    [DBNameField] constructed without pattern and choices returns every such
    string. *)
Theorem db_name_length regex allow_empty choices (kwargs : @Kwargs W) f (s : string) (w : W) :
  DBNameField_init regex allow_empty choices kwargs = Ok f ->
  let size := Z.of_nat (String.length s) in
  (forall r, fst (validate parse f (VStr s) w) = Ok r -> r = VStr s /\ 1 <= size <= 100)
  /\ (regex = None -> allow_empty = true -> choices = None -> 1 <= size <= 100 ->
      validate parse f (VStr s) w = (Ok (VStr s), w)).
Proof.
  unfold DBNameField_init, StringField_init_as.
  destruct (match regex with None => _ | _ => _ end) as [compiled|] eqn:Hre; [|discriminate].
  cbn [rbind]. destruct (BaseField_init choices [TStr] kwargs) as [b|] eqn:Hb; [|discriminate].
  cbn [rbind]. intros [= <-]. set (size := Z.of_nat (String.length s)). cbn [validate].
  unfold lift. cbn [fst].
  apply BaseField_init_attrs in Hb as (_ & Hch & _ & _ & Hty).
  split.
  - intros r. unfold StringField_validate.
    destruct (BaseField_validate _ _ _) as [v|] eqn:Hv; [|discriminate].
    apply BaseField_validate_same in Hv as ->; [|reflexivity].
    cbn [rbind]. unfold len. cbn [py_len rbind]. fold size.
    destruct (Z.ltb_spec 100 size); [discriminate|]. cbn [rbind].
    destruct (Z.ltb_spec size 1); [discriminate|]. cbn [rbind].
    destruct (match compiled with Some _ => _ | None => _ end); [|discriminate].
    cbn [rbind]. destruct (if allow_empty then _ else _); [|discriminate].
    cbn [rbind]. intros [= <-]. split; [done|lia].
  - intros -> -> -> Hsize. injection Hre as <-.
    unfold StringField_validate, BaseField_validate. cbn [_instance_check].
    unfold BaseField_instance_check. cbn [base]. rewrite Hty. cbn [isinstance existsb].
    unfold required, choices. cbn [base]. rewrite Hch.
    cbn. rewrite andb_false_r. cbn [rbind]. unfold len. cbn [py_len rbind]. fold size.
    destruct (Z.ltb_spec 100 size); [lia|]. cbn [rbind].
    destruct (Z.ltb_spec size 1); [lia|]. reflexivity.
Qed.

End Strings.

(** ** Integer fields and floats *)

(** [int(x)] has the value of [x] when [x.is_integer()]. *)
Lemma int_of_float_exact (x : spec_float) :
  is_integer x = true ->
  num_cmp (num_of_float x) (NFin (int_of_float x) 0) = Equal.
Proof.
  destruct x as [s|s| |s m e]; try discriminate.
  - reflexivity.
  - unfold is_integer, int_of_float, num_of_float, num_cmp.
    destruct (Z.leb_spec 0 e) as [He|He]; cbn [orb].
    + intros _. rewrite Z.min_r by lia. rewrite !Z.sub_0_r.
      replace (2 ^ 0) with 1 by reflexivity.
      assert (Heq : (if s then Z.neg m else Z.pos m) * 2 ^ e
                    = (if s then - (Z.pos m * 2 ^ e) else Z.pos m * 2 ^ e) * 1).
      { destruct s; lia. }
      rewrite Heq, Z.compare_refl. reflexivity.
    + intros Hdiv. apply Z.eqb_eq in Hdiv. rewrite Z.min_l by lia.
      rewrite Z.sub_diag. replace (2 ^ 0) with 1 by reflexivity.
      replace (0 - e) with (- e) by lia.
      assert (Hpow : 0 < 2 ^ (- e)) by (apply Z.pow_pos_nonneg; lia).
      assert (Hm : Z.pos m = Z.pos m / 2 ^ (- e) * 2 ^ (- e)).
      { pose proof (Z.div_mod (Z.pos m) (2 ^ (- e))) as Hdm. lia. }
      assert (Heq : (if s then Z.neg m else Z.pos m) * 1
                    = (if s then - (Z.pos m / 2 ^ (- e)) else Z.pos m / 2 ^ (- e))
                      * 2 ^ (- e)).
      { destruct s; lia. }
      rewrite Heq, Z.compare_refl. reflexivity.
Qed.

Section IntegerFields.
Context {W : Type}.
Variable parse : PyVal -> bool -> Result PyVal.

(** X8.  An [IntField] without bounds and choices narrows a float with an
    integral value to the integer of the same value (the two compare equal)
    and returns that integer; it refuses any other float as a type mismatch,
    with the float itself as the value of the error; and it returns a
    [bool] as it is, [bool] being a subclass of [int]. *)
Theorem int_field_narrows_integral_floats (b : @BaseAttrs W) (x : spec_float) (w : W) :
  _allowed_types b = [TInt; TLong] -> _choices b = None ->
  let f := Bounded IntField b (Literal VNone) (Literal VNone) in
  (is_integer x = true ->
     validate parse f (VFloat x) w = (Ok (VInt (int_of_float x)), w)
     /\ py_eq (VFloat x) (VInt (int_of_float x)) = true)
  /\ (is_integer x = false ->
        validate parse f (VFloat x) w
        = (Raise (InvalidFieldValueException (MsgValueMustBeOfType [TInt; TLong] TFloat)
                    (_field_name b) (VFloat x)), w))
  /\ (forall t, validate parse f (VBool t) w = (Ok (VBool t), w)).
Proof.
  intros Hty Hch f.
  assert (Hrun : forall value, validate parse f value w = BoundedField_validate parse f value w)
    by reflexivity.
  subst f.
  split; [|split].
  - intros Hint. split.
    + rewrite Hrun. unfold BoundedField_validate, BaseField_validate.
      cbn [_instance_check]. unfold IntField_instance_check. rewrite Hint.
      unfold BaseField_instance_check. cbn [base]. rewrite Hty.
      unfold required, choices. cbn [base]. rewrite Hch. cbn. by rewrite andb_false_r.
    + cbn [py_eq num_of]. by rewrite int_of_float_exact.
  - intros Hint. rewrite Hrun. unfold BoundedField_validate, BaseField_validate.
    cbn [_instance_check]. unfold IntField_instance_check. rewrite Hint.
    unfold BaseField_instance_check, _raise_check_failure, field_name.
    cbn [base]. rewrite Hty. reflexivity.
  - intros t. rewrite Hrun. unfold BoundedField_validate, BaseField_validate.
    cbn [_instance_check]. unfold IntField_instance_check.
    unfold BaseField_instance_check. cbn [base]. rewrite Hty.
    unfold required, choices. cbn [base]. rewrite Hch. cbn. by rewrite andb_false_r.
Qed.

End IntegerFields.

(** ** List fields without validators *)

Section ItemCap.
Context {W : Type}.
Variable parse : PyVal -> bool -> Result PyVal.

(** X9.  A list field without element validators, its container a list,
    turns a tuple or a set into a list of the same elements and leaves a
    list as it is; [max_items] caps the number of elements, but
    [max_items=0] caps nothing, like no [max_items]; over the cap
    [validate] raises the value-invalid error whose value is the number of
    elements, not the list. *)
Theorem list_field_item_cap c (b : @BaseAttrs W) (max_items : option Z)
    (value : PyVal) (xs : list PyVal) (w : W) :
  _allowed_types b = [TList; TTuple; TSet] -> _choices b = None ->
  value = VList xs \/ value = VTuple xs \/ value = VSet xs ->
  let f := Multi c b [] max_items ContainerList in
  let size := Z.of_nat (length xs) in
  (from_option (fun n => n = 0 \/ size <= n) True max_items ->
     validate parse f value w = (Ok (VList xs), w))
  /\ (forall n, max_items = Some n -> n <> 0 -> n < size ->
        validate parse f value w
        = (Raise (InvalidFieldValueException (MsgTooManyItems n) (_field_name b)
                    (VInt size)), w)).
Proof.
  intros Hty Hch Hvalue f size.
  assert (Hrun : validate parse f value w
                 = MultiEmbeddedListField_validate parse (validate parse) f [] max_items
                     ContainerList value w) by reflexivity.
  rewrite Hrun. clear Hrun. subst f. unfold MultiEmbeddedListField_validate.
  cbn [_instance_check]. unfold BaseField_instance_check. cbn [base]. rewrite Hty.
  assert (Hinst : isinstance value [TList; TTuple; TSet] = true)
    by (destruct Hvalue as [->|[->| ->]]; reflexivity).
  rewrite Hinst, bind_lift_Ok.
  assert (Hconv : (if negb (is_container ContainerList value)
                   then lift (container_of ContainerList value)
                   else ret value) = lift (W:=W) (Ok (VList xs)))
    by (destruct Hvalue as [->|[->| ->]]; reflexivity).
  rewrite Hconv, bind_lift_Ok.
  assert (Hbase : BaseField_validate parse (Multi c b [] max_items ContainerList) (VList xs)
                  = Ok (VList xs)).
  { unfold BaseField_validate. cbn [_instance_check]. unfold BaseField_instance_check.
    cbn [base]. rewrite Hty. cbn [isinstance existsb issubclass type_of PyType_eqb orb].
    unfold choices. cbn [base]. rewrite Hch. by rewrite andb_false_r. }
  unfold len. cbn [py_len rbind]. fold size.
  split.
  - intros Hcap. destruct max_items as [n|]; cbn [from_option] in Hcap.
    + destruct (Z.eqb_spec n 0) as [->|Hn]; cbn [negb].
      * rewrite bind_lift_Ok. by rewrite Hbase.
      * destruct (Z.ltb_spec n size); [lia|]. rewrite bind_lift_Ok. by rewrite Hbase.
    + rewrite bind_lift_Ok. by rewrite Hbase.
  - intros n -> Hn Hlt. destruct (Z.eqb_spec n 0); [done|]. cbn [negb].
    destruct (Z.ltb_spec n size); [|lia]. reflexivity.
Qed.

End ItemCap.

(** ** Dict fields *)

Section DictFields.
Context {W : Type}.
Variable parse : PyVal -> bool -> Result PyVal.
Implicit Types (key_validator value_validator validator : option (@Field W + PyVal)).

Lemma normalizes_run validator val r w :
  normalizes parse validator val r ->
  exists w',
    match validator with
    | Some v => call_validate (validate parse) v val
    | None => ret val
    end w = (Ok r, w').
Proof.
  destruct validator as [[g|v]|]; cbn [normalizes call_validate].
  - intros H. specialize (H w). destruct (validate parse g val w) as [res w'].
    cbn in H. subst. eauto.
  - done.
  - intros ->. by exists w.
Qed.

Lemma fails_with_run validator val e w :
  fails_with parse validator val e ->
  fst (match validator with
       | Some v => call_validate (validate parse) v val
       | None => ret val
       end w) = Raise e.
Proof.
  destruct validator as [[g|v]|]; cbn [fails_with call_validate].
  - intros H. apply H.
  - by intros ->.
  - done.
Qed.

Lemma bind_run {A B} (m : M A) (k : A -> M B) (w w' : W) (a : A) :
  m w = (Ok a, w') -> bind m k w = k a w'.
Proof. unfold bind. by intros ->. Qed.

Lemma bind_run_Raise {A B} (m : M A) (k : A -> M B) (w : W) e :
  fst (m w) = Raise e -> fst (bind m k w) = Raise e.
Proof. unfold bind. destruct (m w) as [[a|e'] w']; cbn; intros H; congruence. Qed.

(** The loop over the items that validate, up to the first that does not. *)
Lemma validate_items_prefix key_validator value_validator passed passed' rest acc d w :
  Forall2 (item_normalizes parse key_validator value_validator) passed passed' ->
  dict_setitems acc passed' = Some d ->
  exists w',
    validate_items (validate parse) key_validator value_validator (passed ++ rest) acc w
    = validate_items (validate parse) key_validator value_validator rest d w'.
Proof.
  intros Hall. revert acc w.
  induction Hall as [|[k v] [k' v'] passed passed' [Hk Hv] _ IH]; intros acc w Hd.
  - injection Hd as <-. by exists w.
  - cbn [dict_setitems] in Hd.
    destruct (dict_setitem acc k' v') as [acc'|] eqn:Hset; [|discriminate].
    cbn [fst snd] in Hk, Hv.
    destruct (normalizes_run _ _ _ w Hk) as (w1 & Hk1).
    destruct (normalizes_run _ _ _ w1 Hv) as (w2 & Hv1).
    destruct (IH acc' w2 Hd) as (w' & IH').
    exists w'. rewrite <- IH'.
    change ((((k, v) :: passed) ++ rest)) with ((k, v) :: (passed ++ rest)).
    cbn [validate_items].
    rewrite (bind_run _ _ _ _ _ Hk1), (bind_run _ _ _ _ _ Hv1).
    rewrite Hset. by rewrite bind_lift_Ok.
Qed.

Lemma validate_items_unhashable key_validator value_validator items items' acc w :
  Forall2 (item_normalizes parse key_validator value_validator) items items' ->
  dict_setitems acc items' = None ->
  fst (validate_items (validate parse) key_validator value_validator items acc w)
  = Raise TypeError.
Proof.
  intros Hall. revert acc w.
  induction Hall as [|[k v] [k' v'] items items' [Hk Hv] _ IH]; intros acc w Hd.
  - discriminate.
  - cbn [dict_setitems] in Hd. cbn [fst snd] in Hk, Hv.
    destruct (normalizes_run _ _ _ w Hk) as (w1 & Hk1).
    destruct (normalizes_run _ _ _ w1 Hv) as (w2 & Hv1).
    cbn [validate_items].
    rewrite (bind_run _ _ _ _ _ Hk1), (bind_run _ _ _ _ _ Hv1).
    destruct (dict_setitem acc k' v') as [acc'|] eqn:Hset.
    + rewrite bind_lift_Ok. by apply IH.
    + reflexivity.
Qed.

Lemma DictField_base_ok (b : @BaseAttrs W) key_validator value_validator d :
  _allowed_types b = [TDict] -> _choices b = None ->
  BaseField_validate parse (Dict b key_validator value_validator) (VDict d) = Ok (VDict d).
Proof.
  intros Hty Hch. unfold BaseField_validate. cbn [_instance_check].
  unfold BaseField_instance_check. cbn [base]. rewrite Hty.
  cbn [isinstance existsb issubclass type_of PyType_eqb orb].
  unfold choices. cbn [base]. rewrite Hch. by rewrite andb_false_r.
Qed.

(** With a validator given, the loop runs. *)
Lemma DictField_validate_loop (b : @BaseAttrs W) key_validator value_validator items w :
  _allowed_types b = [TDict] ->
  key_validator <> None \/ value_validator <> None ->
  validate parse (Dict b key_validator value_validator) (VDict items) w
  = bind (bind (validate_items (validate parse) key_validator value_validator items [])
            (fun d => ret (VDict d)))
      (fun value_dict =>
         lift (BaseField_validate parse (Dict b key_validator value_validator) value_dict))
      w.
Proof.
  intros Hty Hsome.
  assert (Hrun : validate parse (Dict b key_validator value_validator) (VDict items) w
                 = DictField_validate parse (validate parse)
                     (Dict b key_validator value_validator) key_validator value_validator
                     (VDict items) w) by reflexivity.
  rewrite Hrun. clear Hrun. unfold DictField_validate.
  cbn [_instance_check]. unfold BaseField_instance_check. cbn [base]. rewrite Hty.
  cbn [isinstance existsb issubclass type_of PyType_eqb orb]. rewrite bind_lift_Ok.
  destruct key_validator, value_validator; try reflexivity. by destruct Hsome.
Qed.

(** X10.  A [DictField] without validators returns the dict it was given,
    the very same items, and refuses anything that is no dict as a type
    mismatch. *)
Theorem dict_field_without_validators (b : @BaseAttrs W) (value : PyVal) (w : W) :
  _allowed_types b = [TDict] -> _choices b = None ->
  validate parse (Dict b None None) value w
  = (match value with
     | VDict _ => Ok value
     | _ => Raise (InvalidFieldValueException
                     (MsgValueMustBeOfType [TDict] (type_of value)) (_field_name b) value)
     end, w).
Proof.
  intros Hty Hch. cbn [validate]. unfold DictField_validate.
  cbn [_instance_check]. unfold BaseField_instance_check, _raise_check_failure, field_name.
  cbn [base]. rewrite Hty.
  destruct value; try reflexivity.
  cbn [isinstance existsb issubclass type_of PyType_eqb orb]. rewrite bind_lift_Ok.
  unfold bind, ret, lift. by rewrite DictField_base_ok.
Qed.

(** X11.  A [DictField] with a key or a value validator, given a dict each
    of whose keys and values its validators accept, returns a new dict: the
    normalized values stored under the normalized keys, one item after the
    other, so that keys which normalize to equal keys share one entry that
    holds the last value; a normalized key that cannot be hashed makes it
    raise [TypeError]. *)
Theorem dict_field_normalizes_items (b : @BaseAttrs W) key_validator value_validator
    (items items' : list (PyVal * PyVal)) (w : W) :
  _allowed_types b = [TDict] -> _choices b = None ->
  key_validator <> None \/ value_validator <> None ->
  Forall2 (item_normalizes parse key_validator value_validator) items items' ->
  fst (validate parse (Dict b key_validator value_validator) (VDict items) w)
  = match dict_setitems [] items' with
    | Some d => Ok (VDict d)
    | None => Raise TypeError
    end.
Proof.
  intros Hty Hch Hsome Hall. rewrite DictField_validate_loop by done.
  destruct (dict_setitems [] items') as [d|] eqn:Hd.
  - destruct (validate_items_prefix key_validator value_validator items items' [] [] d w
                Hall Hd) as (w' & Hpre).
    rewrite app_nil_r in Hpre. cbn [validate_items] in Hpre.
    unfold bind at 1. unfold bind at 1. rewrite Hpre. unfold ret, lift. cbn.
    by rewrite DictField_base_ok.
  - pose proof (validate_items_unhashable key_validator value_validator items items' [] w
                  Hall Hd) as Hun.
    apply bind_run_Raise. by apply bind_run_Raise.
Qed.

(** X12.  A [DictField] lets the error of its validators through as it is:
    when the items before validate and are stored, and the key validator
    raises [e] on the next key, or accepts that key and the value validator
    raises [e] on its value, [validate] raises that same [e], unlike a list
    field, which answers a rejected element with an error of its own. *)
Theorem dict_field_error_passes_through (b : @BaseAttrs W) key_validator value_validator
    (passed passed' rest : list (PyVal * PyVal)) (key val key' : PyVal) (e : PyExn)
    (d : list (PyVal * PyVal)) (w : W) :
  _allowed_types b = [TDict] ->
  Forall2 (item_normalizes parse key_validator value_validator) passed passed' ->
  dict_setitems [] passed' = Some d ->
  fails_with parse key_validator key e
  \/ (normalizes parse key_validator key key' /\ fails_with parse value_validator val e) ->
  fst (validate parse (Dict b key_validator value_validator)
         (VDict (passed ++ (key, val) :: rest)) w) = Raise e.
Proof.
  intros Hty Hall Hd Hfail.
  assert (Hsome : key_validator <> None \/ value_validator <> None).
  { destruct Hfail as [Hf|[_ Hf]].
    - left. intros ->. exact Hf.
    - right. intros ->. exact Hf. }
  rewrite DictField_validate_loop by done.
  apply bind_run_Raise, bind_run_Raise.
  destruct (validate_items_prefix key_validator value_validator passed passed'
              ((key, val) :: rest) [] d w Hall Hd) as (w' & ->).
  cbn [validate_items].
  destruct Hfail as [Hk|[Hk Hv]].
  - apply bind_run_Raise. by apply fails_with_run.
  - destruct (normalizes_run _ _ _ w' Hk) as (w1 & Hk1).
    rewrite (bind_run _ _ _ _ _ Hk1).
    apply bind_run_Raise. by apply fails_with_run.
Qed.

End DictFields.

(** ** Constructors *)

Section Constructors.
Context {W : Type}.
Variable parse : PyVal -> bool -> Result PyVal.
Variable utcnow : @Producer W.

(** X13.  The default of a field constructed without a [default] keyword:
    [False] for a [BooleanField]; for a [DateTimeField] what the clock
    gives at each access, the access being what makes the clock run; for an
    [IntField], [FloatField], [StringField], [ListField], [DictField] or
    [ObjectField] it is [None], and reading it raises the value-invalid
    error of a missing required value when the field is required. *)
Theorem default_of_constructed (kwargs : @Kwargs W) (f : @Field W) (w : W) :
  kw_default kwargs = None ->
  ((exists choices, BooleanField_init choices kwargs = Ok f) ->
     default f w = (Ok (VBool false), w))
  /\ ((exists lo hi choices, DateTimeField_init utcnow lo hi choices kwargs = Ok f) ->
      fst (utcnow w) <> VNone ->
      default f w = (Ok (fst (utcnow w)), snd (utcnow w)))
  /\ ((exists lo hi choices, IntField_init lo hi choices kwargs = Ok f)
      \/ (exists lo hi choices, FloatField_init lo hi choices kwargs = Ok f)
      \/ (exists regex min_length max_length allow_empty choices,
            StringField_init regex min_length max_length allow_empty choices kwargs = Ok f)
      \/ (exists element_validator choices max_items,
            ListField_init element_validator choices max_items kwargs = Ok f)
      \/ (exists key_validator value_validator choices,
            DictField_init key_validator value_validator choices kwargs = Ok f)
      \/ (exists choices, ObjectField_init choices kwargs = Ok f) ->
      default f w
      = (if kw_get (kw_required kwargs) false
         then Raise (InvalidFieldValueException MsgFieldRequiredButNone
                       (kw_field_name kwargs) VNone)
         else Ok VNone, w)).
Proof.
  intros Hdef.
  assert (Hnone : forall b : @BaseAttrs W,
            _default b = Literal VNone ->
            _required b = kw_get (kw_required kwargs) false ->
            _field_name b = kw_field_name kwargs ->
            forall g, base g = b ->
            default g w
            = (if kw_get (kw_required kwargs) false
               then Raise (InvalidFieldValueException MsgFieldRequiredButNone
                             (kw_field_name kwargs) VNone)
               else Ok VNone, w)).
  { intros b Hd Hr Hn g <-. unfold default, required, field_name.
    rewrite Hd, Hr, Hn. cbn.
    destruct (kw_get (kw_required kwargs) false); reflexivity. }
  split; [|split].
  - intros (choices & H). revert H. unfold BooleanField_init.
    destruct (BaseField_init _ _ _) as [b|] eqn:Hb; [|discriminate].
    apply BaseField_init_attrs in Hb as (Hd & _). cbn in Hd. rewrite Hdef in Hd.
    intros [= <-]. unfold default. cbn [base]. rewrite Hd. reflexivity.
  - intros (lo & hi & choices & H). revert H.
    unfold DateTimeField_init, BoundedField_init.
    destruct (BaseField_init _ _ _) as [b|] eqn:Hb; [|discriminate].
    apply BaseField_init_attrs in Hb as (Hd & _). cbn in Hd. rewrite Hdef in Hd.
    intros [= <-] Hnow. unfold default. cbn [base]. rewrite Hd.
    unfold bind, resolve, ret, raise. cbv beta. destruct (utcnow w) as [v w'] eqn:Hu.
    cbn in Hnow |- *. rewrite Hu. destruct v; first [reflexivity | by destruct Hnow].
  - intros [(lo & hi & choices & H)|[(lo & hi & choices & H)|[(regex & mn & mx & ae & choices & H)
             |[(ev & choices & mi & H)|[(kv & vv & choices & H)|(choices & H)]]]]];
      revert H.
    + unfold IntField_init, BoundedField_init.
      destruct (BaseField_init _ _ _) as [b|] eqn:Hb; [|discriminate].
      apply BaseField_init_attrs in Hb as (Hd & _ & Hr & Hn & _).
      rewrite Hdef in Hd. intros [= <-]. by apply (Hnone b).
    + unfold FloatField_init, BoundedField_init.
      destruct (BaseField_init _ _ _) as [b|] eqn:Hb; [|discriminate].
      apply BaseField_init_attrs in Hb as (Hd & _ & Hr & Hn & _).
      rewrite Hdef in Hd. intros [= <-]. by apply (Hnone b).
    + unfold StringField_init, StringField_init_as.
      destruct (match regex with None => _ | _ => _ end) as [compiled|]; [|discriminate].
      cbn [rbind]. destruct (BaseField_init _ _ _) as [b|] eqn:Hb; [|discriminate].
      apply BaseField_init_attrs in Hb as (Hd & _ & Hr & Hn & _).
      rewrite Hdef in Hd. intros [= <-]. by apply (Hnone b).
    + unfold ListField_init, MultiEmbeddedListField_init_as.
      destruct (MultiEmbeddedListField_validate_validator _) as [vs|]; [|discriminate].
      cbn [rbind]. destruct (BaseField_init _ _ _) as [b|] eqn:Hb; [|discriminate].
      apply BaseField_init_attrs in Hb as (Hd & _ & Hr & Hn & _).
      cbn in Hd, Hr, Hn. rewrite Hdef in Hd. intros [= <-]. by apply (Hnone b).
    + unfold DictField_init.
      destruct (match kv with OVal VNone => _ | _ => _ end) as [k|]; [|discriminate].
      cbn [rbind].
      destruct (match vv with OVal VNone => _ | _ => _ end) as [v|]; [|discriminate].
      cbn [rbind]. destruct (BaseField_init _ _ _) as [b|] eqn:Hb; [|discriminate].
      apply BaseField_init_attrs in Hb as (Hd & _ & Hr & Hn & _).
      rewrite Hdef in Hd. intros [= <-]. by apply (Hnone b).
    + unfold ObjectField_init.
      destruct (BaseField_init _ _ _) as [b|] eqn:Hb; [|discriminate].
      apply BaseField_init_attrs in Hb as (Hd & _ & Hr & Hn & _).
      rewrite Hdef in Hd. intros [= <-]. by apply (Hnone b).
Qed.

(** X14.  The [ListField] constructor and its [element_validator]: an
    argument that is false ([None], [0], an empty string or list) gives a
    list field without validators; a field gives a list field with that one
    candidate; anything else that is true is refused with the
    definition-invalid error.  The argument never makes it raise
    [TypeError], as a missing list makes [MultiEmbeddedListField]. *)
Theorem list_field_constructor (element_validator : @PyObj W) choices max_items
    (kwargs : @Kwargs W) :
  kw_ignoretz kwargs = None ->
  let container_type := kw_get (kw_container_type kwargs) ContainerList in
  (obj_truthy element_validator = false ->
     exists b, ListField_init element_validator choices max_items kwargs
               = Ok (Multi ListField b [] max_items container_type))
  /\ (forall g, element_validator = OField g ->
        exists b, ListField_init element_validator choices max_items kwargs
                  = Ok (Multi ListField b [inl g] max_items container_type))
  /\ (obj_truthy element_validator = true -> (forall g, element_validator <> OField g) ->
        ListField_init element_validator choices max_items kwargs
        = Raise (InvalidFieldDefinition MsgElementValidatorNotBaseField None)).
Proof.
  intros Htz container_type.
  assert (Hbase : exists b, BaseField_init (W:=W) None [TList; TTuple; TSet]
                              (pop_container_type kwargs) = Ok b).
  { unfold BaseField_init. cbn [pop_container_type kw_container_type kw_ignoretz].
    rewrite Htz. eauto. }
  destruct Hbase as (b & Hb).
  unfold ListField_init, MultiEmbeddedListField_init_as. split; [|split].
  - intros ->. cbn [MultiEmbeddedListField_validate_validator validate_each rbind].
    rewrite Hb. cbn [rbind]. by exists b.
  - intros g ->. cbn [obj_truthy MultiEmbeddedListField_validate_validator validate_each
                      BaseField_validate_validator rbind].
    rewrite Hb. cbn [rbind]. by exists b.
  - intros Ht Hnot. rewrite Ht.
    cbn [MultiEmbeddedListField_validate_validator validate_each].
    destruct element_validator as [v|g|[|item items]]; cbn [BaseField_validate_validator].
    + cbn [obj_truthy] in Ht. by rewrite Ht.
    + by destruct (Hnot g).
    + discriminate.
    + reflexivity.
Qed.

(** X15.  A [DictField] constructed with a key validator that is false but
    not [None] (such as [0] or an empty string) is constructed without
    complaint, and then fails on every dict that has an item: [validate]
    raises [AttributeError], the validator having no [validate]. *)
Theorem dict_field_false_validator (validator : PyVal) (other : @PyObj W) choices
    (kwargs : @Kwargs W) f (key val : PyVal) (rest : list (PyVal * PyVal)) (w : W) :
  truthy validator = false -> validator <> VNone ->
  DictField_init (OVal validator) other choices kwargs = Ok f ->
  fst (validate parse f (VDict ((key, val) :: rest)) w) = Raise AttributeError.
Proof.
  intros Hfalse Hnone. unfold DictField_init.
  assert (Hkey : match OVal (W:=W) validator with
                 | OVal VNone => Ok None
                 | _ => rbind (BaseField_validate_validator (OVal validator))
                          (fun v => Ok (Some v))
                 end = (Ok (Some (inr validator)) : Result (option (@Field W + PyVal)))).
  { cbn [BaseField_validate_validator]. rewrite Hfalse. by destruct validator. }
  rewrite Hkey. cbn [rbind].
  destruct (match other with OVal VNone => _ | _ => _ end) as [vv|]; [|discriminate].
  cbn [rbind]. destruct (BaseField_init _ _ _) as [b|] eqn:Hb; [|discriminate].
  apply BaseField_init_attrs in Hb as (_ & _ & _ & _ & Hty).
  cbn [rbind]. intros [= <-].
  assert (Hrun : validate parse (Dict b (Some (inr validator)) vv)
                   (VDict ((key, val) :: rest)) w
                 = DictField_validate parse (validate parse)
                     (Dict b (Some (inr validator)) vv) (Some (inr validator)) vv
                     (VDict ((key, val) :: rest)) w) by reflexivity.
  rewrite Hrun. unfold DictField_validate. cbn [_instance_check].
  unfold BaseField_instance_check. cbn [base]. rewrite Hty.
  cbn [isinstance existsb issubclass type_of PyType_eqb orb]. rewrite bind_lift_Ok.
  reflexivity.
Qed.

End Constructors.

(* ===================================================================== *)
(** * Further properties of schema composition *)
(* ===================================================================== *)

Section Hierarchies.
Context {W : Type}.
Implicit Types (st : @State W) (h : gmap loc (@Field W)) (d : gmap string Obj)
  (items : list (string * Obj)) (stmts : list Stmt).

Lemma derive_all_snoc bodies d st :
  derive_all (bodies ++ [d]) st = derive d (derive_all bodies st).
Proof. unfold derive_all. by rewrite foldl_app. Qed.

(** X16.  Inflexibility is inherited down a line of classes of any length:
    the [_schema_flexible] of the last class is true exactly when the flag
    of the class the line starts from is true and so is the flag every class
    body of the line sets (a body that sets none counts as [True]). *)
Theorem inflexibility_is_inherited (bodies : list (gmap string Obj)) st flag :
  _schema_flexible st = Some flag ->
  exists final,
    _schema_flexible (derive_all bodies st) = Some final
    /\ obj_truth final
       = obj_truth flag && forallb (fun d => obj_truth (own_flag d)) bodies.
Proof.
  intros Hst. induction bodies as [|d bodies IH] using rev_ind.
  - exists flag. split; [done|]. cbn. by rewrite andb_true_r.
  - destruct IH as (mid & Hmid & Htruth).
    rewrite derive_all_snoc. unfold derive.
    destruct (init_attrs d (Some (as_parent (derive_all bodies st)))
                (new_class (heap (derive_all bodies st)))) as (_ & Hf & _).
    cbn [flexible_of_parent as_parent parent_schema_flexible] in Hf.
    rewrite Hmid in Hf. eexists. split; [exact Hf|].
    rewrite obj_truth_and, Htruth, forallb_app. cbn [forallb].
    unfold own_flag. by rewrite andb_true_r, andb_assoc.
Qed.

(** X17.  Down a line of classes of any length the nearest declaration wins:
    under each name the schema of the last class holds the field of the last
    class body of the line that declares one, and, when none does, what the
    schema of the class the line starts from holds. *)
Theorem nearest_declaration_wins (bodies : list (gmap string Obj)) st root :
  _schema st = Some root ->
  exists schema,
    _schema (derive_all bodies st) = Some schema
    /\ forall k, schema !! k = nearest k bodies (root !! k).
Proof.
  intros Hst. induction bodies as [|d bodies IH] using rev_ind.
  - exists root. by split.
  - destruct IH as (mid & Hmid & Hlook).
    rewrite derive_all_snoc. unfold derive.
    destruct (init_attrs d (Some (as_parent (derive_all bodies st)))
                (new_class (heap (derive_all bodies st)))) as (Hs & _ & _).
    cbn [schema_of_parent as_parent parent_schema] in Hs.
    rewrite Hmid in Hs. cbn [from_option id] in Hs.
    eexists. split; [exact Hs|].
    intros k. rewrite update_lookup. unfold nearest. rewrite foldl_app. cbn [foldl].
    fold (nearest k bodies (root !! k)). rewrite <- Hlook.
    by destruct (own_fields d !! k).
Qed.

Lemma alter_named h v (k : string) :
  (forall f, h !! v = Some f -> exists name, field_name f = Some name) ->
  alter (set_field_name (Some k)) v h = h.
Proof.
  intros Hv. apply map_eq. intros l. destruct (decide (v = l)) as [->|Hne].
  - rewrite lookup_alter_eq. destruct (h !! l) as [f|] eqn:Hl; [|done].
    destruct (Hv f eq_refl) as (name & Hn). cbn.
    by rewrite (set_field_name_named f (Some k) name).
  - by rewrite lookup_alter_ne.
Qed.

(** Scanning items whose fields have their names leaves the heap alone. *)
Lemma run_scan_settled items st :
  settled (heap st) items -> heap (run (flat_map scan_item items) st) = heap st.
Proof.
  revert st. induction items as [|[k [v|pv]] items IH]; intros st Hs.
  - done.
  - change (flat_map scan_item ((k, OFieldRef v) :: items))
      with ([SetFieldName v k; SchemaSetItem k v] ++ flat_map scan_item items).
    rewrite run_app.
    assert (Hh : heap (run [SetFieldName v k; SchemaSetItem k v] st) = heap st).
    { cbn. apply alter_named. intros f Hf. apply (Hs k v); [left|done]. }
    rewrite IH; [done|]. rewrite Hh.
    intros k' v' Hin. apply (Hs k' v'). by right.
  - change (flat_map scan_item ((k, OPlain pv) :: items))
      with (flat_map scan_item items).
    apply IH. intros k' v' Hin. apply (Hs k' v'). by right.
Qed.

Lemma run_heap_tail parent (schema_flexible : Obj) st :
  heap (run ([AssignSchemaFlexible schema_flexible; AssignSchemaLock]
             ++ match parent with
                | Some p => [UpdateSchema p; UpdateSchemaFlexible p]
                | None => []
                end) st) = heap st.
Proof.
  destruct parent as [[[ps|] [pf|]]|]; cbn;
    destruct (_schema st), (_schema_flexible st); done.
Qed.

(** The heap a run leaves depends on the heap it starts from only. *)
Lemma run_heap_congruence stmts st1 st2 :
  heap st1 = heap st2 -> heap (run stmts st1) = heap (run stmts st2).
Proof.
  revert st1 st2. induction stmts as [|s stmts IH]; intros st1 st2 Hh; [done|].
  rewrite !run_cons. apply IH.
  destruct s; cbn [exec heap]; try done.
  - by rewrite Hh.
  - by destruct (parent_schema p), (_schema st1), (_schema st2).
  - by destruct (parent_schema_flexible p), (_schema_flexible st1), (_schema_flexible st2).
Qed.

(** No statement allocates a field object. *)
Lemma run_allocates_nothing stmts st v :
  heap st !! v = None -> heap (run stmts st) !! v = None.
Proof.
  revert st. induction stmts as [|s stmts IH]; intros st H0; [done|].
  rewrite run_cons. apply IH. destruct s; cbn [exec heap]; try done.
  - destruct (decide (v0 = v)) as [->|Hne].
    + by rewrite lookup_alter_eq, H0.
    + by rewrite lookup_alter_ne.
  - by destruct (parent_schema p), (_schema st).
  - by destruct (parent_schema_flexible p), (_schema_flexible st).
Qed.

Lemma init_heap d (parent : option Parent) st :
  heap (DocumentMetaClass_init d parent st)
  = heap (run (flat_map scan_item (map_to_list d)) st).
Proof.
  unfold DocumentMetaClass_init, statements, statements_in. cbv zeta.
  rewrite run_app, run_app, run_heap_tail.
  change (run [AssignSchema] st) with (exec AssignSchema st).
  by apply run_heap_congruence.
Qed.

Lemma scan_settles items st :
  settled (heap (run (flat_map scan_item items) st)) items.
Proof.
  intros k v Hin f Hf.
  assert (Hsome : is_Some (heap st !! v)).
  { destruct (heap st !! v) as [g|] eqn:Hv; [by eexists|].
    by rewrite run_allocates_nothing in Hf. }
  destruct (run_scan_named items st k v Hin Hsome) as (f' & name & Hf' & Hn).
  rewrite Hf in Hf'. injection Hf' as <-. by exists name.
Qed.

(** X18.  Composition is idempotent: running [DocumentMetaClass.__init__]
    once more on the class it composed, with the same body and parent,
    changes nothing, neither the schema, the flag or the lock, nor the name
    of any field object. *)
Theorem composition_is_idempotent d (parent : option Parent) st :
  DocumentMetaClass_init d parent (DocumentMetaClass_init d parent st)
  = DocumentMetaClass_init d parent st.
Proof.
  set (st1 := DocumentMetaClass_init d parent st).
  destruct (init_attrs d parent st) as (Hs & Hf & Hl).
  destruct (init_attrs d parent st1) as (Hs' & Hf' & Hl').
  assert (Hh : heap (DocumentMetaClass_init d parent st1) = heap st1).
  { rewrite init_heap. apply run_scan_settled.
    unfold st1. rewrite init_heap. apply scan_settles. }
  fold st1 in Hs, Hf, Hl.
  destruct (DocumentMetaClass_init d parent st1) as [h2 s2 f2 l2].
  destruct st1 as [h1 s1 f1 l1]. cbn in *. congruence.
Qed.

End Hierarchies.

(** ** The further properties on the samples *)

Section SampleFurther.
Import Samples.

Lemma validate_returns_accepted_value_witness :
  fst (validate sample_parse int_field four 0) = Ok (VInt 4)
  /\ isinstance (VInt 4) [TInt; TLong] = true
  /\ fst (validate sample_parse one_or_two_field (VInt 2) 0) = Ok (VInt 2)
  /\ py_in (VInt 2) [VInt 1; VInt 2] = true.
Proof.
  split; [reflexivity|]. split.
  - exact (proj1 (validate_returns_accepted_value sample_parse int_field four 0 (VInt 4)
                    eq_refl)).
  - split; [reflexivity|].
    destruct (validate_returns_accepted_value sample_parse one_or_two_field (VInt 2) 0
                (VInt 2) eq_refl) as (_ & _ & Hchoices).
    exact (Hchoices [VInt 1; VInt 2] eq_refl eq_refl).
Defined.

Lemma type_mismatch_is_rejected_witness :
  validate sample_parse string_field (VInt 3) 0
  = (Raise (InvalidFieldValueException (MsgValueMustBeOfType [TStr] TInt) None (VInt 3)), 0).
Proof.
  exact (type_mismatch_is_rejected sample_parse string_field (VInt 3) 0 eq_refl eq_refl).
Defined.

Lemma string_field_length_and_pattern_witness :
  validate sample_parse short_string_field (VStr "abc") 0 = (Ok (VStr "abc"), 0)
  /\ exists message,
       validate sample_parse short_string_field (VStr "abcdef") 0
       = (Raise (InvalidFieldValueException message None (VStr "abcdef")), 0).
Proof.
  split.
  - apply (string_field_length_and_pattern sample_parse StringField string_attrs
             None None (Some 5) true "abc" 0 eq_refl eq_refl).
    cbn. repeat split; auto. lia.
  - apply (string_field_length_and_pattern sample_parse StringField string_attrs
             None None (Some 5) true "abcdef" 0 eq_refl eq_refl).
    cbn. intros (Hlen & _). lia.
Defined.

Lemma db_name_length_witness :
  validate sample_parse db_name_field (VStr "users") 0 = (Ok (VStr "users"), 0).
Proof.
  apply (db_name_length sample_parse None true None no_kwargs db_name_field "users" 0
           eq_refl); try reflexivity.
  cbn. lia.
Defined.

Lemma int_field_narrows_integral_floats_witness :
  validate sample_parse int_field four 0 = (Ok (VInt 4), 0)
  /\ validate sample_parse int_field two_and_a_half 0
     = (Raise (InvalidFieldValueException (MsgValueMustBeOfType [TInt; TLong] TFloat)
                 None two_and_a_half), 0).
Proof.
  split.
  - apply (int_field_narrows_integral_floats sample_parse int_attrs four_float 0
             eq_refl eq_refl). reflexivity.
  - apply (int_field_narrows_integral_floats sample_parse int_attrs two_and_a_half_float 0
             eq_refl eq_refl). reflexivity.
Defined.

Lemma list_field_item_cap_witness :
  validate sample_parse pair_list_field (VTuple [VInt 1; VInt 2]) 0
  = (Ok (VList [VInt 1; VInt 2]), 0)
  /\ validate sample_parse pair_list_field (VList [VInt 1; VInt 2; VInt 3]) 0
     = (Raise (InvalidFieldValueException (MsgTooManyItems 2) None (VInt 3)), 0).
Proof.
  split.
  - apply (list_field_item_cap sample_parse ListField list_attrs (Some 2)
             (VTuple [VInt 1; VInt 2]) [VInt 1; VInt 2] 0 eq_refl eq_refl
             (or_intror (or_introl eq_refl))).
    cbn. lia.
  - apply (proj2 (list_field_item_cap sample_parse ListField list_attrs (Some 2)
                      (VList [VInt 1; VInt 2; VInt 3]) [VInt 1; VInt 2; VInt 3] 0
                      eq_refl eq_refl (or_introl eq_refl)) 2 eq_refl); cbn; lia.
Defined.

Lemma dict_field_without_validators_witness :
  validate sample_parse dict_field (VDict [(VStr "a", VInt 1)]) 0
  = (Ok (VDict [(VStr "a", VInt 1)]), 0).
Proof.
  exact (dict_field_without_validators sample_parse dict_attrs
           (VDict [(VStr "a", VInt 1)]) 0 eq_refl eq_refl).
Defined.

Lemma int_field_accepts_four : accepts sample_parse int_field four (VInt 4).
Proof. intros w. reflexivity. Qed.

Lemma dict_field_normalizes_items_witness :
  fst (validate sample_parse int_to_string_dict_field
         (VDict [(four, VStr "x"); (VInt 4, VStr "y"); (VInt 7, VStr "z")]) 0)
  = Ok (VDict [(VInt 4, VStr "y"); (VInt 7, VStr "z")]).
Proof.
  apply (dict_field_normalizes_items sample_parse dict_attrs
           (Some (inl int_field)) (Some (inl string_field))
           [(four, VStr "x"); (VInt 4, VStr "y"); (VInt 7, VStr "z")]
           [(VInt 4, VStr "x"); (VInt 4, VStr "y"); (VInt 7, VStr "z")] 0
           eq_refl eq_refl).
  - left. discriminate.
  - repeat constructor;
      first [apply int_field_accepts_four | apply int_field_accepts_int
            | apply string_field_accepts_str].
Defined.

Lemma dict_field_error_passes_through_witness :
  fst (validate sample_parse int_to_string_dict_field
         (VDict [(VInt 1, VStr "x"); (VStr "a", VStr "y")]) 0)
  = Raise (InvalidFieldValueException (MsgValueMustBeOfType [TInt; TLong] TStr)
             None (VStr "a")).
Proof.
  apply (dict_field_error_passes_through sample_parse dict_attrs
           (Some (inl int_field)) (Some (inl string_field))
           [(VInt 1, VStr "x")] [(VInt 1, VStr "x")] [] (VStr "a") (VStr "y") VNone
           _ [(VInt 1, VStr "x")] 0 eq_refl).
  - repeat constructor;
      first [apply int_field_accepts_int | apply string_field_accepts_str].
  - reflexivity.
  - left. intros w. reflexivity.
Defined.

Lemma default_of_constructed_witness :
  default boolean_field 0 = (Ok (VBool false), 0)
  /\ default datetime_field 5 = (Ok (VDatetime 5), 6)
  /\ default required_int_field 0
     = (Raise (InvalidFieldValueException MsgFieldRequiredButNone (Some "age") VNone), 0).
Proof.
  split; [|split].
  - apply (default_of_constructed sample_utcnow no_kwargs boolean_field 0 eq_refl).
    by exists None.
  - apply (default_of_constructed sample_utcnow no_kwargs datetime_field 5 eq_refl).
    + by exists unbounded, unbounded, None.
    + discriminate.
  - apply (default_of_constructed sample_utcnow required_kwargs required_int_field 0
             eq_refl).
    left. by exists unbounded, unbounded, None.
Defined.

Lemma list_field_constructor_witness :
  (exists b, ListField_init (OVal (VInt 0)) None None no_kwargs
             = Ok (Multi ListField b [] None ContainerList))
  /\ ListField_init (OVal (VInt 3)) None None no_kwargs
     = Raise (InvalidFieldDefinition MsgElementValidatorNotBaseField None).
Proof.
  split.
  - apply (list_field_constructor (OVal (VInt 0)) None None no_kwargs eq_refl).
    reflexivity.
  - apply (list_field_constructor (OVal (VInt 3)) None None no_kwargs eq_refl).
    + reflexivity.
    + discriminate.
Defined.

Lemma dict_field_false_validator_witness :
  fst (validate sample_parse zero_key_dict_field (VDict [(VInt 1, VInt 2)]) 0)
  = Raise AttributeError.
Proof.
  apply (dict_field_false_validator sample_parse (VInt 0) (OVal VNone) None no_kwargs
           zero_key_dict_field (VInt 1) (VInt 2) [] 0 eq_refl).
  - discriminate.
  - reflexivity.
Defined.

Lemma inflexibility_is_inherited_witness :
  exists final,
    _schema_flexible (derive_all [child_body; grandchild_body] base_state) = Some final
    /\ obj_truth final = false.
Proof.
  exact (inflexibility_is_inherited [child_body; grandchild_body] base_state
           (OPlain (VBool true)) eq_refl).
Defined.

Lemma nearest_declaration_wins_witness :
  exists schema,
    _schema (derive_all [child_body; grandchild_body] base_state) = Some schema
    /\ forall k,
         schema !! k
         = nearest k [child_body; grandchild_body]
             ((<["title" := 2%nat]> ∅ : gmap string loc) !! k).
Proof.
  exact (nearest_declaration_wins [child_body; grandchild_body] base_state
           (<["title" := 2%nat]> ∅) eq_refl).
Defined.

End SampleFurther.

(* ===================================================================== *)
(** * Properties of the exception messages *)
(* ===================================================================== *)

Section Messages.

Lemma lstrip_app (chars : string) (a : Ascii.ascii) (s t : string) :
  strips chars a = false ->
  lstrip chars (s +:+ String a t) = lstrip chars s +:+ String a t.
Proof.
  intros Ha. induction s as [|b s IH].
  - change ("" +:+ String a t) with (String a t). simpl. by rewrite Ha.
  - change (String b s +:+ String a t) with (String b (s +:+ String a t)). simpl.
    destruct (strips chars b); [exact IH|reflexivity].
Qed.

Lemma rstrip_app (chars s t : string) :
  rstrip chars t <> EmptyString -> rstrip chars (s +:+ t) = s +:+ rstrip chars t.
Proof.
  intros Ht. induction s as [|b s IH]; [done|].
  change (String b s +:+ t) with (String b (s +:+ t)).
  change (String b s +:+ rstrip chars t) with (String b (s +:+ rstrip chars t)).
  simpl. rewrite IH.
  destruct (s +:+ rstrip chars t) eqn:E; [|done].
  destruct s as [|c s]; [by destruct Ht|discriminate].
Qed.

Lemma string_app_assoc (s t u : string) : (s +:+ t) +:+ u = s +:+ (t +:+ u).
Proof.
  induction s as [|a s IH]; [done|].
  change (String a ((s +:+ t) +:+ u) = String a (s +:+ (t +:+ u))). by rewrite IH.
Qed.

Lemma get_message_strips (name text : string) (m : Ascii.ascii) (rest : string) :
  text = String m rest ->
  strips " " m = false ->
  rstrip ":" (" " +:+ text) = " " +:+ text ->
  rstrip " " text = text ->
  strip " " (strip ":" ((name +:+ ": ") +:+ text))
  = lstrip " " (lstrip ":" (name +:+ ":") +:+ " ") +:+ text.
Proof.
  intros Htext Hm Hcolon Hspace. unfold strip.
  assert (Hne : text <> EmptyString) by (rewrite Htext; discriminate).
  replace ((name +:+ ": ") +:+ text) with ((name +:+ ":") +:+ (" " +:+ text))
    by (rewrite !string_app_assoc; reflexivity).
  change (" " +:+ text) with (String (Ascii.Ascii false false false false false true false false) text) at 1.
  rewrite lstrip_app by reflexivity.
  rewrite rstrip_app by (change (String _ text) with (" " +:+ text); rewrite Hcolon; discriminate).
  change (String _ text) with (" " +:+ text). rewrite Hcolon.
  replace (lstrip ":" (name +:+ ":") +:+ " " +:+ text)
    with ((lstrip ":" (name +:+ ":") +:+ " ") +:+ text)
    by (rewrite !string_app_assoc; reflexivity).
  rewrite Htext at 1. rewrite lstrip_app by exact Hm. rewrite <- Htext.
  rewrite rstrip_app by (rewrite Hspace; exact Hne). by rewrite Hspace.
Qed.

(** X19.  [InvalidFieldException.get_message] ends with a fixed text,
    ['Missing field(s)'] or ['Field(s) is/are not allowed'] by [missing], and
    is that text alone without a field; with a field it is the field's name,
    a colon and a blank before the text, after the colons and then the
    blanks at the front have been stripped: a name that begins with neither
    comes out whole, an empty name leaves the text alone. *)
Theorem get_message_names_the_field (missing : bool) :
  let text := get_message_text missing in
  InvalidFieldException_get_message None missing = text
  /\ (forall name,
        InvalidFieldException_get_message (Some name) missing
        = lstrip " " (lstrip ":" (name +:+ ":") +:+ " ") +:+ text)
  /\ (forall c rest, strips ":" c = false -> strips " " c = false ->
        InvalidFieldException_get_message (Some (String c rest)) missing
        = String c rest +:+ ": " +:+ text)
  /\ InvalidFieldException_get_message (Some "") missing = text.
Proof.
  intros text.
  assert (Hname : forall name,
            InvalidFieldException_get_message (Some name) missing
            = lstrip " " (lstrip ":" (name +:+ ":") +:+ " ") +:+ text).
  { intros name. unfold InvalidFieldException_get_message, text, get_message_text.
    destruct missing; eapply get_message_strips; reflexivity. }
  split; [by destruct missing|]. split; [exact Hname|]. split.
  - intros c rest Hc Hs. rewrite Hname.
    change (String c rest +:+ ":") with (String c (rest +:+ ":")).
    simpl lstrip. rewrite Hc.
    change ((String c (rest +:+ ":")) +:+ " ") with (String c ((rest +:+ ":") +:+ " ")).
    simpl lstrip. rewrite Hs. rewrite string_app_assoc.
    change (String c ((rest +:+ ": ") +:+ text) = String c (rest +:+ ": " +:+ text)).
    by rewrite string_app_assoc.
  - rewrite Hname. reflexivity.
Qed.

End Messages.

(* ===================================================================== *)
(** * Properties of the named instances *)
(* ===================================================================== *)

Section NamedInstances.
Import Singleton.

(** ** Lookups in the items of a dict *)



(** ** [get_default_args] *)

Lemma dict_of_zip_absent (ks : list string) (vs : list PyVal) (d : gmap string PyVal) k :
  k ∉ ks -> foldl (fun d kv => <[kv.1 := kv.2]> d) d (zip ks vs) !! k = d !! k.
Proof.
  revert vs d. induction ks as [|k0 ks IH]; intros vs d Hk; [done|].
  destruct vs as [|v vs]; [done|]. cbn [zip zip_with foldl].
  rewrite IH by (intros Hin; apply Hk; by right).
  cbn [fst snd]. apply lookup_insert_ne. intros ->. apply Hk. by left.
Qed.

Lemma dict_of_zip_lookup (ks : list string) (vs : list PyVal) (d : gmap string PyVal)
    (j : nat) k v :
  NoDup ks -> ks !! j = Some k -> vs !! j = Some v ->
  foldl (fun d kv => <[kv.1 := kv.2]> d) d (zip ks vs) !! k = Some v.
Proof.
  intros Hnd. revert vs d j. induction Hnd as [|k0 ks Hk0 Hnd IH]; intros vs d j Hk Hv.
  - by destruct j.
  - destruct vs as [|v0 vs]; [by destruct j|]. cbn [zip zip_with foldl].
    destruct j as [|j]; cbn in Hk, Hv.
    + injection Hk as ->. injection Hv as ->.
      rewrite dict_of_zip_absent by done. cbn [fst snd]. apply lookup_insert_eq.
    + by apply (IH vs _ j).
Qed.

(** X20.  [get_default_args] binds exactly the parameters that have a
    default, each to its own default: with [n] defaults the last [n]
    parameters are bound, in order, and no other name is; without a
    function, or without defaults, nothing is bound. *)
Theorem default_args_bind_trailing_parameters (args : list string) (defaults : list PyVal) :
  NoDup args ->
  let bound := get_default_args (Some {| spec_args := args;
                                         spec_defaults := Some defaults |}) in
  let plain := (length args - length defaults)%nat in
  (forall i name, args !! i = Some name ->
     bound !! name = if (i <? plain)%nat then None else defaults !! (i - plain)%nat)
  /\ (forall name, name ∉ args -> bound !! name = None)
  /\ get_default_args None = ∅
  /\ get_default_args (Some {| spec_args := args; spec_defaults := None |}) = ∅.
Proof.
  intros Hnd bound plain.
  assert (Hbound : bound = dict_of (zip (drop plain args) defaults)).
  { unfold bound, get_default_args, last_items. cbn [spec_defaults spec_args].
    destruct defaults; [|done]. by destruct (drop _ _). }
  assert (Hnd' : NoDup (drop plain args)).
  { rewrite <- (take_drop plain args) in Hnd. by apply NoDup_app in Hnd as (_ & _ & ?). }
  split; [|split; [|done]].
  - intros i name Hi. rewrite Hbound. unfold dict_of.
    destruct (Nat.ltb_spec i plain) as [Hlt|Hge].
    + rewrite dict_of_zip_absent; [done|].
      intros Hin. apply list_elem_of_lookup_1 in Hin as (j & Hj).
      rewrite lookup_drop in Hj.
      assert (Heq : (plain + j)%nat = i) by exact (NoDup_lookup args _ _ name Hnd Hj Hi).
      lia.
    + destruct (defaults !! (i - plain)%nat) as [v|] eqn:Hv.
      * apply (dict_of_zip_lookup _ _ _ (i - plain)); [done| |done].
        rewrite lookup_drop. by replace (plain + (i - plain))%nat with i by lia.
      * apply lookup_ge_None in Hv. apply lookup_lt_Some in Hi. unfold plain in *. lia.
  - intros name Hname. rewrite Hbound. unfold dict_of.
    rewrite dict_of_zip_absent; [done|].
    intros Hin. apply Hname. apply list_elem_of_lookup_1 in Hin as (j & Hj).
    rewrite lookup_drop in Hj. by apply list_elem_of_lookup_2 in Hj.
Qed.

End NamedInstances.

Section Registry.
Import Singleton.
Context {W : Type}.
Variable construct : list PyVal -> gmap string PyVal -> W -> Result PyVal * W.







End Registry.

(** ** The messages and the named instances on the samples *)

Section SampleInstances.
Import Samples Singleton.

Lemma get_message_names_the_field_witness :
  InvalidFieldException_get_message (Some "age") true = "age: Missing field(s)"
  /\ InvalidFieldException_get_message (Some "::age") false
     = "age: Field(s) is/are not allowed".
Proof.
  split.
  - apply (get_message_names_the_field true); reflexivity.
  - destruct (get_message_names_the_field false) as (_ & Hname & _).
    rewrite Hname. reflexivity.
Defined.

Lemma default_args_bind_trailing_parameters_witness :
  get_default_args (Some connection_init) !! "size" = Some (VInt 3)
  /\ get_default_args (Some connection_init) !! "self" = None.
Proof.
  assert (Hnd : NoDup ["self"; "name"; "size"]).
  { apply (bool_decide_unpack (NoDup ["self"; "name"; "size"])). vm_compute. exact I. }
  destruct (default_args_bind_trailing_parameters ["self"; "name"; "size"]
              [VStr "main"; VInt 3] Hnd) as (Hbound & _).
  split.
  - exact (Hbound 2%nat "size" eq_refl).
  - exact (Hbound 0%nat "self" eq_refl).
Defined.



End SampleInstances.

(* ===================================================================== *)
(** * The names of the fields *)
(* ===================================================================== *)

Section Naming.
Context {W : Type}.
Implicit Types (st : @State W) (h : gmap loc (@Field W)) (d : gmap string Obj)
  (items : list (string * Obj)) (stmts : list Stmt) (f : @Field W).

(** The plain composition is the one in the order of [map_to_list]. *)
Lemma init_in_map_to_list d (parent : option Parent) st :
  DocumentMetaClass_init d parent st
  = DocumentMetaClass_init_in (map_to_list d) d parent st.
Proof. reflexivity. Qed.

Lemma items_of_map_to_list d : items_of d (map_to_list d).
Proof. split; [apply NoDup_fst_map_to_list|apply list_to_map_to_list]. Qed.

Lemma items_of_elem d items k o :
  items_of d items -> (k, o) ∈ items <-> d !! k = Some o.
Proof. intros [Hnd <-]. by apply elem_of_list_to_map. Qed.

Lemma scanned_items_of d items : items_of d items -> scanned items ∅ = own_fields d.
Proof.
  intros Hitems. apply map_eq. intros k.
  destruct (own_fields d !! k) as [v|] eqn:E.
  - apply own_fields_lookup in E.
    apply scanned_present; [apply Hitems|]. by apply (items_of_elem d).
  - rewrite scanned_absent; [apply lookup_empty|].
    intros v Hin. apply (items_of_elem d) in Hin; [|done].
    apply own_fields_lookup in Hin. congruence.
Qed.

(** The attributes of the class once [__init__] has returned, in whatever
    order the loop met the items. *)
Lemma init_in_attrs items d parent st :
  items_of d items ->
  let st' := DocumentMetaClass_init_in items d parent st in
  let own := get d "_schema_flexible" (OPlain (VBool true)) in
  _schema st'
  = Some (update (own_fields d) (inherited (schema_of_parent parent) (own_fields d)))
  /\ _schema_flexible st'
     = Some (match flexible_of_parent parent with
             | Some theirs => obj_and theirs own
             | None => own
             end)
  /\ _schema_lock st' = Some Unlocked.
Proof.
  intros Hitems. unfold DocumentMetaClass_init_in, statements_in. cbv zeta.
  rewrite run_app, run_app.
  change (run [AssignSchema] st) with (exec AssignSchema st).
  destruct (run_scan_attrs items (exec AssignSchema st)) as (Hs & _ & _).
  change (_schema (exec AssignSchema st)) with (@Some (gmap string loc) ∅) in Hs.
  destruct (run_tail parent (get d "_schema_flexible" (OPlain (VBool true)))
              (run (flat_map scan_item items) (exec AssignSchema st)))
    as (Hs' & Hf' & Hl').
  rewrite Hs in Hs'. simpl in Hs'. rewrite (scanned_items_of d) in Hs' by done. auto.
Qed.

Lemma init_in_heap items d (parent : option Parent) st :
  heap (DocumentMetaClass_init_in items d parent st)
  = heap (run (flat_map scan_item items) st).
Proof.
  unfold DocumentMetaClass_init_in, statements_in. cbv zeta.
  rewrite run_app, run_app, run_heap_tail.
  change (run [AssignSchema] st) with (exec AssignSchema st).
  by apply run_heap_congruence.
Qed.

Lemma named_by_nil v f : named_by [] v f = f.
Proof. reflexivity. Qed.

Lemma named_by_cons_here k v items f :
  named_by ((k, OFieldRef v) :: items) v f = set_field_name (Some k) f.
Proof.
  unfold named_by, first_binding. cbn [List.find binds snd].
  by rewrite bool_decide_eq_true_2.
Qed.

Lemma named_by_cons_other k o v items f :
  (forall u, o = OFieldRef u -> u <> v) ->
  named_by ((k, o) :: items) v f = named_by items v f.
Proof.
  intros Ho. unfold named_by, first_binding.
  destruct o as [u|pv]; cbn [List.find binds snd]; [|done].
  by rewrite bool_decide_eq_false_2 by by apply Ho.
Qed.

Lemma named_by_set_field_name items v (k : string) f :
  named_by items v (set_field_name (Some k) f) = set_field_name (Some k) f.
Proof.
  unfold named_by. destruct (first_binding items v) as [k'|]; [|done].
  apply set_field_name_twice.
Qed.

(** The scanning loop gives each field object the first name it meets it
    under, and nothing else. *)
Lemma run_scan_heap items st v :
  heap (run (flat_map scan_item items) st) !! v = named_by items v <$> heap st !! v.
Proof.
  revert st. induction items as [|[k [u|pv]] items IH]; intros st.
  - cbn. by destruct (heap st !! v).
  - change (flat_map scan_item ((k, OFieldRef u) :: items))
      with ([SetFieldName u k; SchemaSetItem k u] ++ flat_map scan_item items).
    rewrite run_app, IH.
    change (heap (run [SetFieldName u k; SchemaSetItem k u] st))
      with (alter (set_field_name (Some k)) u (heap st)).
    destruct (decide (u = v)) as [->|Hne].
    + rewrite lookup_alter_eq. destruct (heap st !! v) as [f|]; [|done]. cbn.
      by rewrite named_by_set_field_name, named_by_cons_here.
    + rewrite lookup_alter_ne by done. destruct (heap st !! v) as [f|]; [|done]. cbn.
      rewrite (named_by_cons_other k (OFieldRef u)); [done|]. by intros ? [= <-].
  - change (flat_map scan_item ((k, OPlain pv) :: items)) with (flat_map scan_item items).
    rewrite IH. destruct (heap st !! v) as [f|]; [|done]. cbn.
    by rewrite (named_by_cons_other k (OPlain pv)).
Qed.

Lemma first_binding_Some items v k :
  first_binding items v = Some k -> (k, OFieldRef v) ∈ items.
Proof.
  unfold first_binding. destruct (List.find (binds v) items) as [[k' o]|] eqn:Hfind;
    [|discriminate].
  intros [= <-]. apply find_some in Hfind as [Hin Hb].
  unfold binds in Hb. cbn in Hb. destruct o as [u|]; [|discriminate].
  apply bool_decide_eq_true_1 in Hb as ->. by apply list_elem_of_In.
Qed.

Lemma first_binding_is_Some items v k :
  (k, OFieldRef v) ∈ items -> is_Some (first_binding items v).
Proof.
  intros Hin. unfold first_binding.
  destruct (List.find (binds v) items) as [[k' o]|] eqn:Hfind; [by eexists|].
  apply list_elem_of_In in Hin.
  pose proof (find_none _ _ Hfind _ Hin) as Hb. unfold binds in Hb. cbn in Hb.
  by rewrite bool_decide_eq_true_2 in Hb.
Qed.

(** C5.  [field_name] is write-once.  The setter stores the name it is
    given in a field that has none, and changes nothing else of the field;
    on a field that has a name, be it from an explicit [field_name] at
    construction or from an earlier assignment, it changes nothing.
    Composition, the loop taken in the order [items] of
    [dictionary.items()], leaves every field object as the setter leaves it
    when given the first attribute the object is bound to: a declared field
    that had no name is named after that attribute, which is its declaring
    attribute when it is bound to one only; a field that had a name keeps
    it, also when it is bound to other attributes; an object the body does
    not declare is not touched.  And when the field objects of the body
    exist and the parent's schema holds named fields only, every field of
    the composed schema has a name. *)
Theorem field_name_write_once items d (parent : option Parent) st :
  items_of d items ->
  allocated (heap st) d ->
  all_named (heap st) (schema_of_parent parent) ->
  let st' := DocumentMetaClass_init_in items d parent st in
  (forall f name, field_name f = None ->
     field_name (set_field_name name f) = name
     /\ with_base (set_field_name name f) (base f) = f)
  /\ (forall f n name, field_name f = Some n -> set_field_name name f = f)
  /\ (forall choices allowed_types (kwargs : @Kwargs W) b,
        BaseField_init choices allowed_types kwargs = Ok b ->
        _field_name b = kw_field_name kwargs)
  /\ (forall v, heap st' !! v = named_by items v <$> heap st !! v)
  /\ (forall k v f, d !! k = Some (OFieldRef v) -> heap st !! v = Some f ->
        exists f', heap st' !! v = Some f'
          /\ (forall n, field_name f = Some n -> f' = f)
          /\ (field_name f = None ->
                exists k', first_binding items v = Some k'
                  /\ d !! k' = Some (OFieldRef v)
                  /\ f' = set_field_name (Some k') f
                  /\ field_name f' = Some k'
                  /\ ((forall k'', d !! k'' = Some (OFieldRef v) -> k'' = k) -> k' = k)))
  /\ (forall v f, (forall k, d !! k <> Some (OFieldRef v)) ->
        heap st !! v = Some f -> heap st' !! v = Some f)
  /\ keeps_names (heap st) (heap st')
  /\ exists schema,
       _schema st' = Some schema /\ all_named (heap st') schema.
Proof.
  intros Hitems Halloc Hparent st'.
  assert (Hheap : forall v, heap st' !! v = named_by items v <$> heap st !! v).
  { intros v. unfold st'. rewrite init_in_heap. apply run_scan_heap. }
  split; [|split; [|split; [|split; [|split; [|split; [|split]]]]]].
  - intros f name Hf. split.
    + rewrite field_name_set_field_name. by rewrite Hf.
    + unfold set_field_name, field_name in *. rewrite Hf. by destruct f.
  - intros f n name. apply set_field_name_named.
  - intros choices allowed_types kwargs b Hb.
    by apply BaseField_init_attrs in Hb as (_ & _ & _ & ? & _).
  - exact Hheap.
  - intros k v f Hk Hv. rewrite Hheap, Hv. cbn. eexists. split; [reflexivity|].
    assert (Hin : (k, OFieldRef v) ∈ items) by by apply (items_of_elem d).
    destruct (first_binding_is_Some items v k Hin) as [k' Hk'].
    unfold named_by. rewrite Hk'. split.
    + intros n Hn. by apply (set_field_name_named f (Some k') n).
    + intros Hnone. exists k'. split; [done|].
      pose proof (first_binding_Some items v k' Hk') as Hin'.
      apply (items_of_elem d) in Hin'; [|done].
      split; [done|]. split; [done|]. split.
      * rewrite field_name_set_field_name. by rewrite Hnone.
      * intros Honly. by apply Honly.
  - intros v f Hnot Hv. rewrite Hheap, Hv. cbn. f_equal.
    unfold named_by. destruct (first_binding items v) as [k|] eqn:Hk; [|done].
    apply first_binding_Some in Hk. apply (items_of_elem d) in Hk; [|done].
    by destruct (Hnot k).
  - unfold st', DocumentMetaClass_init_in. apply run_keeps_names.
  - destruct (init_in_attrs items d parent st Hitems) as (Hs & _ & _).
    eexists. split; [exact Hs|].
    intros k v. rewrite update_lookup.
    destruct (own_fields d !! k) as [v'|] eqn:Hown.
    + intros [= ->]. apply own_fields_lookup in Hown.
      destruct (Halloc k v Hown) as [f Hf].
      assert (Hin : (k, OFieldRef v) ∈ items) by by apply (items_of_elem d).
      destruct (first_binding_is_Some items v k Hin) as [k' Hk'].
      exists (named_by items v f), (from_option id k' (field_name f)).
      rewrite Hheap, Hf. split; [reflexivity|].
      unfold named_by. rewrite Hk'. rewrite field_name_set_field_name.
      by destruct (field_name f).
    + intros Hk. apply (named_kept (heap st)); [apply run_keeps_names|].
      by apply (Hparent k).
Qed.
End Naming.

(** ** The names on the sample class *)

Section SampleNaming.
Import Samples.

Lemma sample_items : items_of child_body child_items.
Proof.
  split.
  - apply (bool_decide_unpack (NoDup child_items.*1)). vm_compute. exact I.
  - vm_compute. reflexivity.
Qed.

Lemma field_name_write_once_witness :
  let st' := DocumentMetaClass_init_in child_items child_body (Some base_class)
               (new_class sample_heap) in
  items_of child_body child_items
  /\ allocated sample_heap child_body
  /\ all_named sample_heap (schema_of_parent (Some base_class))
  /\ field_name int_field = None
  /\ heap st' !! 1%nat = Some (set_field_name (Some "age") int_field)
  /\ (field_name <$> heap st' !! 1%nat) = Some (Some "age")
  /\ heap st' !! 2%nat = Some title_field
  /\ exists schema, _schema st' = Some schema /\ all_named (heap st') schema.
Proof.
  intros st'.
  destruct (field_name_write_once child_items child_body (Some base_class)
              (new_class sample_heap) sample_items sample_allocated sample_parent_named)
    as (_ & _ & _ & Hheap & _ & _ & _ & Hschema).
  fold st' in Hheap, Hschema.
  split; [exact sample_items|]. split; [exact sample_allocated|].
  split; [exact sample_parent_named|]. split; [reflexivity|].
  split; [rewrite Hheap; reflexivity|].
  split; [rewrite Hheap; reflexivity|].
  split; [rewrite Hheap; reflexivity|].
  exact Hschema.
Defined.

End SampleNaming.
